(** * Gemini personal assistant: tool dispatch and orchestration loop

    A shallow embedding of [src/gemini_assistant/assistant.py] and
    [src/gemini_assistant/tools.py].

    Python objects are embedded as follows.
    - A [str] is the list of its Unicode code points.
    - A JSON-like object ([None], [bool], [int], [float], [str], [list],
      [dict] with string keys, kept in insertion order) is a [value].
    - A [float] is a binary64 number, Rocq's primitive [float].
    - An exception is an [exn]: the classes it is an instance of and the text
      [str(exc)] gives.  A computation that may raise returns an [outcome].
    - A method of [GeminiAssistant] is a function from the object to an
      outcome and the object afterwards: what a method did before it raised
      stays done.
    - The [while True] loop has no bound in the program.  Its model takes
      [fuel], the number of passes it is unfolded for, and gives [None] when
      the loop is still going after them: [fuel] is not a parameter of the
      program.

    What the program calls and does not define (the language-model backend,
    the HTTP providers, [dateutil]'s parser, Python's decimal-to-float
    conversion, [repr] and Unicode lower-casing) is an [Externals] record. *)

From Stdlib Require Import String Ascii DecimalString.
From Stdlib Require Import List NArith ZArith Bool Lia Floats.
From Stdlib Require DecimalFacts DecimalN.
Import ListNotations.
Open Scope string_scope.
Open Scope list_scope.

Set Implicit Arguments.
Set Warnings "-register-all".

(* ===================================================================== *)
(** ** Python strings *)
(* ===================================================================== *)

Abbreviation codepoint := N (only parsing).
Abbreviation str := (list N) (only parsing).

Definition bytes_of_string (s : string) : list N :=
  map N_of_ascii (list_ascii_of_string s).

(** Literals of this file are written in UTF-8; [utf8_decode] reads the code
    points back. *)
Fixpoint utf8_decode (bs : list N) : str :=
  match bs with
  | [] => []
  | b0 :: r0 =>
      if (b0 <? 128)%N then b0 :: utf8_decode r0
      else if (b0 <? 224)%N then
        match r0 with
        | b1 :: r1 => ((b0 - 192) * 64 + (b1 - 128))%N :: utf8_decode r1
        | _ => []
        end
      else if (b0 <? 240)%N then
        match r0 with
        | b1 :: b2 :: r2 =>
            ((b0 - 224) * 4096 + (b1 - 128) * 64 + (b2 - 128))%N :: utf8_decode r2
        | _ => []
        end
      else
        match r0 with
        | b1 :: b2 :: b3 :: r3 =>
            ((b0 - 240) * 262144 + (b1 - 128) * 4096 + (b2 - 128) * 64 + (b3 - 128))%N
              :: utf8_decode r3
        | _ => []
        end
  end.

Definition u (s : string) : str := utf8_decode (bytes_of_string s).

Definition str_eqb (a b : str) : bool :=
  if list_eq_dec N.eq_dec a b then true else false.

Definition str_in (a : str) (l : list str) : bool := existsb (str_eqb a) l.

(** [str.isspace] on one character. *)
Definition py_isspace (c : codepoint) : bool :=
  ((9 <=? c) && (c <=? 13) || (28 <=? c) && (c <=? 32)
   || (c =? 133) || (c =? 160) || (c =? 5760)
   || (8192 <=? c) && (c <=? 8202)
   || (c =? 8232) || (c =? 8233) || (c =? 8239) || (c =? 8287) || (c =? 12288))%N.

Fixpoint lstrip_by (p : codepoint -> bool) (s : str) : str :=
  match s with
  | c :: r => if p c then lstrip_by p r else s
  | [] => []
  end.

Definition rstrip_by (p : codepoint -> bool) (s : str) : str :=
  rev (lstrip_by p (rev s)).

Definition strip_by (p : codepoint -> bool) (s : str) : str :=
  rstrip_by p (lstrip_by p s).

(** [s.strip()] *)
Definition py_strip (s : str) : str := strip_by py_isspace s.

(** [s.strip(chars)] *)
Definition py_strip_chars (chars s : str) : str :=
  strip_by (fun c => existsb (N.eqb c) chars) s.

(** Line boundaries of [str.splitlines]. *)
Definition is_linebreak (c : codepoint) : bool :=
  ((10 <=? c) && (c <=? 13) || (28 <=? c) && (c <=? 30)
   || (c =? 133) || (c =? 8232) || (c =? 8233))%N.

(** [splitlines_from cur s]: [cur] is the line being read, reversed. *)
Fixpoint splitlines_from (cur : str) (s : str) : list str :=
  match s with
  | [] => match cur with [] => [] | _ => [rev cur] end
  | c :: r =>
      if (c =? 13)%N then
        match r with
        | c' :: r' =>
            if (c' =? 10)%N then rev cur :: splitlines_from [] r'
            else rev cur :: splitlines_from [] r
        | [] => [rev cur]
        end
      else if is_linebreak c then rev cur :: splitlines_from [] r
      else splitlines_from (c :: cur) r
  end.

(** [s.splitlines()] *)
Definition py_splitlines (s : str) : list str := splitlines_from [] s.

(** [sep.join(items)] *)
Fixpoint py_join (sep : str) (items : list str) : str :=
  match items with
  | [] => []
  | [x] => x
  | x :: rest => x ++ sep ++ py_join sep rest
  end.

(** [s.replace(" ", "%20")]: one character replaced by a string. *)
Definition py_replace_char (c : codepoint) (by_ : str) (s : str) : str :=
  flat_map (fun x => if (x =? c)%N then by_ else [x]) s.

Definition is_ascii (c : codepoint) : bool := (c <? 128)%N.

Definition ascii_lower (c : codepoint) : codepoint :=
  if ((65 <=? c) && (c <=? 90))%N then (c + 32)%N else c.

(** [needle in hay] for two strings. *)
Fixpoint is_prefix (p s : str) : bool :=
  match p, s with
  | [], _ => true
  | a :: p', b :: s' => (a =? b)%N && is_prefix p' s'
  | _ :: _, [] => false
  end.

Fixpoint is_substring (needle hay : str) : bool :=
  is_prefix needle hay
  || match hay with
     | [] => false
     | _ :: hay' => is_substring needle hay'
     end.

(** Decimal digits of a natural number, and [%0wd]. *)
Definition dec (n : N) : str := u (NilEmpty.string_of_uint (N.to_uint n)).

Definition zfill (w : nat) (s : str) : str :=
  repeat 48%N (w - length s) ++ s.

Definition dec_Z (z : Z) : str :=
  match z with
  | Zneg p => u "-" ++ dec (Npos p)
  | _ => dec (Z.to_N z)
  end.

(* ===================================================================== *)
(** ** Python values and exceptions *)
(* ===================================================================== *)

Inductive value : Type :=
| VNone
| VBool (b : bool)
| VInt (z : Z)
| VFloat (f : float)
| VStr (s : str)
| VList (l : list value)
| VDict (d : list (str * value)).

Definition dict := list (str * value).

Inductive pyclass : Type :=
| BaseException | Exception
| ValueError | TypeError | AttributeError
| LookupError | KeyError | IndexError
| ArithmeticError | OverflowError
| RuntimeError
| OtherClass (name : str).

Definition pyclass_eqb (a b : pyclass) : bool :=
  match a, b with
  | BaseException, BaseException | Exception, Exception
  | ValueError, ValueError | TypeError, TypeError
  | AttributeError, AttributeError | LookupError, LookupError
  | KeyError, KeyError | IndexError, IndexError
  | ArithmeticError, ArithmeticError | OverflowError, OverflowError
  | RuntimeError, RuntimeError => true
  | OtherClass n, OtherClass m => str_eqb n m
  | _, _ => false
  end.

(** A raised exception: the classes it is an instance of (its own class
    first) and [str(exc)]. *)
Record exn : Type := mk_exn { exn_mro : list pyclass; exn_msg : str }.

(** [isinstance(exc, cls)] *)
Definition isinstance (e : exn) (cls : pyclass) : bool :=
  existsb (pyclass_eqb cls) (exn_mro e).

Definition mk_ValueError (msg : str) : exn :=
  mk_exn [ValueError; Exception; BaseException] msg.
Definition mk_TypeError (msg : str) : exn :=
  mk_exn [TypeError; Exception; BaseException] msg.
Definition mk_AttributeError (msg : str) : exn :=
  mk_exn [AttributeError; Exception; BaseException] msg.
Definition mk_KeyError (msg : str) : exn :=
  mk_exn [KeyError; LookupError; Exception; BaseException] msg.
Definition mk_IndexError (msg : str) : exn :=
  mk_exn [IndexError; LookupError; Exception; BaseException] msg.
Definition mk_OverflowError (msg : str) : exn :=
  mk_exn [OverflowError; ArithmeticError; Exception; BaseException] msg.
Definition mk_RuntimeError (msg : str) : exn :=
  mk_exn [RuntimeError; Exception; BaseException] msg.

Inductive outcome (A : Type) : Type :=
| Ret (a : A)
| Raise (e : exn).
Arguments Raise {A} e.

Definition obind {A B : Type} (c : outcome A) (k : A -> outcome B) : outcome B :=
  match c with
  | Ret a => k a
  | Raise e => Raise e
  end.

Declare Scope outcome_scope.
Delimit Scope outcome_scope with O.
Notation "x <- c ;; k" := (obind c (fun x => k))
  (at level 61, c at next level, right associativity) : outcome_scope.

(** [xs] evaluated left to right, stopping at the first exception. *)
Fixpoint omap {A B : Type} (f : A -> outcome B) (xs : list A) : outcome (list B) :=
  match xs with
  | [] => Ret []
  | x :: r => (y <- f x ;; ys <- omap f r ;; Ret (y :: ys))%O
  end.

(** [type(v).__name__] *)
Definition type_name (v : value) : str :=
  match v with
  | VNone => u "NoneType"
  | VBool _ => u "bool"
  | VInt _ => u "int"
  | VFloat _ => u "float"
  | VStr _ => u "str"
  | VList _ => u "list"
  | VDict _ => u "dict"
  end.

(** Truth value of an object, as [if v:] and [v or w] test it. *)
Definition truthy (v : value) : bool :=
  match v with
  | VNone => false
  | VBool b => b
  | VInt z => negb (z =? 0)%Z
  | VFloat f => negb (f =? 0)%float
  | VStr s => match s with [] => false | _ => true end
  | VList l => match l with [] => false | _ => true end
  | VDict d => match d with [] => false | _ => true end
  end.

Fixpoint dict_get (d : dict) (k : str) : option value :=
  match d with
  | [] => None
  | (k', v) :: r => if str_eqb k' k then Some v else dict_get r k
  end.

Definition dict_keys (d : dict) : list str := map fst d.

Definition has_key (v : value) (k : str) : bool :=
  match v with
  | VDict d => str_in k (dict_keys d)
  | _ => false
  end.

(** [d[k] = v] on a dict: the value of an existing key is replaced in place,
    a new key goes last. *)
Fixpoint dict_set (d : dict) (k : str) (v : value) : dict :=
  match d with
  | [] => [(k, v)]
  | (k', v') :: r => if str_eqb k' k then (k, v) :: r else (k', v') :: dict_set r k v
  end.

Definition no_attribute (v : value) (attr : str) : exn :=
  mk_AttributeError
    (u "'" ++ type_name v ++ u "' object has no attribute '" ++ attr ++ u "'").

(** [v.get(k)] *)
Definition py_get (v : value) (k : str) : outcome value :=
  match v with
  | VDict d => Ret (match dict_get d k with Some x => x | None => VNone end)
  | _ => Raise (no_attribute v (u "get"))
  end.

(** [v.get(k, default)] *)
Definition py_get_default (v : value) (k : str) (default : value) : outcome value :=
  match v with
  | VDict d => Ret (match dict_get d k with Some x => x | None => default end)
  | _ => Raise (no_attribute v (u "get"))
  end.

(** [v.strip()] *)
Definition py_strip_method (v : value) : outcome str :=
  match v with
  | VStr s => Ret (py_strip s)
  | _ => Raise (no_attribute v (u "strip"))
  end.

(** [v[k]] for a string key (messages as CPython 3.11 words them). *)
Definition py_getitem_key (v : value) (k : str) : outcome value :=
  match v with
  | VDict d =>
      match dict_get d k with
      | Some x => Ret x
      | None => Raise (mk_KeyError (u "'" ++ k ++ u "'"))
      end
  | VList _ => Raise (mk_TypeError (u "list indices must be integers or slices, not str"))
  | VStr _ => Raise (mk_TypeError (u "string indices must be integers, not 'str'"))
  | _ => Raise (mk_TypeError (u "'" ++ type_name v ++ u "' object is not subscriptable"))
  end.

(** [v[0]] *)
Definition py_getitem_0 (v : value) : outcome value :=
  match v with
  | VList (x :: _) => Ret x
  | VList [] => Raise (mk_IndexError (u "list index out of range"))
  | VStr (c :: _) => Ret (VStr [c])
  | VStr [] => Raise (mk_IndexError (u "string index out of range"))
  | VDict _ => Raise (mk_KeyError (u "0"))
  | _ => Raise (mk_TypeError (u "'" ++ type_name v ++ u "' object is not subscriptable"))
  end.

(** The items [for x in v] visits. *)
Definition py_iter (v : value) : outcome (list value) :=
  match v with
  | VList l => Ret l
  | VStr s => Ret (map (fun c => VStr [c]) s)
  | VDict d => Ret (map VStr (dict_keys d))
  | _ => Raise (mk_TypeError (u "'" ++ type_name v ++ u "' object is not iterable"))
  end.

(* ===================================================================== *)
(** ** Floats: [float(int)] and the format [.0f] *)
(* ===================================================================== *)

(** [float(z)]: round to nearest, ties to even; too large raises. *)
Definition float_of_Z (z : Z) : outcome float :=
  let f := SF2Prim (SpecFloat.binary_normalize 53 1024 z 0 false) in
  if is_infinity f
  then Raise (mk_OverflowError (u "int too large to convert to float"))
  else Ret f.

(** The integer nearest to [m * 2^e], ties to even. *)
Definition round_half_even (m : N) (e : Z) : N :=
  match e with
  | Zneg p =>
      let d := N.pow 2 (Npos p) in
      let q := N.div m d in
      let r := N.modulo m d in
      match N.compare (2 * r) d with
      | Lt => q
      | Gt => N.succ q
      | Eq => if N.even q then q else N.succ q
      end
  | _ => (m * N.pow 2 (Z.to_N e))%N
  end.

(** [f"{x:.0f}"] *)
Definition format_0f (x : float) : str :=
  match Prim2SF x with
  | SpecFloat.S754_zero s => (if s then u "-0" else u "0")
  | SpecFloat.S754_infinity s => (if s then u "-inf" else u "inf")
  | SpecFloat.S754_nan => u "nan"
  | SpecFloat.S754_finite s m e =>
      (if s then u "-" else []) ++ dec (round_half_even (Npos m) e)
  end.

(* ===================================================================== *)
(** ** Dates and times *)
(* ===================================================================== *)

(** A [datetime.datetime]; [utcoffset] is [None] for a naive value and the
    offset in seconds east of UTC for an aware one. *)
Record datetime : Type := mk_datetime {
  year : N; month : N; day : N;
  hour : N; minute : N; second : N; microsecond : N;
  utcoffset : option Z
}.

(** A [datetime.date]. *)
Record date : Type := mk_date { d_year : N; d_month : N; d_day : N }.

(** [dt.date()] *)
Definition datetime_date (dt : datetime) : date :=
  mk_date (year dt) (month dt) (day dt).

(** [d.isoformat()]: [YYYY-MM-DD]. *)
Definition date_isoformat (d : date) : str :=
  zfill 4 (dec (d_year d)) ++ u "-" ++ zfill 2 (dec (d_month d))
  ++ u "-" ++ zfill 2 (dec (d_day d)).

Definition utcoffset_isoformat (off : Z) : str :=
  let a := Z.to_N (Z.abs off) in
  (if (off <? 0)%Z then u "-" else u "+")
  ++ zfill 2 (dec (a / 3600)%N) ++ u ":" ++ zfill 2 (dec ((a mod 3600) / 60)%N)
  ++ (if (a mod 60 =? 0)%N then [] else u ":" ++ zfill 2 (dec (a mod 60)%N)).

(** [dt.isoformat()]: [YYYY-MM-DDTHH:MM:SS[.ffffff][+HH:MM[:SS]]]. *)
Definition datetime_isoformat (dt : datetime) : str :=
  date_isoformat (datetime_date dt) ++ u "T"
  ++ zfill 2 (dec (hour dt)) ++ u ":" ++ zfill 2 (dec (minute dt))
  ++ u ":" ++ zfill 2 (dec (second dt))
  ++ (if (microsecond dt =? 0)%N then [] else u "." ++ zfill 6 (dec (microsecond dt)))
  ++ match utcoffset dt with
     | None => []
     | Some off => utcoffset_isoformat off
     end.

Definition is_leap (y : N) : bool :=
  ((y mod 4 =? 0) && (negb (y mod 100 =? 0) || (y mod 400 =? 0)))%N.

Definition days_in_month (y m : N) : N :=
  if (m =? 2)%N then (if is_leap y then 29 else 28)%N
  else if ((m =? 4) || (m =? 6) || (m =? 9) || (m =? 11))%N then 30%N
  else 31%N.

(** [d + timedelta(days=1)] *)
Definition date_add_one_day (d : date) : outcome date :=
  if (d_day d <? days_in_month (d_year d) (d_month d))%N
  then Ret (mk_date (d_year d) (d_month d) (d_day d + 1))
  else if (d_month d <? 12)%N then Ret (mk_date (d_year d) (d_month d + 1) 1)
  else if (d_year d <? 9999)%N then Ret (mk_date (d_year d + 1) 1 1)
  else Raise (mk_OverflowError (u "date value out of range")).

(* ===================================================================== *)
(** ** [base64.b64encode] *)
(* ===================================================================== *)

Definition b64_alphabet : str :=
  u "ABCDEFGHIJKLMNOPQRSTUVWXYZabcdefghijklmnopqrstuvwxyz0123456789+/".

Definition b64_char (i : N) : codepoint := nth (N.to_nat i) b64_alphabet 61%N.

Fixpoint b64encode (bs : list N) : str :=
  match bs with
  | [] => []
  | [a] => [b64_char (a / 4); b64_char ((a mod 4) * 16); 61; 61]%N
  | [a; b] =>
      [b64_char (a / 4); b64_char ((a mod 4) * 16 + b / 16);
       b64_char ((b mod 16) * 4); 61]%N
  | a :: b :: c :: r =>
      [b64_char (a / 4); b64_char ((a mod 4) * 16 + b / 16);
       b64_char ((b mod 16) * 4 + c / 64); b64_char (c mod 64)]%N
      ++ b64encode r
  end.

(* ===================================================================== *)
(** ** What the program calls and does not define *)
(* ===================================================================== *)

(** What [response.candidates[0].content] can be for [_content_to_dict]: a
    [dict], an object with a [to_dict] method (with what the method returns),
    or anything else (with [repr(type(content))]). *)
Inductive content : Type :=
| ContentDict (d : dict)
| ContentProto (to_dict : value)
| ContentOther (type_repr : str).

Record Externals : Type := mk_Externals {
  (** [self._text_model.generate_content(contents=history)]: the candidates of
      the response, or the exception of the SDK or the transport.  The backend
      is taken as a function of the transcript it is sent. *)
  generate_content : list value -> outcome (list content);
  (** [requests.get(url, timeout=6)], [raise_for_status()] and [json()]. *)
  requests_get_json : str -> outcome value;
  (** [dateutil.parser.parse] at the moment of the call: a function of its
      argument at that moment.  The library fills in the fields a string
      leaves out from the current date, so two calls at two moments are
      described by two [Externals]. *)
  date_parser_parse : value -> outcome datetime;
  (** [float(s)] for a string. *)
  float_of_str : str -> outcome float;
  (** [repr] of a float, a list or a dict. *)
  builtin_repr : value -> str;
  (** [str.lower] on a string that is not pure ASCII. *)
  unicode_lower : str -> str
}.

(* ===================================================================== *)
(** ** tools.py *)
(* ===================================================================== *)

Definition TOOL_NAMES : list str :=
  [ u "get_weather_forecast";
    u "list_calendar_agenda";
    u "create_reminder";
    u "search_public_info";
    u "draft_email_outline" ].

(* ===================================================================== *)
(** ** assistant.py: the state *)
(* ===================================================================== *)

Record AssistantState : Type := mk_AssistantState {
  reminders : list value;
  calendar_seed : dict
}.

Definition event (title time location notes : string) : value :=
  VDict [ (u "title", VStr (u title)); (u "time", VStr (u time));
          (u "location", VStr (u location)); (u "notes", VStr (u notes)) ].

(** [AssistantState(reminders, calendar_seed)] with [__post_init__];
    [today] is [datetime.utcnow().date()]. *)
Definition AssistantState_new (today : date) (reminders0 : list value)
    (calendar_seed0 : dict) : outcome AssistantState :=
  if truthy (VDict calendar_seed0)
  then Ret (mk_AssistantState reminders0 calendar_seed0)
  else
    (tomorrow <- date_add_one_day today ;;
     Ret (mk_AssistantState reminders0
            (dict_set
               [ (date_isoformat today,
                  VList [ event "Stand-up with product team" "09:30" "Zoom"
                            "Share progress on the onboarding flow prototype.";
                          event "Gym session" "17:45" "Local fitness center"
                            "Strength day - focus on posterior chain." ]) ]
               (date_isoformat tomorrow)
               (VList [ event "Client status update" "13:00" "Teams"
                          "Review Q4 roadmap and confirm deliverables." ]))))%O.

(** The fields of a [GeminiAssistant] that the methods below read and write;
    the two SDK model objects are used through [Externals]. *)
Record GeminiAssistant : Type := mk_GeminiAssistant {
  _state : AssistantState;
  _history : list value
}.

(** [GeminiAssistant(api_key)]; [env_key] is [os.getenv("GOOGLE_API_KEY")]. *)
Definition GeminiAssistant_init (api_key env_key : option str) (today : date)
  : outcome GeminiAssistant :=
  let key :=
    match api_key with
    | Some (_ :: _) => api_key
    | _ => env_key
    end in
  match key with
  | Some (_ :: _) =>
      (st <- AssistantState_new today [] [] ;;
       Ret (mk_GeminiAssistant st []))%O
  | _ => Raise (mk_RuntimeError (u "GOOGLE_API_KEY environment variable is not set."))
  end.

(** A method: the outcome and the object afterwards. *)
Definition M (A : Type) : Type := GeminiAssistant -> outcome A * GeminiAssistant.

Definition mret {A : Type} (a : A) : M A := fun self => (Ret a, self).

Definition mraise {A : Type} (e : exn) : M A := fun self => (Raise e, self).

Definition mbind {A B : Type} (c : M A) (k : A -> M B) : M B :=
  fun self =>
    match c self with
    | (Ret a, self') => k a self'
    | (Raise e, self') => (Raise e, self')
    end.

Definition lift {A : Type} (c : outcome A) : M A := fun self => (c, self).

Declare Scope method_scope.
Delimit Scope method_scope with M.
Notation "x <- c ;; k" := (mbind c (fun x => k))
  (at level 61, c at next level, right associativity) : method_scope.
Notation "c ;;; k" := (mbind c (fun _ => k))
  (at level 61, right associativity) : method_scope.

(** [try: c  except Exception as exc: handler(exc)] *)
Definition try_except_Exception {A : Type} (c : M A) (handler : exn -> M A) : M A :=
  fun self =>
    match c self with
    | (Raise e, self') =>
        if isinstance e Exception then handler e self' else (Raise e, self')
    | r => r
    end.

(** [for x in xs: body(x)] *)
Fixpoint mfor {A : Type} (xs : list A) (body : A -> M unit) : M unit :=
  match xs with
  | [] => mret tt
  | x :: r => (body x ;;; mfor r body)%M
  end.

Definition history_append (m : value) : M unit :=
  fun self => (Ret tt, mk_GeminiAssistant (_state self) (_history self ++ [m])).

Definition reminders_append (r : value) : M unit :=
  fun self =>
    (Ret tt,
     mk_GeminiAssistant
       (mk_AssistantState (reminders (_state self) ++ [r])
                          (calendar_seed (_state self)))
       (_history self)).

(* ===================================================================== *)
(** ** assistant.py: the tool handlers and the dispatcher *)
(* ===================================================================== *)

Definition error_result (msg : str) : value := VDict [ (u "error", VStr msg) ].

Section Assistant.

Variable X : Externals.

(** [s.lower()] *)
Definition py_lower (s : str) : str :=
  if forallb is_ascii s then map ascii_lower s else unicode_lower X s.

(** [v.lower()] *)
Definition py_lower_method (v : value) : outcome str :=
  match v with
  | VStr s => Ret (py_lower s)
  | _ => Raise (no_attribute v (u "lower"))
  end.

(** [float(v)] *)
Definition py_float (v : value) : outcome float :=
  match v with
  | VFloat f => Ret f
  | VInt z => float_of_Z z
  | VBool b => Ret (if b then 1%float else 0%float)
  | VStr s => float_of_str X s
  | _ => Raise (mk_TypeError
                  (u "float() argument must be a string or a real number, not '"
                   ++ type_name v ++ u "'"))
  end.

(** [f"{v}"] *)
Definition format_value (v : value) : str :=
  match v with
  | VStr s => s
  | VNone => u "None"
  | VBool b => if b then u "True" else u "False"
  | VInt z => dec_Z z
  | _ => builtin_repr X v
  end.

Definition _tool_get_weather_forecast (arguments : dict) : M value :=
  (location0 <- lift (py_get_default (VDict arguments) (u "location") (VStr [])) ;;
   location <- lift (py_strip_method location0) ;;
   unit0 <- lift (py_get (VDict arguments) (u "unit")) ;;
   unit1 <- lift (py_lower_method
                    (if truthy unit0 then unit0 else VStr (u "fahrenheit"))) ;;
   let unit := if str_in unit1 [u "fahrenheit"; u "celsius"]
               then unit1 else u "fahrenheit" in
   if negb (truthy (VStr location)) then
     mret (error_result (u "Missing location."))
   else
     let query := py_replace_char 32%N (u "%20") location in
     try_except_Exception
       (lift
          (payload <- requests_get_json X
                        (u "https://wttr.in/" ++ query ++ u "?format=j1") ;;
           current <- py_getitem_key payload (u "current_condition") ;;
           condition <- py_getitem_0 current ;;
           desc <- py_getitem_key condition (u "weatherDesc") ;;
           desc0 <- py_getitem_0 desc ;;
           summary <- py_getitem_key desc0 (u "value") ;;
           tc <- py_get_default condition (u "temp_C") (VInt 0) ;;
           temp_c <- py_float tc ;;
           tf <- py_get_default condition (u "temp_F") (VInt 0) ;;
           temp_f <- py_float tf ;;
           humidity <- py_get_default condition (u "humidity") (VStr (u "?")) ;;
           fc <- py_get_default condition (u "FeelsLikeC") (VFloat temp_c) ;;
           feels_c <- py_float fc ;;
           ff <- py_get_default condition (u "FeelsLikeF") (VFloat temp_f) ;;
           feels_f <- py_float ff ;;
           area <- py_get_default payload (u "nearest_area") (VList [VDict []]) ;;
           area0 <- py_getitem_0 area ;;
           names <- py_get_default area0 (u "areaName") (VList [VDict []]) ;;
           names0 <- py_getitem_0 names ;;
           area_name <- py_get_default names0 (u "value") (VStr location) ;;
           let temp := if str_eqb unit (u "fahrenheit") then temp_f else temp_c in
           let feels_like := if str_eqb unit (u "fahrenheit") then feels_f else feels_c in
           let unit_symbol := if str_eqb unit (u "fahrenheit") then u "°F" else u "°C" in
           Ret (VDict
                  [ (u "location", area_name);
                    (u "summary", summary);
                    (u "temperature", VStr (format_0f temp ++ unit_symbol));
                    (u "feels_like", VStr (format_0f feels_like ++ unit_symbol));
                    (u "humidity", VStr (format_value humidity ++ u "%"));
                    (u "source", VStr (u "wttr.in")) ]))%O)
       (fun exc =>
          mret (VDict
                  [ (u "location", VStr location);
                    (u "error",
                     VStr (u "Weather provider unavailable: " ++ exn_msg exc)) ])))%M.

(** [except (ValueError, TypeError)] *)
Definition is_ValueError_or_TypeError (e : exn) : bool :=
  isinstance e ValueError || isinstance e TypeError.

Definition _tool_list_calendar_agenda (arguments : dict) : M value :=
  (date_str <- lift (py_get (VDict arguments) (u "date")) ;;
   if negb (truthy date_str) then
     mret (error_result (u "Provide a date in YYYY-MM-DD format."))
   else
     match date_parser_parse X date_str with
     | Raise exc =>
         if is_ValueError_or_TypeError exc
         then mret (error_result (u "Invalid date: " ++ exn_msg exc))
         else mraise exc
     | Ret dt =>
         let parsed := datetime_date dt in
         fun self =>
           let agenda :=
             match dict_get (calendar_seed (_state self)) (date_isoformat parsed) with
             | Some x => x
             | None => VList []
             end in
           (Ret (VDict [ (u "date", VStr (date_isoformat parsed));
                         (u "events", agenda) ]), self)
     end)%M.

Definition _tool_create_reminder (arguments : dict) : M value :=
  (summary0 <- lift (py_get_default (VDict arguments) (u "summary") (VStr [])) ;;
   summary <- lift (py_strip_method summary0) ;;
   due_time_raw <- lift (py_get (VDict arguments) (u "due_time")) ;;
   if negb (truthy (VStr summary)) then
     mret (error_result (u "Reminder summary cannot be empty."))
   else if negb (truthy due_time_raw) then
     mret (error_result (u "Provide a due_time in ISO-8601 format."))
   else
     match date_parser_parse X due_time_raw with
     | Raise exc =>
         if is_ValueError_or_TypeError exc
         then mret (error_result (u "Invalid due_time: " ++ exn_msg exc))
         else mraise exc
     | Ret due_time =>
         let reminder :=
           VDict [ (u "summary", VStr summary);
                   (u "due_time", VStr (datetime_isoformat due_time)) ] in
         reminders_append reminder ;;;
         fun self =>
           (Ret (VDict [ (u "status", VStr (u "stored"));
                         (u "reminder", reminder);
                         (u "total",
                          VInt (Z.of_nat (length (reminders (_state self))))) ]),
            self)
     end)%M.

Definition _tool_search_public_info (arguments : dict) : M value :=
  (topic0 <- lift (py_get_default (VDict arguments) (u "topic") (VStr [])) ;;
   topic <- lift (py_strip_method topic0) ;;
   if negb (truthy (VStr topic)) then
     mret (error_result (u "Topic cannot be empty."))
   else
     let endpoint :=
       u "https://en.wikipedia.org/api/rest_v1/page/summary/"
       ++ py_replace_char 32%N (u "%20") topic in
     try_except_Exception
       (lift
          (data <- requests_get_json X endpoint ;;
           extract <- py_get data (u "extract") ;;
           summary <- (if truthy extract then Ret extract
                       else py_get data (u "description")) ;;
           title <- py_get_default data (u "title") (VStr topic) ;;
           urls <- py_get_default data (u "content_urls") (VDict []) ;;
           desktop <- py_get_default urls (u "desktop") (VDict []) ;;
           page <- py_get desktop (u "page") ;;
           Ret (VDict
                  [ (u "title", title);
                    (u "summary", summary);
                    (u "url", page);
                    (u "source", VStr (u "wikipedia")) ]))%O)
       (fun exc =>
          mret (VDict
                  [ (u "topic", VStr topic);
                    (u "error", VStr (u "Wikipedia lookup failed: " ++ exn_msg exc)) ])))%M.

(** The list comprehension of [_tool_draft_email_outline]. *)
Definition outline_bullets (outline_raw : str) : list str :=
  map (py_strip_chars (u "-• "))
      (filter (fun line => truthy (VStr (py_strip line))) (py_splitlines outline_raw)).

Definition _tool_draft_email_outline (arguments : dict) : M value :=
  (recipient0 <- lift (py_get_default (VDict arguments) (u "recipient")
                         (VStr (u "there"))) ;;
   recipient1 <- lift (py_strip_method recipient0) ;;
   let recipient := if truthy (VStr recipient1) then recipient1 else u "there" in
   subject0 <- lift (py_get_default (VDict arguments) (u "subject")
                       (VStr (u "Quick update"))) ;;
   subject1 <- lift (py_strip_method subject0) ;;
   let subject := if truthy (VStr subject1) then subject1 else u "Quick update" in
   outline0 <- lift (py_get_default (VDict arguments) (u "outline") (VStr [])) ;;
   outline_raw <- lift (py_strip_method outline0) ;;
   let bullets := outline_bullets outline_raw in
   let body_paragraphs :=
     [ u "Hi " ++ recipient ++ u ",";
       u "I hope you're doing well. I'm reaching out about "
       ++ py_lower subject ++ u "." ]
     ++ (if truthy (VList (map VStr bullets))
         then u "Here are the key points:" :: map (fun bullet => u "- " ++ bullet) bullets
         else [])
     ++ [ u "Let me know if you have any questions or need more detail.";
          u "Best," ++ [10%N] ++ u "Your Assistant" ] in
   mret (VDict [ (u "subject", VStr subject);
                 (u "body", VStr (py_join [10%N] body_paragraphs)) ]))%M.

(** [name not in TOOL_NAMES]: a list or a dict cannot be hashed. *)
Definition not_in_TOOL_NAMES (name : value) : outcome bool :=
  match name with
  | VStr n => Ret (negb (str_in n TOOL_NAMES))
  | VList _ | VDict _ =>
      Raise (mk_TypeError (u "unhashable type: '" ++ type_name name ++ u "'"))
  | _ => Ret true
  end.

(** The [handlers] table of [_dispatch_tool_call]. *)
Definition handlers : list (str * (dict -> M value)) :=
  [ (u "get_weather_forecast", _tool_get_weather_forecast);
    (u "list_calendar_agenda", _tool_list_calendar_agenda);
    (u "create_reminder", _tool_create_reminder);
    (u "search_public_info", _tool_search_public_info);
    (u "draft_email_outline", _tool_draft_email_outline) ].

Fixpoint handlers_lookup (table : list (str * (dict -> M value))) (name : str)
  : option (dict -> M value) :=
  match table with
  | [] => None
  | (k, h) :: r => if str_eqb k name then Some h else handlers_lookup r name
  end.

(** [handlers[name]] *)
Definition handlers_getitem (name : value) : outcome (dict -> M value) :=
  match name with
  | VStr n =>
      match handlers_lookup handlers n with
      | Some h => Ret h
      | None => Raise (mk_KeyError (u "'" ++ n ++ u "'"))
      end
  | _ => Raise (mk_KeyError (format_value name))
  end.

(** One element of the sequence given to [dict(...)], read as a key and a
    value. *)
Definition dict_update_pair (i : nat) (x : value) : outcome (value * value) :=
  (items <- match x with
            | VList l => Ret l
            | VStr s => Ret (map (fun c => VStr [c]) s)
            | VDict d => Ret (map VStr (dict_keys d))
            | _ => Raise (mk_TypeError
                            (u "cannot convert dictionary update sequence element #"
                             ++ dec (N.of_nat i) ++ u " to a sequence"))
            end ;;
   match items with
   | [k; v] => Ret (k, v)
   | _ => Raise (mk_ValueError
                   (u "dictionary update sequence element #" ++ dec (N.of_nat i)
                    ++ u " has length " ++ dec (N.of_nat (length items))
                    ++ u "; 2 is required"))
   end)%O.

(** The pairs are entered in order.  A key that is not a [str] (a number,
    [None]) makes an entry that no lookup by a string finds, and the handlers
    look up strings only: the entry is not kept. *)
Fixpoint dict_update_from (i : nat) (acc : dict) (xs : list value) : outcome dict :=
  match xs with
  | [] => Ret acc
  | x :: r =>
      (kv <- dict_update_pair i x ;;
       match fst kv with
       | VStr k => dict_update_from (S i) (dict_set acc k (snd kv)) r
       | VList _ | VDict _ =>
           Raise (mk_TypeError (u "unhashable type: '" ++ type_name (fst kv) ++ u "'"))
       | _ => dict_update_from (S i) acc r
       end)%O
  end.

(** [dict(v)] *)
Definition py_dict (v : value) : outcome dict :=
  match v with
  | VDict d => Ret d
  | _ => (items <- py_iter v ;; dict_update_from 0 [] items)%O
  end.

Definition _dispatch_tool_call (function_call : value) : M value :=
  (name <- lift (py_get function_call (u "name")) ;;
   unknown <- lift (not_in_TOOL_NAMES name) ;;
   if (unknown : bool) then
     mret (error_result (u "Tool '" ++ format_value name ++ u "' is not available."))
   else
     handler <- lift (handlers_getitem name) ;;
     arguments0 <- lift (py_get_default function_call (u "args") (VDict [])) ;;
     arguments <- lift (match arguments0 with
                        | VDict d => Ret d
                        | _ => py_dict arguments0
                        end) ;;
     handler arguments)%M.

(* ===================================================================== *)
(** ** assistant.py: the public API and the loop *)
(* ===================================================================== *)

(** [reset] *)
Definition reset : M unit :=
  fun self => (Ret tt, mk_GeminiAssistant (_state self) []).

Definition _build_user_message (prompt : str) (image_bytes : option (list N))
    (mime_type : str) : value :=
  let parts :=
    (if truthy (VStr prompt) then [ VDict [ (u "text", VStr prompt) ] ] else [])
    ++ match image_bytes with
       | Some bs =>
           [ VDict [ (u "inline_data",
                      VDict [ (u "mime_type", VStr mime_type);
                              (u "data", VStr (b64encode bs)) ]) ] ]
       | None => []
       end in
  VDict [ (u "role", VStr (u "user")); (u "parts", VList parts) ].

Definition _extract_function_calls (message : value) : outcome (list value) :=
  (parts0 <- py_get_default message (u "parts") (VList []) ;;
   parts <- py_iter parts0 ;;
   found <- omap (fun part =>
                    fn_call <- py_get part (u "function_call") ;;
                    Ret (if truthy fn_call then [fn_call] else []))
                 parts ;;
   Ret (concat found))%O.

(** ["text" in part] *)
Definition py_contains (part : value) (key : str) : outcome bool :=
  match part with
  | VDict d => Ret (str_in key (dict_keys d))
  | VList l => Ret (existsb (fun x => match x with
                                      | VStr s => str_eqb s key
                                      | _ => false
                                      end) l)
  | VStr s => Ret (is_substring key s)
  | _ => Raise (mk_TypeError
                  (u "argument of type '" ++ type_name part ++ u "' is not iterable"))
  end.

Definition _parts_to_text (parts0 : value) : outcome str :=
  (parts <- py_iter parts0 ;;
   texts <- omap (fun part =>
                    has <- py_contains part (u "text") ;;
                    if (has : bool)
                    then (t <- py_get_default part (u "text") (VStr []) ;; Ret [t])
                    else Ret [])
                 parts ;;
   stripped <- omap py_strip_method (concat texts) ;;
   Ret (py_join [10%N] (filter (fun t => truthy (VStr t)) stripped)))%O.

Definition _content_to_dict (c : content) : outcome value :=
  match c with
  | ContentDict d => Ret (VDict d)
  | ContentProto v => Ret v
  | ContentOther type_repr =>
      Raise (mk_TypeError (u "Unsupported content representation: " ++ type_repr))
  end.

(** [response.candidates[0]] *)
Definition candidates_getitem_0 (candidates : list content) : outcome content :=
  match candidates with
  | c :: _ => Ret c
  | [] => Raise (mk_IndexError (u "list index out of range"))
  end.

Definition tool_message (name tool_response : value) : value :=
  VDict [ (u "role", VStr (u "tool"));
          (u "parts",
           VList [ VDict [ (u "function_response",
                            VDict [ (u "name", name);
                                    (u "response", tool_response) ]) ] ]) ].

(** The [for function_call in function_calls] loop. *)
Definition dispatch_all (function_calls : list value) : M unit :=
  mfor function_calls
    (fun function_call =>
       tool_response <- _dispatch_tool_call function_call ;;
       name <- lift (py_getitem_key function_call (u "name")) ;;
       history_append (tool_message name tool_response))%M.

(** One pass through the body of [while True]: [Some model_message] when the
    body returns, [None] when it goes round again. *)
Definition generate_round : M (option value) :=
  (candidates <- (fun self => (generate_content X (_history self), self)) ;;
   candidate <- lift (candidates_getitem_0 candidates) ;;
   model_message <- lift (_content_to_dict candidate) ;;
   history_append model_message ;;;
   function_calls <- lift (_extract_function_calls model_message) ;;
   match function_calls with
   | [] => mret (Some model_message)
   | _ => dispatch_all function_calls ;;; mret None
   end)%M.

(** [_generate_until_complete], its [while True] unfolded [fuel] times:
    [Some] what the loop returned or raised (with the object afterwards) when
    it stopped within [fuel] passes, [None] when it is still going after
    them.  The program has no such bound. *)
Fixpoint _generate_until_complete (fuel : nat) (self : GeminiAssistant)
  : option (outcome value * GeminiAssistant) :=
  match fuel with
  | O => None
  | S n =>
      match generate_round self with
      | (Ret (Some model_message), self') => Some (Ret model_message, self')
      | (Ret None, self') => _generate_until_complete n self'
      | (Raise e, self') => Some (Raise e, self')
      end
  end.

(** [chat(prompt, image_bytes, mime_type)] *)
Definition chat (fuel : nat) (prompt : str) (image_bytes : option (list N))
    (mime_type : str) (self : GeminiAssistant)
  : option (outcome str * GeminiAssistant) :=
  if negb (truthy (VStr prompt))
     && match image_bytes with None => true | Some _ => false end
  then Some (Raise (mk_ValueError (u "Provide text, an image, or both.")), self)
  else
    let user_message := _build_user_message prompt image_bytes mime_type in
    match _generate_until_complete fuel
            (mk_GeminiAssistant (_state self) (_history self ++ [user_message])) with
    | None => None
    | Some (Raise e, self') => Some (Raise e, self')
    | Some (Ret response, self') =>
        Some ((parts <- py_get_default response (u "parts") (VList []) ;;
               _parts_to_text parts)%O, self')
    end.

(** [analyze_image] *)
Definition analyze_image (fuel : nat) (prompt : str) (image_bytes : list N)
    (mime_type : str) (self : GeminiAssistant)
  : option (outcome str * GeminiAssistant) :=
  chat fuel prompt (Some image_bytes) mime_type (snd (reset self)).

End Assistant.

(* ===================================================================== *)
(** ** assistant.py: image generation *)
(* ===================================================================== *)

(** [table_a2b_base64]: the value of a character of the alphabet. *)
Fixpoint b64_find (c : N) (alphabet : list N) (i : N) : option N :=
  match alphabet with
  | [] => None
  | x :: r => if (x =? c)%N then Some i else b64_find c r (i + 1)%N
  end.

Definition b64_index (c : N) : option N := b64_find c b64_alphabet 0%N.

(** [binascii.Error], a subclass of [ValueError]. *)
Definition mk_binascii_Error (msg : str) : exn :=
  mk_exn [OtherClass (u "Error"); ValueError; Exception; BaseException] msg.

(** The loop of [binascii.a2b_base64] (not strict): [quad_pos] characters of
    the current group of four are read, [leftchar] holds the bits not yet
    written, [pads] counts the [=] seen in a row, [out] is the output so far,
    last byte first.  A character outside the alphabet is skipped. *)
Fixpoint a2b_base64_from (quad_pos leftchar pads : N) (out : list N) (s : list N)
  : outcome (list N) :=
  match s with
  | [] =>
      if (quad_pos =? 0)%N then Ret (rev out)
      else if (quad_pos =? 1)%N then
        Raise (mk_binascii_Error
                 (u "Invalid base64-encoded string: number of data characters ("
                  ++ dec (N.of_nat (length out) / 3 * 4 + 1)
                  ++ u ") cannot be 1 more than a multiple of 4"))
      else Raise (mk_binascii_Error (u "Incorrect padding"))
  | this_ch :: r =>
      if (this_ch =? 61)%N then
        if (2 <=? quad_pos)%N then
          if (4 <=? quad_pos + (pads + 1))%N then Ret (rev out)
          else a2b_base64_from quad_pos leftchar (pads + 1) out r
        else a2b_base64_from quad_pos leftchar pads out r
      else
        match b64_index this_ch with
        | None => a2b_base64_from quad_pos leftchar pads out r
        | Some v =>
            if (quad_pos =? 0)%N then a2b_base64_from 1 v 0 out r
            else if (quad_pos =? 1)%N then
              a2b_base64_from 2 (N.land v 15) 0
                (N.land (N.lor (N.shiftl leftchar 2) (N.shiftr v 4)) 255 :: out) r
            else if (quad_pos =? 2)%N then
              a2b_base64_from 3 (N.land v 3) 0
                (N.land (N.lor (N.shiftl leftchar 4) (N.shiftr v 2)) 255 :: out) r
            else
              a2b_base64_from 0 0 0
                (N.land (N.lor (N.shiftl leftchar 6) v) 255 :: out) r
        end
  end.

(** [base64.b64decode(s)] for a string [s]. *)
Definition b64decode (s : str) : outcome (list N) :=
  if forallb is_ascii s then a2b_base64_from 0 0 0 [] s
  else Raise (mk_ValueError (u "string argument should contain only ASCII characters")).

(** The value of [data] in an inline payload: nothing, [bytes] or a string. *)
Inductive image_data : Type :=
| DataNone
| DataBytes (bs : list N)
| DataStr (s : str).

(** What [getattr(part, "inline_data", None)] can be for [generate_image]:
    nothing, a [dict], or another object (with its truth value and what
    [getattr(inline, "data", None)] gives). *)
Inductive inline_data : Type :=
| InlineAbsent
| InlineDict (d : list (str * image_data))
| InlineObject (truth : bool) (data : image_data).

Fixpoint inline_dict_get (d : list (str * image_data)) (k : str) : image_data :=
  match d with
  | [] => DataNone
  | (k', v) :: r => if str_eqb k' k then v else inline_dict_get r k
  end.

(** [if not inline: continue] *)
Definition inline_truthy (inline : inline_data) : bool :=
  match inline with
  | InlineAbsent => false
  | InlineDict d => match d with [] => false | _ => true end
  | InlineObject truth _ => truth
  end.

(** [inline.get("data") if isinstance(inline, dict) else getattr(inline, "data", None)] *)
Definition inline_get_data (inline : inline_data) : image_data :=
  match inline with
  | InlineAbsent => DataNone
  | InlineDict d => inline_dict_get d (u "data")
  | InlineObject _ data => data
  end.

(** [if not data: continue] *)
Definition data_truthy (data : image_data) : bool :=
  match data with
  | DataNone => false
  | DataBytes bs => match bs with [] => false | _ => true end
  | DataStr s => match s with [] => false | _ => true end
  end.

(** The [for part in parts] loop of [generate_image] and the [raise] after
    it. *)
Fixpoint first_image_data (parts : list inline_data) : outcome (list N) :=
  match parts with
  | [] => Raise (mk_RuntimeError (u "Image generation returned no image data."))
  | inline :: rest =>
      if negb (inline_truthy inline) then first_image_data rest
      else
        let data := inline_get_data inline in
        if negb (data_truthy data) then first_image_data rest
        else
          match data with
          | DataBytes bs => Ret bs
          | DataStr s => b64decode s
          | DataNone => first_image_data rest
          end
  end.

Section ImageGeneration.

(** [self._image_model.generate_content(prompt, generation_config, tool_config)]
    with the aspect ratio in [tool_config]: for each candidate of the
    response the [inline_data] of the parts of its content, or the exception
    of the SDK or the transport. *)
Variable image_generate_content : str -> str -> outcome (list (list inline_data)).

(** [generate_image(prompt, aspect_ratio)]; it reads and writes no field of
    the assistant. *)
Definition generate_image (prompt aspect_ratio : str) : outcome (list N) :=
  (candidates <- image_generate_content prompt aspect_ratio ;;
   parts <- match candidates with
            | c :: _ => Ret c
            | [] => Raise (mk_IndexError (u "list index out of range"))
            end ;;
   first_image_data parts)%O.

End ImageGeneration.

(* ===================================================================== *)
(** ** tools.py: the declarations *)
(* ===================================================================== *)

Definition string_parameter (description : string) : value :=
  VDict [ (u "type", VStr (u "string")); (u "description", VStr (u description)) ].

Definition parameters_object (properties : dict) (required : list string) : value :=
  VDict [ (u "type", VStr (u "object"));
          (u "properties", VDict properties);
          (u "required", VList (map (fun r => VStr (u r)) required)) ].

Definition declaration (name description : string) (parameters : value) : value :=
  VDict [ (u "name", VStr (u name));
          (u "description", VStr (u description));
          (u "parameters", parameters) ].

Definition build_tool_spec : value :=
  let weather_parameters :=
    parameters_object
      [ (u "location",
         string_parameter
           "City and state (or country) to get the short-term forecast for.");
        (u "unit",
         VDict [ (u "type", VStr (u "string"));
                 (u "description",
                  VStr (u "Temperature unit, either 'fahrenheit' or 'celsius'."));
                 (u "enum", VList [ VStr (u "fahrenheit"); VStr (u "celsius") ]) ]) ]
      [ "location" ] in
  let calendar_parameters :=
    parameters_object
      [ (u "date",
         string_parameter "ISO-8601 date to review upcoming events for (YYYY-MM-DD).") ]
      [ "date" ] in
  let reminder_parameters :=
    parameters_object
      [ (u "summary", string_parameter "Reminder text (<= 120 characters).");
        (u "due_time",
         string_parameter "ISO-8601 timestamp indicating when the reminder should fire.") ]
      [ "summary"; "due_time" ] in
  let wikipedia_parameters :=
    parameters_object
      [ (u "topic",
         string_parameter "Short topic or entity name to look up on Wikipedia.") ]
      [ "topic" ] in
  let email_parameters :=
    parameters_object
      [ (u "recipient",
         string_parameter "Recipient name or email to personalize the greeting.");
        (u "subject", string_parameter "Concise subject line the email should address.");
        (u "outline",
         string_parameter
           "Bullet list or short description describing the talking points.") ]
      [ "recipient"; "subject"; "outline" ] in
  VList
    [ VDict
        [ (u "function_declarations",
           VList
             [ declaration "get_weather_forecast"
                 "Returns a concise 12-hour weather forecast for the provided location."
                 weather_parameters;
               declaration "list_calendar_agenda"
                 "Returns upcoming events for the requested date."
                 calendar_parameters;
               declaration "create_reminder"
                 "Stores a reminder with the provided summary and due time."
                 reminder_parameters;
               declaration "search_public_info"
                 "Fetches a concise factual summary for the requested topic from Wikipedia."
                 wikipedia_parameters;
               declaration "draft_email_outline"
                 "Returns a structured email draft using the provided subject outline."
                 email_parameters ]) ] ].

(* ===================================================================== *)
(** ** streamlit_app.py *)
(* ===================================================================== *)

(** [_init_assistant(api_key)]: what it returns, with the messages it shows
    with [st.error]; [env_key] and [today] are what the constructor reads. *)
Definition _init_assistant (api_key env_key : option str) (today : date)
  : outcome (option GeminiAssistant) * list str :=
  match api_key with
  | Some (c :: k) =>
      match GeminiAssistant_init (Some (py_strip (c :: k))) env_key today with
      | Ret assistant => (Ret (Some assistant), [])
      | Raise exc =>
          if isinstance exc RuntimeError
          then (Ret None, [exn_msg exc])
          else (Raise exc, [])
      end
  | _ => (Ret None, [])
  end.

(** An uploaded file: what [read()] gives and its [type]. *)
Record uploaded_file : Type := mk_uploaded_file {
  file_bytes : list N;
  file_type : str
}.

(** An entry of [st.session_state.chat_history]:
    [(role, text, image_bytes, mime)]. *)
Record chat_entry : Type := mk_chat_entry {
  entry_role : str;
  entry_text : str;
  entry_image : option (list N);
  entry_mime : option str
}.

(** What the page does when the form is sent. *)
Inductive send_outcome : Type :=
| Warned (message : str)
| Answered (assistant : GeminiAssistant) (chat_history : list chat_entry)
| Failed (e : exn) (assistant : GeminiAssistant) (chat_history : list chat_entry).

Section ChatForm.

Variable X : Externals.

(** The body of [if send:] in the chat tab, for the assistant and the chat
    history of the session; [None] when [chat] is still running after
    [fuel] passes of its loop. *)
Definition chat_form_send (fuel : nat) (user_prompt : str)
    (uploaded_image : option uploaded_file)
    (assistant : GeminiAssistant) (chat_history : list chat_entry)
  : option send_outcome :=
  if negb (truthy (VStr user_prompt))
     && match uploaded_image with None => true | Some _ => false end
  then Some (Warned (u "Provide a message, an image, or both."))
  else
    let image_bytes := option_map file_bytes uploaded_image in
    let mime := match uploaded_image with
                | Some f => file_type f
                | None => u "image/png"
                end in
    match chat X fuel user_prompt image_bytes mime assistant with
    | None => None
    | Some (Raise e, assistant') => Some (Failed e assistant' chat_history)
    | Some (Ret response, assistant') =>
        Some (Answered assistant'
                (chat_history
                 ++ [ mk_chat_entry (u "user") user_prompt image_bytes (Some mime) ]
                 ++ [ mk_chat_entry (u "assistant") response None None ]))
    end.

End ChatForm.

(* ===================================================================== *)
(** ** Test doubles for the external calls *)
(* ===================================================================== *)

Module Stub.

(** A table of strings with what [dateutil.parser.parse] returns for them;
    any other string is rejected with [ParserError], a subclass of
    [ValueError], and anything that is not a string with [TypeError].  The
    library also has refusals of other classes and readings that depend on
    the day: [StubMore.parse_at] has one of each. *)
Definition parse_table : list (str * datetime) :=
  [ (u "2024-03-01T09:00:00", mk_datetime 2024 3 1 9 0 0 0 None);
    (u "March 1 2024 9am", mk_datetime 2024 3 1 9 0 0 0 None);
    (u "2024-03-02", mk_datetime 2024 3 2 0 0 0 0 None);
    (u "2024-12-24T18:30:00Z", mk_datetime 2024 12 24 18 30 0 0 (Some 0%Z));
    (u "2030-01-05 07:15", mk_datetime 2030 1 5 7 15 0 0 None) ].

Fixpoint parse_lookup (table : list (str * datetime)) (s : str) : option datetime :=
  match table with
  | [] => None
  | (k, dt) :: r => if str_eqb k s then Some dt else parse_lookup r s
  end.

Definition parse (v : value) : outcome datetime :=
  match v with
  | VStr s =>
      match parse_lookup parse_table s with
      | Some dt => Ret dt
      | None =>
          Raise (mk_exn [OtherClass (u "ParserError"); ValueError; Exception; BaseException]
                        (u "Unknown string format: " ++ s))
      end
  | _ => Raise (mk_TypeError
                  (u "Parser must be a string or character stream, not " ++ type_name v))
  end.

Definition digit_of (c : codepoint) : option Z :=
  if ((48 <=? c) && (c <=? 57))%N then Some (Z.of_N (c - 48)) else None.

Fixpoint digits_value (acc : Z) (s : str) : option Z :=
  match s with
  | [] => Some acc
  | c :: r =>
      match digit_of c with
      | Some d => digits_value (10 * acc + d)%Z r
      | None => None
      end
  end.

(** [float(s)] on strings of decimal digits, rounded to the nearest float
    ([inf] beyond the range, where [float(int)] raises); the others are
    refused. *)
Definition float_of_digits (s : str) : outcome float :=
  match s, digits_value 0 s with
  | _ :: _, Some z => Ret (SF2Prim (SpecFloat.binary_normalize 53 1024 z 0 false))
  | _, _ => Raise (mk_ValueError (u "could not convert string to float: '" ++ s ++ u "'"))
  end.

Definition weather_payload : value :=
  VDict
    [ (u "current_condition",
       VList [ VDict [ (u "temp_C", VStr (u "22")); (u "temp_F", VStr (u "72"));
                       (u "humidity", VStr (u "40"));
                       (u "FeelsLikeC", VStr (u "21")); (u "FeelsLikeF", VStr (u "70"));
                       (u "weatherDesc", VList [ VDict [ (u "value", VStr (u "Sunny")) ] ]) ] ]);
      (u "nearest_area",
       VList [ VDict [ (u "areaName", VList [ VDict [ (u "value", VStr (u "Paris")) ] ]) ] ]) ].

(** One weather page is served; every other request fails to connect. *)
Definition http (url : str) : outcome value :=
  if str_eqb url (u "https://wttr.in/Paris?format=j1")
  then Ret weather_payload
  else Raise (mk_exn [OtherClass (u "ConnectionError"); Exception; BaseException]
                     (u "connection refused")).

Definition externals (backend : list value -> outcome (list content)) : Externals :=
  mk_Externals backend http parse float_of_digits (fun _ => u "<repr>") (fun s => s).

Definition text_message (text : string) : dict :=
  [ (u "role", VStr (u "model")); (u "parts", VList [ VDict [ (u "text", VStr (u text)) ] ]) ].


(** A backend that answers at once. *)
Definition backend_answers : list value -> outcome (list content) :=
  fun _ => Ret [ ContentDict (text_message "Done.") ].




Definition X_answers : Externals := externals backend_answers.

(** A fresh assistant, as [GeminiAssistant_init] makes it on 2024-03-01. *)
Definition fresh : GeminiAssistant :=
  mk_GeminiAssistant
    (mk_AssistantState []
       [ (u "2024-03-01",
          VList [ event "Stand-up with product team" "09:30" "Zoom"
                    "Share progress on the onboarding flow prototype.";
                  event "Gym session" "17:45" "Local fitness center"
                    "Strength day - focus on posterior chain." ]);
         (u "2024-03-02",
          VList [ event "Client status update" "13:00" "Teams"
                    "Review Q4 roadmap and confirm deliverables." ]) ])
    [].

End Stub.

(* ===================================================================== *)
(** ** More test doubles *)
(* ===================================================================== *)

Module StubMore.

(** A backend that cannot be reached. *)
Definition unavailable : exn :=
  mk_exn [OtherClass (u "ServiceUnavailable"); Exception; BaseException]
         (u "503 backend unavailable").

Definition backend_fails : list value -> outcome (list content) :=
  fun _ => Raise unavailable.

(** A message that requests one call, given as the [function_call] mapping. *)
Definition request (function_call : dict) : dict :=
  [ (u "role", VStr (u "model"));
    (u "parts", VList [ VDict [ (u "function_call", VDict function_call) ] ]) ].

(** A backend whose call has arguments and no name. *)
Definition nameless_call : dict := [ (u "args", VDict [ (u "topic", VStr (u "Ada")) ]) ].

Definition backend_nameless : list value -> outcome (list content) :=
  fun _ => Ret [ ContentDict (request nameless_call) ].



Definition X_fails : Externals := Stub.externals backend_fails.
Definition X_nameless : Externals := Stub.externals backend_nameless.

(** An image model: a candidate whose parts are a text part, a part with an
    empty payload and a part with three bytes in base64. *)
Definition image_model (prompt aspect_ratio : str) : outcome (list (list inline_data)) :=
  match prompt with
  | [] => Ret [ [ InlineAbsent; InlineDict [] ] ]
  | _ => Ret [ [ InlineAbsent;
                 InlineObject true (DataBytes []);
                 InlineDict [ (u "mime_type", DataStr (u "image/png"));
                              (u "data", DataStr (u "iVBO")) ];
                 InlineObject true (DataBytes [1; 2; 3]%N) ] ]
  end.

(** An image model whose payload is cut short: two characters of base64. *)
Definition truncated_image_model (prompt aspect_ratio : str)
  : outcome (list (list inline_data)) :=
  Ret [ [ InlineDict [ (u "data", DataStr (u "TQ")) ] ] ].

(** The parser on the day [today]: a time of day alone is read as that time
    today, as [dateutil] does, and a number too long for a year makes it
    raise [OverflowError]; the other texts are read as [Stub.parse] reads
    them. *)
Definition parse_at (today : date) (v : value) : outcome datetime :=
  match v with
  | VStr s =>
      if str_eqb s (u "9am")
      then Ret (mk_datetime (d_year today) (d_month today) (d_day today) 9 0 0 0 None)
      else if str_eqb s (u "99999999999999999999")
      then Raise (mk_OverflowError (u "Python int too large to convert to C long"))
      else Stub.parse v
  | _ => Stub.parse v
  end.

Definition X_at (today : date) : Externals :=
  mk_Externals Stub.backend_answers Stub.http (parse_at today) Stub.float_of_digits
    (fun _ => u "<repr>") (fun s => s).





End StubMore.

(* ===================================================================== *)
(** ** Vocabulary of the statements *)
(* ===================================================================== *)

Arguments u : simpl never.
Arguments datetime_isoformat : simpl never.
Arguments date_isoformat : simpl never.
Arguments py_strip : simpl never.
Arguments py_strip_chars : simpl never.
Arguments py_splitlines : simpl never.
Arguments py_lower : simpl never.
Arguments py_join : simpl never.
Arguments py_replace_char : simpl never.
Arguments format_0f : simpl never.
Arguments format_value : simpl never.
Arguments dec : simpl never.
Arguments zfill : simpl never.
Arguments str_eqb : simpl never.
Arguments str_in : simpl never.
Arguments outline_bullets : simpl never.
Arguments b64encode : simpl never.
Arguments generate_round : simpl never.
Arguments dispatch_all : simpl never.
Arguments _dispatch_tool_call : simpl never.
Arguments _build_user_message : simpl never.
Arguments _extract_function_calls : simpl never.
Arguments _parts_to_text : simpl never.

(** The keys of a tool result. *)
Definition result_has (res : value) (k : str) : bool := has_key res k.

(** The entry [k] of a tool result. *)
Definition result_get (res : value) (k : str) : option value :=
  match res with
  | VDict d => dict_get d k
  | _ => None
  end.

(** [l'] is [l] with entries added at the end. *)
Definition extends {A : Type} (l l' : list A) : Prop := exists more, l' = l ++ more.







(** The backend answers the transcript [history] with the message [m]. *)
Definition backend_says (X : Externals) (history : list value) (m : value) : Prop :=
  exists c cs, generate_content X history = Ret (c :: cs) /\ _content_to_dict c = Ret m.

(** [role] of a message. *)
Definition role_of (m : value) : option value := result_get m (u "role").


(** The unit [get_weather_forecast] works with: the argument in lower case
    when that is one of the two units, [fahrenheit] otherwise and when the
    argument is absent or empty. *)
Definition resolved_unit (X : Externals) (arguments : dict) : str :=
  match dict_get arguments (u "unit") with
  | Some (VStr (c :: s)) =>
      if str_in (py_lower X (c :: s)) [u "fahrenheit"; u "celsius"]
      then py_lower X (c :: s)
      else u "fahrenheit"
  | _ => u "fahrenheit"
  end.







(** A method that only adds entries, to the transcript and to the reminders,
    and leaves the calendar index alone. *)
Definition only_appends {A : Type} (c : M A) : Prop :=
  forall self,
    extends (_history self) (_history (snd (c self)))
    /\ calendar_seed (_state (snd (c self))) = calendar_seed (_state self)
    /\ extends (reminders (_state self)) (reminders (_state (snd (c self)))).

(** A computation that raises instances of [Exception] only. *)
Definition raises_Exception {A : Type} (c : outcome A) : Prop :=
  forall e, c = Raise e -> isinstance e Exception = true.


(** A method that leaves the object as it found it. *)
Definition read_only {A : Type} (c : M A) : Prop := forall self, snd (c self) = self.

(** A method that changes nothing but the reminders, and those only by adding
    at the end. *)
Definition only_adds_reminders {A : Type} (c : M A) : Prop :=
  forall self,
    _history (snd (c self)) = _history self
    /\ calendar_seed (_state (snd (c self))) = calendar_seed (_state self)
    /\ extends (reminders (_state self)) (reminders (_state (snd (c self)))).

Arguments b64_char : simpl never.
Arguments b64_index : simpl never.
Arguments b64decode : simpl never.
Arguments build_tool_spec : simpl never.

(** The attachments of a message: for each part with [inline_data], its
    [mime_type] and its [data]. *)
Definition message_attachments (message : value) : list (value * value) :=
  match result_get message (u "parts") with
  | Some (VList parts) =>
      flat_map (fun part =>
                  match result_get part (u "inline_data") with
                  | Some inline =>
                      match result_get inline (u "mime_type"), result_get inline (u "data") with
                      | Some mime, Some data => [ (mime, data) ]
                      | _, _ => []
                      end
                  | None => []
                  end) parts
  | _ => []
  end.

(** The address [get_weather_forecast] requests for a location. *)
Definition weather_url (location : str) : str :=
  u "https://wttr.in/" ++ py_replace_char 32%N (u "%20") location ++ u "?format=j1".

(** The address [search_public_info] requests for a topic. *)
Definition wikipedia_url (topic : str) : str :=
  u "https://en.wikipedia.org/api/rest_v1/page/summary/"
  ++ py_replace_char 32%N (u "%20") topic.

(** The field [k] is absent, or a string whose [strip()] is empty. *)
Definition blank_field (arguments : dict) (k : str) : Prop :=
  dict_get arguments k = None
  \/ exists s, dict_get arguments k = Some (VStr s) /\ py_strip s = [].

(** The field [k] is absent or a string. *)
Definition optional_string (arguments : dict) (k : str) : Prop :=
  dict_get arguments k = None \/ exists s, dict_get arguments k = Some (VStr s).

(** Every element of [bs] is a byte. *)
Definition all_bytes (bs : list N) : Prop := Forall (fun b => (b < 256)%N) bs.

(** [f] holds of every byte. *)
Definition on_every_byte (f : N -> bool) : bool :=
  forallb f (map N.of_nat (seq 0 256)).

(** A part that [generate_image] passes over: no inline payload, or one with
    no data. *)
Definition passed_over (inline : inline_data) : bool :=
  negb (inline_truthy inline) || negb (data_truthy (inline_get_data inline)).

(** The names declared by [build_tool_spec], in order. *)
Definition declared_names : list str :=
  match build_tool_spec with
  | VList [ VDict [ (_, VList declarations) ] ] =>
      flat_map (fun d => match result_get d (u "name") with
                         | Some (VStr n) => [n]
                         | _ => []
                         end) declarations
  | _ => []
  end.

(** The parameters [build_tool_spec] declares for the tool [name]. *)
Definition declared_parameters (name : str) : list str :=
  match build_tool_spec with
  | VList [ VDict [ (_, VList declarations) ] ] =>
      flat_map (fun d =>
                  match result_get d (u "name"), result_get d (u "parameters") with
                  | Some (VStr n), Some parameters =>
                      if str_eqb n name then
                        match result_get parameters (u "properties") with
                        | Some (VDict properties) => dict_keys properties
                        | _ => []
                        end
                      else []
                  | _, _ => []
                  end) declarations
  | _ => []
  end.

(** The parameters [build_tool_spec] requires for the tool [name]. *)
Definition required_parameters (name : str) : list str :=
  match build_tool_spec with
  | VList [ VDict [ (_, VList declarations) ] ] =>
      flat_map (fun d =>
                  match result_get d (u "name"), result_get d (u "parameters") with
                  | Some (VStr n), Some parameters =>
                      if str_eqb n name then
                        match result_get parameters (u "required") with
                        | Some (VList required) =>
                            flat_map (fun r => match r with VStr k => [k] | _ => [] end)
                                     required
                        | _ => []
                        end
                      else []
                  | _, _ => []
                  end) declarations
  | _ => []
  end.

(** Two argument mappings that give the same value to every key of [keys]. *)
Definition agree_on (keys : list str) (d d' : dict) : Prop :=
  forall k, In k keys -> dict_get d k = dict_get d' k.

(** A calendar date: a year of up to four digits, a month and a day of that
    month. *)
Definition valid_date (d : date) : Prop :=
  (1 <= d_year d <= 9999)%N /\ (1 <= d_month d <= 12)%N
  /\ (1 <= d_day d <= days_in_month (d_year d) (d_month d))%N.

(** The backend has no message for the transcript [history] and the loop
    raises [e]: the call itself raises [e], or the response has no
    candidate, or the content of its first candidate is of a kind
    [_content_to_dict] does not convert. *)
Definition no_message (X : Externals) (history : list value) (e : exn) : Prop :=
  generate_content X history = Raise e
  \/ (generate_content X history = Ret []
      /\ e = mk_IndexError (u "list index out of range"))
  \/ (exists type_repr cs,
        generate_content X history = Ret (ContentOther type_repr :: cs)
        /\ e = mk_TypeError (u "Unsupported content representation: " ++ type_repr)).

(** The MIME type the chat form sends with a message. *)
Definition upload_mime (uploaded_image : option uploaded_file) : str :=
  match uploaded_image with
  | Some f => file_type f
  | None => u "image/png"
  end.

(** One of the two keys is given and is not empty. *)
Definition key_given (api_key env_key : option str) : Prop :=
  (exists c k, api_key = Some (c :: k)) \/ (exists c k, env_key = Some (c :: k)).

(** The number a string of decimal digits writes. *)
Definition digits_number (s : str) : N :=
  fold_left (fun acc c => (acc * 10 + (c - 48))%N) s 0%N.

(** [f] holds of every number below [k]. *)
Definition on_every_below (k : N) (f : N -> bool) : bool :=
  forallb f (map N.of_nat (seq 0 (N.to_nat k))).

(** [n] written on [w] digits reads back as [n]. *)
Definition reads_back (w : nat) (n : N) : bool :=
  (digits_number (zfill w (dec n)) =? n)%N && (length (zfill w (dec n)) =? w)%nat.

(** The day the parser reads in [raw], or what it raises.  An [Externals] is
    the world at the moment of one call: [dateutil] fills in the fields a
    text leaves out from the current date, so the same text can read as
    another day at another moment. *)
Definition parsed_day (X : Externals) (raw : value) : outcome date :=
  match date_parser_parse X raw with
  | Ret dt => Ret (datetime_date dt)
  | Raise exc => Raise exc
  end.


(** A datetime as Python has them: the fields in their ranges, and an offset
    of less than a day. *)
Definition valid_datetime (dt : datetime) : Prop :=
  valid_date (datetime_date dt)
  /\ (hour dt < 24)%N /\ (minute dt < 60)%N /\ (second dt < 60)%N
  /\ (microsecond dt < 1000000)%N
  /\ match utcoffset dt with
     | None => True
     | Some off => (- 86400 < off < 86400)%Z
     end.

Definition is_digit (c : N) : bool := ((48 <=? c) && (c <=? 57))%N.

Notation "'let?' p ':=' c 'in' k" :=
  (match c with Some p => k | None => None end)
  (at level 10, p pattern, c at level 100, k at level 200, only parsing).

(** The number written on exactly [w] digits at the start of [s], and what
    follows it. *)
Definition take_number (w : nat) (s : str) : option (N * str) :=
  let ds := firstn w s in
  if (length ds =? w)%nat && forallb is_digit ds
  then Some (digits_number ds, skipn w s)
  else None.

(** What follows the character [c] at the start of [s]. *)
Definition take_char (c : N) (s : str) : option str :=
  match s with
  | x :: r => if (x =? c)%N then Some r else None
  | [] => None
  end.

(** The offset at the end of a timestamp: nothing, or a sign, [HH:MM] and,
    when they are not zero, [:SS]. *)
Definition iso_read_offset (s : str) : option (option Z) :=
  match s with
  | [] => Some None
  | sign :: r =>
      if ((sign =? 43) || (sign =? 45))%N then
        let? (h, r) := take_number 2 r in
        let? r := take_char 58 r in
        let? (m, r) := take_number 2 r in
        let? (sec, r) := match r with
                         | [] => Some (0%N, [])
                         | _ => let? r := take_char 58 r in take_number 2 r
                         end in
        match r with
        | [] =>
            let a := Z.of_N (h * 3600 + m * 60 + sec) in
            Some (Some (if (sign =? 45)%N then (- a)%Z else a))
        | _ => None
        end
      else None
  end.

(** A reader of timestamps in the form [YYYY-MM-DDTHH:MM:SS], then [.ffffff]
    or nothing, then an offset or nothing: the fields it reads, or [None] for
    a text in another form. *)
Definition iso_read (s : str) : option datetime :=
  let? (year, r) := take_number 4 s in
  let? r := take_char 45 r in
  let? (month, r) := take_number 2 r in
  let? r := take_char 45 r in
  let? (day, r) := take_number 2 r in
  let? r := take_char 84 r in
  let? (hour, r) := take_number 2 r in
  let? r := take_char 58 r in
  let? (minute, r) := take_number 2 r in
  let? r := take_char 58 r in
  let? (second, r) := take_number 2 r in
  let? (microsecond, r) := match take_char 46 r with
                            | Some r' => take_number 6 r'
                            | None => Some (0%N, r)
                            end in
  let? off := iso_read_offset r in
  Some (mk_datetime year month day hour minute second microsecond off).

(** The code points of a decimal numeral. *)
Fixpoint uint_codes (d : Decimal.uint) : str :=
  match d with
  | Decimal.Nil => []
  | Decimal.D0 l => 48%N :: uint_codes l
  | Decimal.D1 l => 49%N :: uint_codes l
  | Decimal.D2 l => 50%N :: uint_codes l
  | Decimal.D3 l => 51%N :: uint_codes l
  | Decimal.D4 l => 52%N :: uint_codes l
  | Decimal.D5 l => 53%N :: uint_codes l
  | Decimal.D6 l => 54%N :: uint_codes l
  | Decimal.D7 l => 55%N :: uint_codes l
  | Decimal.D8 l => 56%N :: uint_codes l
  | Decimal.D9 l => 57%N :: uint_codes l
  end.

(** The digit [k] before the numeral [l]. *)
Definition uint_digit (k : N) (l : Decimal.uint) : Decimal.uint :=
  match k with
  | 0 => Decimal.D0 l | 1 => Decimal.D1 l | 2 => Decimal.D2 l | 3 => Decimal.D3 l
  | 4 => Decimal.D4 l | 5 => Decimal.D5 l | 6 => Decimal.D6 l | 7 => Decimal.D7 l
  | 8 => Decimal.D8 l | _ => Decimal.D9 l
  end%N.

(** [n] on [w] digits, the most significant first. *)
Fixpoint uint_padded (w : nat) (n : N) : Decimal.uint :=
  match w with
  | O => Decimal.Nil
  | S w' => uint_digit (n / 10 ^ N.of_nat w') (uint_padded w' (n mod 10 ^ N.of_nat w'))
  end.

(* ===================================================================== *)
(** ** Basic facts *)
(* ===================================================================== *)

Lemma str_eqb_refl (s : str) : str_eqb s s = true.
Proof. unfold str_eqb. destruct (list_eq_dec N.eq_dec s s); congruence. Qed.

Lemma str_eqb_eq (a b : str) : str_eqb a b = true <-> a = b.
Proof.
  unfold str_eqb. destruct (list_eq_dec N.eq_dec a b); split; congruence.
Qed.

Lemma str_eqb_neq (a b : str) : str_eqb a b = false <-> a <> b.
Proof.
  unfold str_eqb. destruct (list_eq_dec N.eq_dec a b); split; congruence.
Qed.

Lemma extends_refl {A : Type} (l : list A) : extends l l.
Proof. exists []. now rewrite app_nil_r. Qed.

Lemma extends_trans {A : Type} (l1 l2 l3 : list A) :
  extends l1 l2 -> extends l2 l3 -> extends l1 l3.
Proof.
  intros [m1 ->] [m2 ->]. exists (m1 ++ m2). now rewrite app_assoc.
Qed.

Lemma extends_length {A : Type} (l l' : list A) : extends l l' -> length l <= length l'.
Proof. intros [m ->]. rewrite length_app. lia. Qed.

Lemma zfill_length (w : nat) (s : str) : w <= length (zfill w s).
Proof. unfold zfill. rewrite length_app, repeat_length. lia. Qed.

Lemma date_isoformat_length (d : date) : 10 <= length (date_isoformat d).
Proof.
  unfold date_isoformat. rewrite !length_app.
  pose proof (zfill_length 4 (dec (d_year d))).
  pose proof (zfill_length 2 (dec (d_month d))).
  pose proof (zfill_length 2 (dec (d_day d))).
  change (length (u "-")) with 1. lia.
Qed.

Lemma datetime_isoformat_length (dt : datetime) : 19 <= length (datetime_isoformat dt).
Proof.
  unfold datetime_isoformat. rewrite !length_app.
  pose proof (date_isoformat_length (datetime_date dt)).
  pose proof (zfill_length 2 (dec (hour dt))).
  pose proof (zfill_length 2 (dec (minute dt))).
  pose proof (zfill_length 2 (dec (second dt))).
  change (length (u "T")) with 1. change (length (u ":")) with 1. lia.
Qed.

(* ===================================================================== *)
(** ** Runs of the definitions *)
(* ===================================================================== *)

Example u_reads_utf8 :
  u "Hi" = [72; 105]%N /\ u "-• " = [45; 8226; 32]%N /\ u "°F" = [176; 70]%N.
Proof. repeat split; reflexivity. Qed.

Example splitlines_run :
  py_splitlines (u "a" ++ [13; 10]%N ++ u "b" ++ [10; 10]%N ++ u "c" ++ [10]%N)
  = [u "a"; u "b"; []; u "c"].
Proof. vm_compute. reflexivity. Qed.

Example strip_run :
  py_strip ([9; 32]%N ++ u "Pay rent " ++ [10]%N) = u "Pay rent"
  /\ py_strip_chars (u "-• ") (u "- • ship v1 -") = u "ship v1"
  /\ py_strip_chars (u "-• ") (u "* ship v1") = u "* ship v1".
Proof. repeat split; vm_compute; reflexivity. Qed.

Example dec_run :
  dec 2024 = u "2024" /\ zfill 2 (dec 3) = u "03" /\ dec 0 = u "0"
  /\ dec_Z (-17) = u "-17".
Proof. repeat split; vm_compute; reflexivity. Qed.

Example format_0f_run :
  map format_0f [72.5; 73.5; 0.5; 1.5; 2.5; -0.25; 1e21; 68; -3.75]%float
  = map u ["72"; "74"; "0"; "2"; "2"; "-0"; "1000000000000000000000"; "68"; "-4"].
Proof. vm_compute. reflexivity. Qed.

Example float_of_Z_run :
  float_of_Z 72 = Ret 72%float
  /\ float_of_Z 9007199254740993 = Ret 9007199254740992%float
  /\ float_of_Z (2 ^ 1024) = Raise (mk_OverflowError (u "int too large to convert to float")).
Proof. repeat split; vm_compute; reflexivity. Qed.

Example b64encode_run :
  b64encode (u "Man") = u "TWFu" /\ b64encode (u "Ma") = u "TWE="
  /\ b64encode (u "M") = u "TQ==" /\ b64encode [] = []
  /\ b64encode (u "hello world!!") = u "aGVsbG8gd29ybGQhIQ==".
Proof. repeat split; vm_compute; reflexivity. Qed.

Example isoformat_run :
  datetime_isoformat (mk_datetime 2024 3 1 9 0 0 0 None) = u "2024-03-01T09:00:00"
  /\ datetime_isoformat (mk_datetime 2024 3 1 9 0 0 1500 (Some (-19800)%Z))
     = u "2024-03-01T09:00:00.001500-05:30"
  /\ datetime_isoformat (mk_datetime 987 12 24 18 30 5 0 (Some 0%Z))
     = u "0987-12-24T18:30:05+00:00".
Proof. repeat split; vm_compute; reflexivity. Qed.

Example date_add_one_day_run :
  date_add_one_day (mk_date 2024 2 28) = Ret (mk_date 2024 2 29)
  /\ date_add_one_day (mk_date 2023 2 28) = Ret (mk_date 2023 3 1)
  /\ date_add_one_day (mk_date 2023 12 31) = Ret (mk_date 2024 1 1)
  /\ date_add_one_day (mk_date 1900 2 28) = Ret (mk_date 1900 3 1).
Proof. repeat split; vm_compute; reflexivity. Qed.

Example fresh_is_init :
  GeminiAssistant_init (Some (u "key")) None (mk_date 2024 3 1) = Ret Stub.fresh
  /\ GeminiAssistant_init None (Some (u "key")) (mk_date 2024 3 1) = Ret Stub.fresh
  /\ GeminiAssistant_init (Some []) None (mk_date 2024 3 1)
     = Raise (mk_RuntimeError (u "GOOGLE_API_KEY environment variable is not set.")).
Proof. repeat split; vm_compute; reflexivity. Qed.

(** Scenario D of the specification. *)
Example unknown_tool_run :
  _dispatch_tool_call Stub.X_answers
    (VDict [ (u "name", VStr (u "unknown_tool")); (u "args", VDict []) ]) Stub.fresh
  = (Ret (error_result (u "Tool 'unknown_tool' is not available.")), Stub.fresh).
Proof. vm_compute. reflexivity. Qed.

Example agenda_run :
  fst (_dispatch_tool_call Stub.X_answers
         (VDict [ (u "name", VStr (u "list_calendar_agenda"));
                  (u "args", VDict [ (u "date", VStr (u "2024-03-02")) ]) ])
         Stub.fresh)
  = Ret (VDict [ (u "date", VStr (u "2024-03-02"));
                 (u "events",
                  VList [ event "Client status update" "13:00" "Teams"
                            "Review Q4 roadmap and confirm deliverables." ]) ]).
Proof. vm_compute. reflexivity. Qed.

(** A sequence of pairs given as arguments is read with [dict(...)]. *)
Example pairs_as_arguments_run :
  py_dict (VList [ VList [ VStr (u "recipient"); VStr (u "Al") ]; VStr (u "ab");
                   VList [ VInt 1; VInt 2 ] ])
  = Ret [ (u "recipient", VStr (u "Al")); (u "a", VStr (u "b")) ]
  /\ py_dict (VStr (u "ab"))
     = Raise (mk_ValueError
                (u "dictionary update sequence element #0 has length 1; 2 is required")).
Proof. split; vm_compute; reflexivity. Qed.

(* ===================================================================== *)
(** ** The handlers *)
(* ===================================================================== *)

Section HandlerFacts.

Variable X : Externals.

Lemma create_reminder_stored (arguments : dict) (self : GeminiAssistant)
    (s : str) (raw : value) (dt : datetime) :
  dict_get arguments (u "summary") = Some (VStr s) ->
  py_strip s <> [] ->
  dict_get arguments (u "due_time") = Some raw ->
  truthy raw = true ->
  date_parser_parse X raw = Ret dt ->
  let reminder :=
    VDict [ (u "summary", VStr (py_strip s));
            (u "due_time", VStr (datetime_isoformat dt)) ] in
  _tool_create_reminder X arguments self
  = (Ret (VDict [ (u "status", VStr (u "stored"));
                  (u "reminder", reminder);
                  (u "total",
                   VInt (Z.of_nat (S (length (reminders (_state self)))))) ]),
     mk_GeminiAssistant
       (mk_AssistantState (reminders (_state self) ++ [reminder])
                          (calendar_seed (_state self)))
       (_history self)).
Proof.
  intros Hs Hne Hd Ht Hp reminder.
  unfold _tool_create_reminder, mbind, lift, py_get_default, py_get, py_strip_method.
  rewrite Hs, Hd. cbn.
  destruct (py_strip s) eqn:E; [congruence|]. cbn.
  rewrite Ht, Hp. cbn. unfold mbind, reminders_append. cbn.
  rewrite length_app, Nat.add_comm. reflexivity.
Qed.

Lemma read_only_mret {A : Type} (a : A) : read_only (mret a).
Proof. intros self. reflexivity. Qed.

Lemma read_only_mraise {A : Type} (e : exn) : read_only (@mraise A e).
Proof. intros self. reflexivity. Qed.

Lemma read_only_lift {A : Type} (c : outcome A) : read_only (lift c).
Proof. intros self. reflexivity. Qed.

Lemma read_only_mbind {A B : Type} (c : M A) (k : A -> M B) :
  read_only c -> (forall a, read_only (k a)) -> read_only (mbind c k).
Proof.
  intros Hc Hk self. unfold mbind. specialize (Hc self).
  destruct (c self) as [[a | e] self']; simpl in Hc; subst self'.
  - apply Hk.
  - reflexivity.
Qed.

Lemma read_only_try {A : Type} (c : M A) (handler : exn -> M A) :
  read_only c -> (forall e, read_only (handler e)) ->
  read_only (try_except_Exception c handler).
Proof.
  intros Hc Hh self. unfold try_except_Exception. specialize (Hc self).
  destruct (c self) as [[a | e] self']; simpl in Hc; subst self'.
  - reflexivity.
  - destruct (isinstance e Exception); [apply Hh | reflexivity].
Qed.

Ltac read_only_steps :=
  repeat first
    [ apply read_only_mret
    | apply read_only_mraise
    | apply read_only_lift
    | apply read_only_try; [ | intro ]
    | apply read_only_mbind; [ | intro ]
    | match goal with
      | |- read_only (if ?b then _ else _) => destruct b
      | |- read_only (match ?o with Ret _ => _ | Raise _ => _ end) => destruct o
      end
    | (intro; reflexivity) ].

Lemma weather_read_only (arguments : dict) :
  read_only (_tool_get_weather_forecast X arguments).
Proof. unfold _tool_get_weather_forecast. read_only_steps. Qed.

Lemma calendar_read_only (arguments : dict) :
  read_only (_tool_list_calendar_agenda X arguments).
Proof. unfold _tool_list_calendar_agenda. read_only_steps. Qed.

Lemma search_read_only (arguments : dict) :
  read_only (_tool_search_public_info X arguments).
Proof. unfold _tool_search_public_info. read_only_steps. Qed.

Lemma draft_read_only (arguments : dict) :
  read_only (_tool_draft_email_outline X arguments).
Proof. unfold _tool_draft_email_outline. read_only_steps. Qed.

Lemma read_only_adds {A : Type} (c : M A) : read_only c -> only_adds_reminders c.
Proof.
  intros H self. rewrite (H self). repeat split. apply extends_refl.
Qed.

Lemma adds_mbind {A B : Type} (c : M A) (k : A -> M B) :
  only_adds_reminders c -> (forall a, only_adds_reminders (k a)) ->
  only_adds_reminders (mbind c k).
Proof.
  intros Hc Hk self. unfold mbind. specialize (Hc self).
  destruct (c self) as [[a | e] self']; simpl in Hc.
  - destruct Hc as (Hh & Hs & Hr). destruct (Hk a self') as (Hh' & Hs' & Hr').
    repeat split; try congruence. eapply extends_trans; eassumption.
  - exact Hc.
Qed.

Lemma reminders_append_adds (r : value) : only_adds_reminders (reminders_append r).
Proof. intros self. simpl. repeat split. now exists [r]. Qed.

Lemma create_reminder_adds (arguments : dict) :
  only_adds_reminders (_tool_create_reminder X arguments).
Proof.
  unfold _tool_create_reminder.
  repeat (apply adds_mbind; [ apply read_only_adds, read_only_lift | intro ]).
  repeat match goal with
         | |- only_adds_reminders (if ?b then _ else _) => destruct b
         | |- only_adds_reminders (mret _) => apply read_only_adds, read_only_mret
         end.
  destruct (date_parser_parse X a1) as [dt | exc].
  - apply adds_mbind; [ apply reminders_append_adds | intro ].
    apply read_only_adds. intro; reflexivity.
  - destruct (is_ValueError_or_TypeError exc);
      apply read_only_adds; [ apply read_only_mret | apply read_only_mraise ].
Qed.

(** C9: [reset] empties the transcript and leaves the [AssistantState], its
    reminders and its calendar index, as it was. *)
Theorem C9_reset_clears_history_only (self : GeminiAssistant) :
  fst (reset self) = Ret tt
  /\ _history (snd (reset self)) = []
  /\ _state (snd (reset self)) = _state self
  /\ reminders (_state (snd (reset self))) = reminders (_state self)
  /\ calendar_seed (_state (snd (reset self))) = calendar_seed (_state self).
Proof. unfold reset. cbn. repeat split. Qed.










Lemma obind_ret {A B : Type} (c : outcome A) (k : A -> outcome B) (v : B) :
  obind c k = Ret v -> exists a, c = Ret a /\ k a = Ret v.
Proof. destruct c as [ a | e ]; cbn; [ eauto | discriminate ]. Qed.

Lemma weather_unit (arguments : dict) (unit0 : value) (unit1 : str) :
  py_get (VDict arguments) (u "unit") = Ret unit0 ->
  py_lower_method X (if truthy unit0 then unit0 else VStr (u "fahrenheit")) = Ret unit1 ->
  (if str_in unit1 [u "fahrenheit"; u "celsius"] then unit1 else u "fahrenheit")
  = resolved_unit X arguments.
Proof.
  unfold py_get, resolved_unit. intros [= <-].
  destruct (dict_get arguments (u "unit")) as [ [ | b | z | f | [ | c s ] | l | d ] | ];
    cbn.
  all: try (intros [= <-]; reflexivity).
  all: try (destruct b; cbn; [ discriminate | intros [= <-]; reflexivity ]).
  all: try (destruct l; cbn; [ intros [= <-]; reflexivity | discriminate ]).
  all: try (destruct d; cbn; [ intros [= <-]; reflexivity | discriminate ]).
  all: match goal with
       | |- context [ negb ?t ] =>
           destruct (negb t); cbn; [ discriminate | intros [= <-]; reflexivity ]
       end.
Qed.

Lemma dec_digits (n : N) : Forall (fun c => (48 <=? c)%N && (c <=? 57)%N = true) (dec n).
Proof.
  unfold dec. generalize (N.to_uint n). intros d.
  induction d; unfold u in *; cbn in *;
    try (constructor; [ reflexivity | assumption ]).
  constructor.
Qed.

Lemma format_0f_no_point (x : float) : ~ In 46%N (format_0f x).
Proof.
  unfold format_0f.
  destruct (Prim2SF x) as [ sg | sg | | sg m e ].
  - destruct sg; vm_compute; intuition discriminate.
  - destruct sg; vm_compute; intuition discriminate.
  - vm_compute; intuition discriminate.
  - intros H. apply in_app_or in H. destruct H as [H | H].
    + destruct sg; vm_compute in H; intuition discriminate.
    + pose proof (dec_digits (round_half_even (N.pos m) e)) as D.
      rewrite Forall_forall in D. specialize (D _ H). discriminate.
Qed.

Lemma weather_success (arguments : dict) (self : GeminiAssistant) (res : value)
    (self' : GeminiAssistant) :
  _tool_get_weather_forecast X arguments self = (Ret res, self') ->
  result_has res (u "error") = false ->
  exists temp feels_like,
    let unit_symbol :=
      if str_eqb (resolved_unit X arguments) (u "fahrenheit") then u "°F" else u "°C" in
    result_get res (u "temperature") = Some (VStr (format_0f temp ++ unit_symbol))
    /\ result_get res (u "feels_like") = Some (VStr (format_0f feels_like ++ unit_symbol)).
Proof.
  unfold _tool_get_weather_forecast, mbind, lift.
  destruct (py_get_default (VDict arguments) (u "location") (VStr [])) as [ location0 | ];
    [ | discriminate ].
  destruct (py_strip_method location0) as [ location | ]; [ | discriminate ].
  destruct (py_get (VDict arguments) (u "unit")) as [ unit0 | ] eqn:E0; [ | discriminate ].
  destruct (py_lower_method X _) as [ unit1 | ] eqn:E1; [ | discriminate ].
  rewrite (weather_unit E0 E1).
  destruct (negb (truthy (VStr location))).
  - intros [= <- _] Hf. vm_compute in Hf. discriminate.
  - unfold try_except_Exception.
    match goal with
    | |- match ?body with Ret _ => _ | Raise _ => _ end = _ -> _ =>
        destruct body as [ a | e ] eqn:B
    end.
    + repeat (apply obind_ret in B; destruct B as (? & _ & B)).
      injection B as <-. intros [= <- _] _.
      eexists _, _. split; reflexivity.
    + destruct (isinstance e Exception); [ | discriminate ].
      intros [= <- _] Hf. vm_compute in Hf. discriminate.
Qed.

(** C4, as the code has it: a [unit] that is absent or empty is
    [fahrenheit]; a [unit] string is put in lower case first and is replaced
    by [fahrenheit] when what results is neither [fahrenheit] nor [celsius];
    a successful result gives [temperature] and [feels_like] with no decimals
    (no decimal point) followed by the symbol of that unit. *)
Theorem C4_weather_unit_and_format :
  (forall arguments self res self',
     _tool_get_weather_forecast X arguments self = (Ret res, self') ->
     result_has res (u "error") = false ->
     exists temp feels_like,
       let unit_symbol :=
         if str_eqb (resolved_unit X arguments) (u "fahrenheit")
         then u "°F" else u "°C" in
       result_get res (u "temperature") = Some (VStr (format_0f temp ++ unit_symbol))
       /\ result_get res (u "feels_like")
          = Some (VStr (format_0f feels_like ++ unit_symbol)))
  /\ (forall arguments,
        dict_get arguments (u "unit") = None \/ dict_get arguments (u "unit") = Some (VStr []) ->
        resolved_unit X arguments = u "fahrenheit")
  /\ (forall arguments s,
        dict_get arguments (u "unit") = Some (VStr s) ->
        str_in (py_lower X s) [u "fahrenheit"; u "celsius"] = false ->
        resolved_unit X arguments = u "fahrenheit")
  /\ (forall arguments s,
        dict_get arguments (u "unit") = Some (VStr s) ->
        str_in (py_lower X s) [u "fahrenheit"; u "celsius"] = true ->
        resolved_unit X arguments = py_lower X s)
  /\ (forall x, ~ In 46%N (format_0f x)).
Proof.
  split; [ exact weather_success | ].
  split; [ | split; [ | split ] ].
  - intros arguments [H | H]; unfold resolved_unit; now rewrite H.
  - intros arguments s H Hn. unfold resolved_unit. rewrite H.
    destruct s; [ reflexivity | now rewrite Hn ].
  - intros arguments s H Hy. unfold resolved_unit. rewrite H.
    destruct s; [ discriminate | now rewrite Hy ].
  - exact format_0f_no_point.
Qed.















(* ===================================================================== *)
(** ** The dispatcher *)
(* ===================================================================== *)

Lemma str_eqb_sym (a b : str) : str_eqb a b = str_eqb b a.
Proof.
  destruct (str_eqb a b) eqn:E.
  - apply str_eqb_eq in E. subst. now rewrite str_eqb_refl.
  - apply str_eqb_neq in E. symmetry. apply str_eqb_neq. congruence.
Qed.

Lemma registered_handler (n : str) :
  str_in n TOOL_NAMES = true ->
  exists h, handlers_lookup (handlers X) n = Some h.
Proof.
  unfold str_in, TOOL_NAMES, handlers. cbn [existsb handlers_lookup].
  rewrite !(str_eqb_sym n).
  repeat match goal with
         | |- context [ str_eqb ?k n ] => destruct (str_eqb k n); [ eauto | ]
         end.
  discriminate.
Qed.

Lemma handlers_lookup_cases (n : str) (h : dict -> M value) :
  handlers_lookup (handlers X) n = Some h ->
  h = _tool_get_weather_forecast X \/ h = _tool_list_calendar_agenda X
  \/ h = _tool_create_reminder X \/ h = _tool_search_public_info X
  \/ h = _tool_draft_email_outline X.
Proof.
  unfold handlers. cbn [handlers_lookup].
  repeat match goal with
         | |- context [ str_eqb ?k n ] =>
             destruct (str_eqb k n); [ intros [= <-]; tauto | ]
         end.
  discriminate.
Qed.




Lemma handler_adds (name : value) (h : dict -> M value) (d : dict) :
  handlers_getitem X name = Ret h -> only_adds_reminders (h d).
Proof.
  unfold handlers_getitem. destruct name; try discriminate.
  destruct (handlers_lookup (handlers X) s) as [ h' | ] eqn:E; [ | discriminate ].
  intros [= <-].
  destruct (handlers_lookup_cases s E) as [ -> | [ -> | [ -> | [ -> | -> ] ] ] ].
  - apply read_only_adds, weather_read_only.
  - apply read_only_adds, calendar_read_only.
  - apply create_reminder_adds.
  - apply read_only_adds, search_read_only.
  - apply read_only_adds, draft_read_only.
Qed.

Lemma dispatch_adds (function_call : value) :
  only_adds_reminders (_dispatch_tool_call X function_call).
Proof.
  unfold _dispatch_tool_call.
  apply adds_mbind; [ apply read_only_adds, read_only_lift | intros name ].
  apply adds_mbind; [ apply read_only_adds, read_only_lift | intros unknown ].
  destruct unknown; [ apply read_only_adds, read_only_mret | ].
  unfold mbind at 1, lift at 1.
  destruct (handlers_getitem X name) as [ h | e ] eqn:E.
  - apply adds_mbind; [ apply read_only_adds, read_only_lift | intros arguments0 ].
    apply adds_mbind; [ apply read_only_adds, read_only_lift | intros arguments ].
    eapply handler_adds; eassumption.
  - apply read_only_adds. intro; reflexivity.
Qed.


End HandlerFacts.

(* ===================================================================== *)
(** ** The loop *)
(* ===================================================================== *)

Section LoopFacts.

Variable X : Externals.

Lemma adds_appends {A : Type} (c : M A) : only_adds_reminders c -> only_appends c.
Proof.
  intros H self. destruct (H self) as (Hh & Hs & Hr).
  repeat split; try assumption. rewrite Hh. apply extends_refl.
Qed.

Lemma appends_mbind {A B : Type} (c : M A) (k : A -> M B) :
  only_appends c -> (forall a, only_appends (k a)) -> only_appends (mbind c k).
Proof.
  intros Hc Hk self. unfold mbind. specialize (Hc self).
  destruct (c self) as [[a | e] self']; simpl in Hc.
  - destruct Hc as (Hh & Hs & Hr). destruct (Hk a self') as (Hh' & Hs' & Hr').
    repeat split; try congruence; eapply extends_trans; eassumption.
  - exact Hc.
Qed.

Lemma history_append_appends (m : value) : only_appends (history_append m).
Proof.
  intros self. cbn. repeat split; [ now exists [m] | apply extends_refl ].
Qed.

Lemma appends_pure {A : Type} (c : M A) : read_only c -> only_appends c.
Proof. intros H. apply adds_appends, read_only_adds, H. Qed.

Lemma mfor_appends {A : Type} (xs : list A) (body : A -> M unit) :
  (forall x, only_appends (body x)) -> only_appends (mfor xs body).
Proof.
  intros Hb. induction xs as [ | x xs IH ]; cbn.
  - apply appends_pure, read_only_mret.
  - apply appends_mbind; [ apply Hb | intros _; exact IH ].
Qed.

Lemma dispatch_all_appends (calls : list value) : only_appends (dispatch_all X calls).
Proof.
  unfold dispatch_all. apply mfor_appends. intros call.
  apply appends_mbind; [ apply adds_appends, dispatch_adds | intros tool_response ].
  apply appends_mbind; [ apply appends_pure, read_only_lift | intros name ].
  apply history_append_appends.
Qed.

Lemma generate_round_appends : only_appends (generate_round X).
Proof.
  unfold generate_round.
  apply appends_mbind; [ apply appends_pure; intro; reflexivity | intros candidates ].
  apply appends_mbind; [ apply appends_pure, read_only_lift | intros candidate ].
  apply appends_mbind; [ apply appends_pure, read_only_lift | intros model_message ].
  apply appends_mbind; [ apply history_append_appends | intros _ ].
  apply appends_mbind; [ apply appends_pure, read_only_lift | intros function_calls ].
  destruct function_calls.
  - apply appends_pure, read_only_mret.
  - apply appends_mbind; [ apply dispatch_all_appends | intros _ ].
    apply appends_pure, read_only_mret.
Qed.

Lemma loop_appends (fuel : nat) :
  forall self r self',
    _generate_until_complete X fuel self = Some (r, self') ->
    extends (_history self) (_history self')
    /\ calendar_seed (_state self') = calendar_seed (_state self)
    /\ extends (reminders (_state self)) (reminders (_state self')).
Proof.
  induction fuel as [ | n IH ]; intros self r self'; cbn; [ discriminate | ].
  pose proof (generate_round_appends self) as (Hh & Hs & Hr).
  destruct (generate_round X self) as [ [ [ m | ] | e ] self1 ]; cbn in *.
  - intros [= <- <-]. auto.
  - intros H. destruct (IH _ _ _ H) as (Hh' & Hs' & Hr').
    repeat split; try congruence; eapply extends_trans; eassumption.
  - intros [= <- <-]. auto.
Qed.











Lemma chat_inv (fuel : nat) (prompt : str) (image_bytes : option (list N))
    (mime_type : str) (self : GeminiAssistant) :
  (prompt = [] /\ image_bytes = None
   /\ chat X fuel prompt image_bytes mime_type self
      = Some (Raise (mk_ValueError (u "Provide text, an image, or both.")), self))
  \/ (~ (prompt = [] /\ image_bytes = None)
      /\ chat X fuel prompt image_bytes mime_type self
         = match _generate_until_complete X fuel
                   (mk_GeminiAssistant (_state self)
                      (_history self ++ [_build_user_message prompt image_bytes mime_type]))
           with
           | None => None
           | Some (Raise e, self') => Some (Raise e, self')
           | Some (Ret response, self') =>
               Some ((parts <- py_get_default response (u "parts") (VList []) ;;
                      _parts_to_text parts)%O, self')
           end).
Proof.
  unfold chat. destruct prompt as [ | c p ]; destruct image_bytes as [ bs | ]; cbn;
    [ right | left | right | right ]; try (split; [ | reflexivity ]);
    try (intros [? ?]; discriminate); auto.
Qed.


(** C7, as the code has it: [chat] raises [ValueError] and leaves the
    assistant as it was exactly when the prompt is empty and no attachment is
    given ([image_bytes] is [None]); in every other case, an attachment of
    zero bytes included, the user message (role [user], at least one part) is
    added to the transcript, the loop runs on the transcript so extended, and
    the message stays there however the call ends. *)
Theorem C7_chat_precondition (fuel : nat) (prompt : str)
    (image_bytes : option (list N)) (mime_type : str) (self : GeminiAssistant) :
  (chat X fuel prompt image_bytes mime_type self
   = Some (Raise (mk_ValueError (u "Provide text, an image, or both.")), self)
   <-> prompt = [] /\ image_bytes = None)
  /\ (~ (prompt = [] /\ image_bytes = None) ->
      role_of (_build_user_message prompt image_bytes mime_type) = Some (VStr (u "user"))
      /\ (exists part parts,
            result_get (_build_user_message prompt image_bytes mime_type) (u "parts")
            = Some (VList (part :: parts)))
      /\ chat X fuel prompt image_bytes mime_type self
         = match _generate_until_complete X fuel
                   (mk_GeminiAssistant (_state self)
                      (_history self ++ [_build_user_message prompt image_bytes mime_type]))
           with
           | None => None
           | Some (Raise e, self') => Some (Raise e, self')
           | Some (Ret response, self') =>
               Some ((parts <- py_get_default response (u "parts") (VList []) ;;
                      _parts_to_text parts)%O, self')
           end
      /\ forall r self',
           chat X fuel prompt image_bytes mime_type self = Some (r, self') ->
           extends (_history self ++ [_build_user_message prompt image_bytes mime_type])
                   (_history self')).
Proof.
  destruct (chat_inv fuel prompt image_bytes mime_type self)
    as [ (Hp & Hi & E) | (Hn & E) ].
  - split; [ tauto | tauto ].
  - assert (Hgrow : forall r self',
               chat X fuel prompt image_bytes mime_type self = Some (r, self') ->
               extends (_history self ++ [_build_user_message prompt image_bytes mime_type])
                       (_history self')).
    { intros r self'. rewrite E.
      destruct (_generate_until_complete X fuel _) as [ [ r0 s1 ] | ] eqn:L;
        [ | discriminate ].
      apply loop_appends in L. destruct L as (Hh & _). cbn in Hh.
      destruct r0; intros [= _ <-]; exact Hh. }
    split; [ split; [ | tauto ] | ].
    + intros H. exfalso. apply Hgrow in H. apply extends_length in H.
      rewrite length_app in H. cbn in H. lia.
    + intros _. split; [ reflexivity | split; [ | split; [ exact E | exact Hgrow ] ] ].
      unfold _build_user_message.
      destruct prompt as [ | c p ]; destruct image_bytes as [ bs | ]; cbn;
        try (eexists _, _; reflexivity).
      exfalso. apply Hn. auto.
Qed.



End LoopFacts.

(* ===================================================================== *)
(** ** The statements on the test doubles *)
(* ===================================================================== *)











(** C4, against the specification: the unit ["CELSIUS"] is not one of [fahrenheit] and
    [celsius], and the forecast is given in Celsius all the same. *)
Lemma C4_counterexample_uppercase_unit :
  str_in (u "CELSIUS") [u "fahrenheit"; u "celsius"] = false
  /\ _tool_get_weather_forecast Stub.X_answers
       [ (u "location", VStr (u "Paris")); (u "unit", VStr (u "CELSIUS")) ]
       Stub.fresh
     = (Ret (VDict [ (u "location", VStr (u "Paris"));
                     (u "summary", VStr (u "Sunny"));
                     (u "temperature", VStr (u "22°C"));
                     (u "feels_like", VStr (u "21°C"));
                     (u "humidity", VStr (u "40%"));
                     (u "source", VStr (u "wttr.in")) ]),
        Stub.fresh).
Proof. split; vm_compute; reflexivity. Qed.

(** C4 on the doubles: a forecast for Paris with no unit given. *)
Lemma C4_witness_default_unit :
  exists temp feels_like,
    result_get
      (VDict [ (u "location", VStr (u "Paris"));
               (u "summary", VStr (u "Sunny"));
               (u "temperature", VStr (u "72°F"));
               (u "feels_like", VStr (u "70°F"));
               (u "humidity", VStr (u "40%"));
               (u "source", VStr (u "wttr.in")) ])
      (u "temperature")
    = Some (VStr (format_0f temp ++ u "°F"))
    /\ result_get
         (VDict [ (u "location", VStr (u "Paris"));
                  (u "summary", VStr (u "Sunny"));
                  (u "temperature", VStr (u "72°F"));
                  (u "feels_like", VStr (u "70°F"));
                  (u "humidity", VStr (u "40%"));
                  (u "source", VStr (u "wttr.in")) ])
         (u "feels_like")
       = Some (VStr (format_0f feels_like ++ u "°F")).
Proof.
  apply (proj1 (C4_weather_unit_and_format Stub.X_answers)
           [ (u "location", VStr (u "Paris")) ] Stub.fresh _ Stub.fresh).
  - vm_compute. reflexivity.
  - reflexivity.
Defined.


(** C7, against the specification: an empty prompt with an attachment of zero bytes is
    not refused; the user message is built and the backend is called. *)
Lemma C7_counterexample_empty_attachment :
  chat Stub.X_answers 1 [] (Some []) (u "image/png") Stub.fresh
  = Some (Ret (u "Done."),
          mk_GeminiAssistant (_state Stub.fresh)
            [ VDict [ (u "role", VStr (u "user"));
                      (u "parts",
                       VList [ VDict [ (u "inline_data",
                                        VDict [ (u "mime_type", VStr (u "image/png"));
                                                (u "data", VStr []) ]) ] ]) ];
              VDict (Stub.text_message "Done.") ]).
Proof. vm_compute. reflexivity. Qed.

(** C7 on the doubles: a prompt and no attachment. *)
Lemma C7_witness_prompt_only :
  role_of (_build_user_message (u "hello") None (u "image/png")) = Some (VStr (u "user"))
  /\ (exists part parts,
        result_get (_build_user_message (u "hello") None (u "image/png")) (u "parts")
        = Some (VList (part :: parts)))
  /\ chat Stub.X_answers 1 (u "hello") None (u "image/png") Stub.fresh
     = match _generate_until_complete Stub.X_answers 1
               (mk_GeminiAssistant (_state Stub.fresh)
                  (_history Stub.fresh
                   ++ [_build_user_message (u "hello") None (u "image/png")]))
       with
       | None => None
       | Some (Raise e, self') => Some (Raise e, self')
       | Some (Ret response, self') =>
           Some ((parts <- py_get_default response (u "parts") (VList []) ;;
                  _parts_to_text parts)%O, self')
       end
  /\ forall r self',
       chat Stub.X_answers 1 (u "hello") None (u "image/png") Stub.fresh = Some (r, self') ->
       extends (_history Stub.fresh ++ [_build_user_message (u "hello") None (u "image/png")])
               (_history self').
Proof.
  apply (proj2 (C7_chat_precondition Stub.X_answers 1 (u "hello") None (u "image/png")
                  Stub.fresh)).
  intros [H _]. vm_compute in H. discriminate.
Defined.




(* ===================================================================== *)
(** ** Base64 and image generation *)
(* ===================================================================== *)

Lemma on_every_byte_spec (f : N -> bool) :
  on_every_byte f = true -> forall a, (a < 256)%N -> f a = true.
Proof.
  unfold on_every_byte. rewrite forallb_forall. intros H a Ha. apply H.
  apply in_map_iff. exists (N.to_nat a). split; [ apply N2Nat.id | ].
  apply in_seq. lia.
Qed.

Lemma b64_table_check :
  on_every_byte
    (fun i => (64 <=? i)%N
              || (match b64_index (b64_char i) with
                  | Some j => (j =? i)%N
                  | None => false
                  end && negb (b64_char i =? 61)%N)) = true.
Proof. vm_compute. reflexivity. Qed.

Lemma b64_char_index (i : N) :
  (i < 64)%N -> b64_index (b64_char i) = Some i /\ (b64_char i =? 61)%N = false.
Proof.
  intros Hi.
  pose proof (@on_every_byte_spec _ b64_table_check i ltac:(lia)) as H.
  cbv beta in H. apply orb_true_iff in H.
  destruct H as [H | H]; [ apply N.leb_le in H; lia | ].
  apply andb_true_iff in H. destruct H as [Hj Hp].
  destruct (b64_index (b64_char i)) as [ j | ]; [ | discriminate ].
  apply N.eqb_eq in Hj. subst j. split; [ reflexivity | ].
  now apply negb_true_iff in Hp.
Qed.

Lemma b64_char_ascii (i : N) : is_ascii (b64_char i) = true.
Proof.
  unfold b64_char.
  destruct (nth_in_or_default (N.to_nat i) b64_alphabet 61%N) as [H | ->];
    [ | reflexivity ].
  revert H. generalize (nth (N.to_nat i) b64_alphabet 61%N). intros c H.
  assert (A : forallb is_ascii b64_alphabet = true) by (vm_compute; reflexivity).
  rewrite forallb_forall in A. now apply A.
Qed.

Lemma a2b_step_0 (l p i : N) (out r : list N) :
  (i < 64)%N ->
  a2b_base64_from 0 l p out (b64_char i :: r) = a2b_base64_from 1 i 0 out r.
Proof.
  intros Hi. destruct (b64_char_index Hi) as [Hx Hp].
  cbn [a2b_base64_from]. now rewrite Hp, Hx.
Qed.

Lemma a2b_step_1 (l p i : N) (out r : list N) :
  (i < 64)%N ->
  a2b_base64_from 1 l p out (b64_char i :: r)
  = a2b_base64_from 2 (N.land i 15) 0
      (N.land (N.lor (N.shiftl l 2) (N.shiftr i 4)) 255 :: out) r.
Proof.
  intros Hi. destruct (b64_char_index Hi) as [Hx Hp].
  cbn [a2b_base64_from]. now rewrite Hp, Hx.
Qed.

Lemma a2b_step_2 (l p i : N) (out r : list N) :
  (i < 64)%N ->
  a2b_base64_from 2 l p out (b64_char i :: r)
  = a2b_base64_from 3 (N.land i 3) 0
      (N.land (N.lor (N.shiftl l 4) (N.shiftr i 2)) 255 :: out) r.
Proof.
  intros Hi. destruct (b64_char_index Hi) as [Hx Hp].
  cbn [a2b_base64_from]. now rewrite Hp, Hx.
Qed.

Lemma a2b_step_3 (l p i : N) (out r : list N) :
  (i < 64)%N ->
  a2b_base64_from 3 l p out (b64_char i :: r)
  = a2b_base64_from 0 0 0 (N.land (N.lor (N.shiftl l 6) i) 255 :: out) r.
Proof.
  intros Hi. destruct (b64_char_index Hi) as [Hx Hp].
  cbn [a2b_base64_from]. now rewrite Hp, Hx.
Qed.

Lemma b64_bits_12_check :
  on_every_byte (fun a => on_every_byte (fun b =>
    (a / 4 <? 64)%N && ((a mod 4) * 16 + b / 16 <? 64)%N
    && (N.land (N.lor (N.shiftl (a / 4) 2)
                      (N.shiftr ((a mod 4) * 16 + b / 16) 4)) 255 =? a)%N
    && (N.land ((a mod 4) * 16 + b / 16) 15 =? b / 16)%N)) = true.
Proof. vm_compute. reflexivity. Qed.

Lemma b64_bits_12 (a b : N) :
  (a < 256)%N -> (b < 256)%N ->
  (a / 4 < 64)%N /\ ((a mod 4) * 16 + b / 16 < 64)%N
  /\ N.land (N.lor (N.shiftl (a / 4) 2) (N.shiftr ((a mod 4) * 16 + b / 16) 4)) 255 = a
  /\ N.land ((a mod 4) * 16 + b / 16) 15 = (b / 16)%N.
Proof.
  intros Ha Hb.
  pose proof (@on_every_byte_spec _ (@on_every_byte_spec _ b64_bits_12_check a Ha) b Hb) as H.
  cbv beta in H.
  repeat (apply andb_true_iff in H; destruct H as [H ?]).
  repeat split; try (now apply N.ltb_lt); now apply N.eqb_eq.
Qed.

Lemma b64_bits_23_check :
  on_every_byte (fun b => on_every_byte (fun c =>
    ((b mod 16) * 4 + c / 64 <? 64)%N && (c mod 64 <? 64)%N
    && (N.land (N.lor (N.shiftl (b / 16) 4)
                      (N.shiftr ((b mod 16) * 4 + c / 64) 2)) 255 =? b)%N
    && (N.land ((b mod 16) * 4 + c / 64) 3 =? c / 64)%N
    && (N.land (N.lor (N.shiftl (c / 64) 6) (c mod 64)) 255 =? c)%N)) = true.
Proof. vm_compute. reflexivity. Qed.

Lemma b64_bits_23 (b c : N) :
  (b < 256)%N -> (c < 256)%N ->
  ((b mod 16) * 4 + c / 64 < 64)%N /\ (c mod 64 < 64)%N
  /\ N.land (N.lor (N.shiftl (b / 16) 4) (N.shiftr ((b mod 16) * 4 + c / 64) 2)) 255 = b
  /\ N.land ((b mod 16) * 4 + c / 64) 3 = (c / 64)%N
  /\ N.land (N.lor (N.shiftl (c / 64) 6) (c mod 64)) 255 = c.
Proof.
  intros Hb Hc.
  pose proof (@on_every_byte_spec _ (@on_every_byte_spec _ b64_bits_23_check b Hb) c Hc) as H.
  cbv beta in H.
  repeat (apply andb_true_iff in H; destruct H as [H ?]).
  repeat split; try (now apply N.ltb_lt); now apply N.eqb_eq.
Qed.

Lemma b64encode_cons3 (a b c : N) (r : list N) :
  b64encode (a :: b :: c :: r)
  = [ b64_char (a / 4); b64_char ((a mod 4) * 16 + b / 16);
      b64_char ((b mod 16) * 4 + c / 64); b64_char (c mod 64) ]%N
    ++ b64encode r.
Proof. reflexivity. Qed.

Lemma by_threes {A : Type} (P : list A -> Prop) :
  P [] -> (forall a, P [a]) -> (forall a b, P [a; b]) ->
  (forall a b c r, P r -> P (a :: b :: c :: r)) ->
  forall l, P l.
Proof.
  intros H0 H1 H2 H3 l.
  assert (H : forall n l, length l <= n -> P l).
  { clear l. induction n as [ | n IH ]; intros [ | a [ | b [ | c r ] ] ] Hl; cbn in Hl;
      auto; try lia.
    apply H3, IH. lia. }
  apply (H (length l)). lia.
Qed.

Lemma b64encode_ascii (bs : list N) : forallb is_ascii (b64encode bs) = true.
Proof.
  induction bs as [ | a | a b | a b c r IH ] using by_threes.
  - reflexivity.
  - change (b64encode [a])
      with [ b64_char (a / 4); b64_char ((a mod 4) * 16); 61; 61 ]%N.
    cbn [forallb]. now rewrite !b64_char_ascii.
  - change (b64encode [a; b])
      with [ b64_char (a / 4); b64_char ((a mod 4) * 16 + b / 16);
             b64_char ((b mod 16) * 4); 61 ]%N.
    cbn [forallb]. now rewrite !b64_char_ascii.
  - rewrite b64encode_cons3, forallb_app, IH. cbn [forallb].
    now rewrite !b64_char_ascii.
Qed.

Lemma a2b_base64_encoded (bs : list N) :
  all_bytes bs ->
  forall out, a2b_base64_from 0 0 0 out (b64encode bs) = Ret (rev out ++ bs).
Proof.
  induction bs as [ | a | a b | a b c r IH ] using by_threes; intros Hb out.
  - cbn. now rewrite app_nil_r.
  - inversion Hb as [ | ? ? Ha _ ]; subst.
    destruct (@b64_bits_12 a 0 Ha ltac:(lia)) as (H1 & H2 & E1 & _).
    change (0 / 16)%N with 0%N in *. rewrite N.add_0_r in *.
    change (b64encode [a])
      with [ b64_char (a / 4); b64_char ((a mod 4) * 16); 61; 61 ]%N.
    rewrite (a2b_step_0 _ _ _ _ H1), (a2b_step_1 _ _ _ _ H2), E1.
    cbn. rewrite <- ?app_assoc. reflexivity.
  - inversion Hb as [ | ? ? Ha Hb' ]; subst. inversion Hb' as [ | ? ? Hbb _ ]; subst.
    destruct (@b64_bits_12 a b Ha Hbb) as (H1 & H2 & E1 & E2).
    destruct (@b64_bits_23 b 0 Hbb ltac:(lia)) as (H3 & _ & E3 & _).
    change (0 / 64)%N with 0%N in *. rewrite N.add_0_r in *.
    change (b64encode [a; b])
      with [ b64_char (a / 4); b64_char ((a mod 4) * 16 + b / 16);
             b64_char ((b mod 16) * 4); 61 ]%N.
    rewrite (a2b_step_0 _ _ _ _ H1), (a2b_step_1 _ _ _ _ H2), E1, E2,
      (a2b_step_2 _ _ _ _ H3), E3.
    cbn. rewrite <- ?app_assoc. reflexivity.
  - inversion Hb as [ | ? ? Ha Hb' ]; subst. inversion Hb' as [ | ? ? Hbb Hb'' ]; subst.
    inversion Hb'' as [ | ? ? Hc Hr ]; subst.
    destruct (@b64_bits_12 a b Ha Hbb) as (H1 & H2 & E1 & E2).
    destruct (@b64_bits_23 b c Hbb Hc) as (H3 & H4 & E3 & E4 & E5).
    rewrite b64encode_cons3. cbn [app].
    rewrite (a2b_step_0 _ _ _ _ H1), (a2b_step_1 _ _ _ _ H2), E1, E2,
      (a2b_step_2 _ _ _ _ H3), E3, E4, (a2b_step_3 _ _ _ _ H4), E5.
    rewrite (IH Hr). cbn [rev]. rewrite <- ?app_assoc. reflexivity.
Qed.

Lemma b64_round_trip (bs : list N) : all_bytes bs -> b64decode (b64encode bs) = Ret bs.
Proof.
  intros Hb. unfold b64decode. rewrite b64encode_ascii.
  now rewrite (a2b_base64_encoded Hb).
Qed.

Lemma first_image_data_passed_over (parts : list inline_data) :
  forallb passed_over parts = true ->
  first_image_data parts
  = Raise (mk_RuntimeError (u "Image generation returned no image data.")).
Proof.
  induction parts as [ | inline rest IH ]; cbn [forallb first_image_data];
    [ reflexivity | ].
  intros H. apply andb_true_iff in H. destruct H as [Hp Hr]. unfold passed_over in Hp.
  destruct (negb (inline_truthy inline)); [ now apply IH | ].
  cbn in Hp. rewrite Hp. now apply IH.
Qed.

Lemma first_image_data_found (skipped : list inline_data) (inline : inline_data)
    (rest : list inline_data) :
  forallb passed_over skipped = true ->
  passed_over inline = false ->
  first_image_data (skipped ++ inline :: rest)
  = match inline_get_data inline with
    | DataStr s => b64decode s
    | DataBytes bs => Ret bs
    | DataNone => first_image_data rest
    end.
Proof.
  intros Hs Hi. induction skipped as [ | x skipped IH ]; cbn [app forallb first_image_data] in *.
  - unfold passed_over in Hi. apply orb_false_iff in Hi. destruct Hi as [H1 H2].
    rewrite H1, H2. reflexivity.
  - apply andb_true_iff in Hs. destruct Hs as [Hx Hs]. unfold passed_over in Hx.
    destruct (negb (inline_truthy x)); [ now apply IH | ].
    cbn in Hx. rewrite Hx. now apply IH.
Qed.

Example b64decode_run :
  b64decode (u "TWFu") = Ret (u "Man") /\ b64decode (u "TWE=") = Ret (u "Ma")
  /\ b64decode (u "TQ==") = Ret (u "M") /\ b64decode (u "TQ==TQ==") = Ret (u "M")
  /\ b64decode (u "TW Fu" ++ [10%N]) = Ret (u "Man")
  /\ b64decode (u "TQ") = Raise (mk_binascii_Error (u "Incorrect padding"))
  /\ b64decode (u "TWFuT")
     = Raise (mk_binascii_Error
                (u "Invalid base64-encoded string: number of data characters (5) cannot be 1 more than a multiple of 4"))
  /\ b64decode (u "é")
     = Raise (mk_ValueError (u "string argument should contain only ASCII characters")).
Proof. repeat (split; [ vm_compute; reflexivity | ]). vm_compute. reflexivity. Qed.

Section ImageFacts.

Variable image_generate_content : str -> str -> outcome (list (list inline_data)).

(** X1: [generate_image] looks at the parts of the first candidate only, in
    order: it passes over the parts with no inline payload or no data, and
    returns the data of the first other part, as it is when it is [bytes] and
    decoded from base64 when it is a string; when every part is passed over
    it raises [RuntimeError("Image generation returned no image data.")]. *)
Theorem X1_generate_image_first_payload (prompt aspect_ratio : str)
    (parts : list inline_data) (others : list (list inline_data)) :
  image_generate_content prompt aspect_ratio = Ret (parts :: others) ->
  (forallb passed_over parts = true ->
   generate_image image_generate_content prompt aspect_ratio
   = Raise (mk_RuntimeError (u "Image generation returned no image data.")))
  /\ (forall skipped inline rest,
        parts = skipped ++ inline :: rest ->
        forallb passed_over skipped = true ->
        passed_over inline = false ->
        (forall bs, inline_get_data inline = DataBytes bs ->
                    generate_image image_generate_content prompt aspect_ratio = Ret bs)
        /\ (forall s, inline_get_data inline = DataStr s ->
                      generate_image image_generate_content prompt aspect_ratio
                      = b64decode s)).
Proof.
  intros Hm. unfold generate_image. rewrite Hm. cbn [obind]. split.
  - apply first_image_data_passed_over.
  - intros skipped inline rest -> Hs Hi.
    rewrite (@first_image_data_found skipped inline rest Hs Hi).
    split; intros x ->; reflexivity.
Qed.

End ImageFacts.

(** X2: what [b64encode] writes, [b64decode] reads back: for every sequence
    of bytes the attachment of the user message built from it decodes to the
    same bytes, and an image model that sends those bytes in base64 makes
    [generate_image] return them. *)
Theorem X2_base64_round_trip (bs : list N) (prompt mime_type : str) :
  all_bytes bs ->
  b64decode (b64encode bs) = Ret bs
  /\ message_attachments (_build_user_message prompt (Some bs) mime_type)
     = [ (VStr mime_type, VStr (b64encode bs)) ]
  /\ (bs <> [] ->
      forall image_model aspect_ratio others rest,
        image_model prompt aspect_ratio
        = Ret ((InlineObject true (DataStr (b64encode bs)) :: rest) :: others) ->
        generate_image image_model prompt aspect_ratio = Ret bs).
Proof.
  intros Hb. split; [ now apply b64_round_trip | split ].
  - unfold _build_user_message, message_attachments.
    destruct prompt; reflexivity.
  - intros Hne image_model aspect_ratio others rest Hm.
    unfold generate_image. rewrite Hm. cbn [obind first_image_data inline_truthy negb
      inline_get_data data_truthy].
    destruct (b64encode bs) as [ | c s ] eqn:E.
    + exfalso. apply Hne. pose proof (b64_round_trip Hb) as R. rewrite E in R.
      vm_compute in R. now injection R.
    + rewrite <- E. now apply b64_round_trip.
Qed.

(** X1 on the doubles: the text part and the empty payload are passed over,
    the base64 payload is decoded, the later payload is not looked at. *)
Lemma X1_witness_png_payload :
  (forall bs, inline_get_data (InlineDict [ (u "mime_type", DataStr (u "image/png"));
                                            (u "data", DataStr (u "iVBO")) ])
              = DataBytes bs ->
              generate_image StubMore.image_model (u "a cat") (u "1:1") = Ret bs)
  /\ (forall s, inline_get_data (InlineDict [ (u "mime_type", DataStr (u "image/png"));
                                              (u "data", DataStr (u "iVBO")) ])
                = DataStr s ->
                generate_image StubMore.image_model (u "a cat") (u "1:1") = b64decode s).
Proof.
  apply (proj2 (@X1_generate_image_first_payload StubMore.image_model
                  (u "a cat") (u "1:1")
                  [ InlineAbsent;
                    InlineObject true (DataBytes []);
                    InlineDict [ (u "mime_type", DataStr (u "image/png"));
                                 (u "data", DataStr (u "iVBO")) ];
                    InlineObject true (DataBytes [1; 2; 3]%N) ]
                  [] eq_refl)
           [ InlineAbsent; InlineObject true (DataBytes []) ]
           (InlineDict [ (u "mime_type", DataStr (u "image/png"));
                         (u "data", DataStr (u "iVBO")) ])
           [ InlineObject true (DataBytes [1; 2; 3]%N) ]).
  - reflexivity.
  - reflexivity.
  - reflexivity.
Defined.

Example generate_image_run :
  generate_image StubMore.image_model (u "a cat") (u "1:1") = Ret [137; 80; 78]%N
  /\ generate_image StubMore.image_model [] (u "1:1")
     = Raise (mk_RuntimeError (u "Image generation returned no image data.")).
Proof. split; vm_compute; reflexivity. Qed.

(** X2 on the doubles: the first bytes of a PNG file. *)
Lemma X2_witness_png_header :
  b64decode (b64encode [137; 80; 78; 71; 13; 10; 26; 10]%N)
  = Ret [137; 80; 78; 71; 13; 10; 26; 10]%N
  /\ message_attachments
       (_build_user_message (u "what is this?") (Some [137; 80; 78; 71; 13; 10; 26; 10]%N)
          (u "image/png"))
     = [ (VStr (u "image/png"), VStr (b64encode [137; 80; 78; 71; 13; 10; 26; 10]%N)) ]
  /\ ([137; 80; 78; 71; 13; 10; 26; 10]%N <> [] ->
      forall image_model aspect_ratio others rest,
        image_model (u "what is this?") aspect_ratio
        = Ret ((InlineObject true
                  (DataStr (b64encode [137; 80; 78; 71; 13; 10; 26; 10]%N)) :: rest)
               :: others) ->
        generate_image image_model (u "what is this?") aspect_ratio
        = Ret [137; 80; 78; 71; 13; 10; 26; 10]%N).
Proof.
  apply (@X2_base64_round_trip [137; 80; 78; 71; 13; 10; 26; 10]%N
           (u "what is this?") (u "image/png")).
  repeat constructor.
Defined.

(* ===================================================================== *)
(** ** Declarations, handlers and the dispatcher, further *)
(* ===================================================================== *)

Section ToolFacts.

Variable X : Externals.

Lemma handlers_lookup_named (n : str) (h : dict -> M value) :
  handlers_lookup (handlers X) n = Some h ->
  (n = u "get_weather_forecast" /\ h = _tool_get_weather_forecast X)
  \/ (n = u "list_calendar_agenda" /\ h = _tool_list_calendar_agenda X)
  \/ (n = u "create_reminder" /\ h = _tool_create_reminder X)
  \/ (n = u "search_public_info" /\ h = _tool_search_public_info X)
  \/ (n = u "draft_email_outline" /\ h = _tool_draft_email_outline X).
Proof.
  unfold handlers. cbn [handlers_lookup].
  destruct (str_eqb (u "get_weather_forecast") n) eqn:E1;
    [ apply str_eqb_eq in E1; intros [= <-]; left; now split | ].
  destruct (str_eqb (u "list_calendar_agenda") n) eqn:E2;
    [ apply str_eqb_eq in E2; intros [= <-]; right; left; now split | ].
  destruct (str_eqb (u "create_reminder") n) eqn:E3;
    [ apply str_eqb_eq in E3; intros [= <-]; right; right; left; now split | ].
  destruct (str_eqb (u "search_public_info") n) eqn:E4;
    [ apply str_eqb_eq in E4; intros [= <-]; right; right; right; left; now split | ].
  destruct (str_eqb (u "draft_email_outline") n) eqn:E5;
    [ apply str_eqb_eq in E5; intros [= <-]; right; right; right; right; now split | ].
  discriminate.
Qed.

Lemma declared_names_are_TOOL_NAMES : declared_names = TOOL_NAMES.
Proof. vm_compute. reflexivity. Qed.

Lemma str_in_In (n : str) (l : list str) : str_in n l = true <-> In n l.
Proof.
  unfold str_in. rewrite existsb_exists. split.
  - intros (x & Hx & E). apply str_eqb_eq in E. now subst.
  - intros H. exists n. split; [ exact H | apply str_eqb_refl ].
Qed.

Lemma TOOL_NAMES_NoDup : NoDup TOOL_NAMES.
Proof.
  unfold TOOL_NAMES.
  repeat (constructor;
          [ cbn [In]; intros H;
            repeat (destruct H as [ H | H ]; [ vm_compute in H; discriminate | ]);
            exact H | ]).
  constructor.
Qed.

Lemma declared_parameters_table :
  declared_parameters (u "get_weather_forecast") = [ u "location"; u "unit" ]
  /\ declared_parameters (u "list_calendar_agenda") = [ u "date" ]
  /\ declared_parameters (u "create_reminder") = [ u "summary"; u "due_time" ]
  /\ declared_parameters (u "search_public_info") = [ u "topic" ]
  /\ declared_parameters (u "draft_email_outline")
     = [ u "recipient"; u "subject"; u "outline" ].
Proof. repeat (split; [ vm_compute; reflexivity | ]). vm_compute. reflexivity. Qed.

(** X3: the tools declared to the backend, the registered names and the
    handler table are the same five names, each once: a name is declared
    exactly when the dispatcher has a handler for it, so the lookup
    [handlers[name]] of a registered name never fails.  Every parameter a
    declaration requires is one it declares. *)
Theorem X3_declared_tools_have_handlers :
  declared_names = TOOL_NAMES
  /\ NoDup declared_names
  /\ (forall n, In n declared_names
                <-> exists h, handlers_lookup (handlers X) n = Some h)
  /\ (forall n, str_in n TOOL_NAMES = true ->
                exists h, handlers_getitem X (VStr n) = Ret h)
  /\ (forall n, In n declared_names ->
                required_parameters n <> []
                /\ incl (required_parameters n) (declared_parameters n)).
Proof.
  split; [ exact declared_names_are_TOOL_NAMES | ].
  rewrite declared_names_are_TOOL_NAMES.
  split; [ exact TOOL_NAMES_NoDup | split; [ | split ] ].
  - intros n. split.
    + intros H. apply registered_handler. now apply str_in_In.
    + intros (h & Hh). apply handlers_lookup_named in Hh. unfold TOOL_NAMES. cbn [In].
      destruct Hh as [ (E & _) | [ (E & _) | [ (E & _) | [ (E & _) | (E & _) ] ] ] ];
        symmetry in E.
      * left. exact E.
      * right; left. exact E.
      * do 2 right; left. exact E.
      * do 3 right; left. exact E.
      * do 4 right; left. exact E.
  - intros n Hn. destruct (registered_handler X n Hn) as (h & Hh).
    exists h. unfold handlers_getitem. now rewrite Hh.
  - intros n Hn. unfold TOOL_NAMES in Hn. cbn [In] in Hn.
    destruct Hn as [ <- | [ <- | [ <- | [ <- | [ <- | [] ] ] ] ] ];
      (split; [ vm_compute; discriminate | ]);
      intros k Hk; vm_compute in Hk; vm_compute; tauto.
Qed.

Ltac same_field H k :=
  let E := fresh "E" in
  assert (E := H k); cbn [In] in E;
  rewrite (E ltac:(auto 6)); clear E.

(** X4: a handler reads the arguments its declaration names and no others:
    two argument mappings that agree on the declared parameters of a tool
    get the same result and the same effect from its handler. *)
Theorem X4_handlers_read_declared_parameters (n : str) (h : dict -> M value)
    (d d' : dict) (self : GeminiAssistant) :
  handlers_lookup (handlers X) n = Some h ->
  agree_on (declared_parameters n) d d' ->
  h d self = h d' self.
Proof.
  intros Hh Ha. unfold agree_on in Ha.
  destruct declared_parameters_table as (T1 & T2 & T3 & T4 & T5).
  destruct (@handlers_lookup_named n h Hh)
    as [ (-> & ->) | [ (-> & ->) | [ (-> & ->) | [ (-> & ->) | (-> & ->) ] ] ] ].
  - rewrite T1 in Ha.
    unfold _tool_get_weather_forecast, py_get_default, py_get.
    same_field Ha (u "location"). same_field Ha (u "unit"). reflexivity.
  - rewrite T2 in Ha.
    unfold _tool_list_calendar_agenda, py_get.
    same_field Ha (u "date"). reflexivity.
  - rewrite T3 in Ha.
    unfold _tool_create_reminder, py_get_default, py_get.
    same_field Ha (u "summary"). same_field Ha (u "due_time"). reflexivity.
  - rewrite T4 in Ha.
    unfold _tool_search_public_info, py_get_default.
    same_field Ha (u "topic"). reflexivity.
  - rewrite T5 in Ha.
    unfold _tool_draft_email_outline, py_get_default.
    same_field Ha (u "recipient"). same_field Ha (u "subject").
    same_field Ha (u "outline"). reflexivity.
Qed.

End ToolFacts.

Section MoreHandlerFacts.

Variable X : Externals.

Lemma dispatch_nameless (fc : dict) (self : GeminiAssistant) :
  dict_get fc (u "name") = None ->
  _dispatch_tool_call X (VDict fc) self
  = (Ret (error_result (u "Tool '" ++ u "None" ++ u "' is not available.")), self).
Proof.
  intros Hn. unfold _dispatch_tool_call, mbind, lift, py_get, not_in_TOOL_NAMES.
  rewrite Hn. reflexivity.
Qed.

(** X5: the dispatcher on a request that lacks a key.  Without a [name] the
    answer is ["Tool 'None' is not available."]; without [args] the handler
    of a registered name is run on the empty mapping; a request that is not
    a mapping at all raises [AttributeError]. *)
Theorem X5_dispatch_missing_keys :
  (forall fc self,
     dict_get fc (u "name") = None ->
     _dispatch_tool_call X (VDict fc) self
     = (Ret (error_result (u "Tool '" ++ u "None" ++ u "' is not available.")), self))
  /\ (forall fc n self,
        dict_get fc (u "name") = Some (VStr n) ->
        str_in n TOOL_NAMES = true ->
        dict_get fc (u "args") = None ->
        exists h, handlers_lookup (handlers X) n = Some h
                  /\ _dispatch_tool_call X (VDict fc) self = h [] self)
  /\ (forall function_call self,
        (forall fc, function_call <> VDict fc) ->
        _dispatch_tool_call X function_call self
        = (Raise (no_attribute function_call (u "get")), self)).
Proof.
  split; [ | split ].
  - intros fc self. apply dispatch_nameless.
  - intros fc n self Hn Hr Ha. destruct (registered_handler X n Hr) as [h Hh].
    exists h. split; [ exact Hh | ].
    unfold _dispatch_tool_call, mbind, lift, py_get, py_get_default, handlers_getitem,
      not_in_TOOL_NAMES.
    rewrite Hn, Hr, Hh, Ha. reflexivity.
  - intros function_call self Hf.
    unfold _dispatch_tool_call, mbind, lift, py_get.
    destruct function_call; try reflexivity. exfalso. now apply (Hf d).
Qed.

(** X9: [create_reminder] stores a reminder or changes nothing.  Either it
    returns [status: stored], the reminder it echoes is the one added at the
    end of the list and [total] is the length of the list afterwards; or the
    assistant is exactly as before and what is returned, if anything, is a
    result [{error: ...}]. *)
Theorem X9_create_reminder_stores_or_leaves (arguments : dict) (self : GeminiAssistant) :
  (exists reminder,
     _tool_create_reminder X arguments self
     = (Ret (VDict [ (u "status", VStr (u "stored"));
                     (u "reminder", reminder);
                     (u "total",
                      VInt (Z.of_nat (S (length (reminders (_state self)))))) ]),
        mk_GeminiAssistant
          (mk_AssistantState (reminders (_state self) ++ [reminder])
                             (calendar_seed (_state self)))
          (_history self)))
  \/ (snd (_tool_create_reminder X arguments self) = self
      /\ forall res,
           fst (_tool_create_reminder X arguments self) = Ret res ->
           exists msg, res = error_result msg).
Proof.
  unfold _tool_create_reminder, mbind, lift.
  destruct (py_get_default (VDict arguments) (u "summary") (VStr [])) as [ s0 | e ];
    [ | right; split; [ reflexivity | discriminate ] ].
  destruct (py_strip_method s0) as [ summary | e ];
    [ | right; split; [ reflexivity | discriminate ] ].
  cbn [py_get].
  destruct (negb (truthy (VStr summary)));
    [ right; split; [ reflexivity | intros res [= <-]; eauto ] | ].
  destruct (negb (truthy _));
    [ right; split; [ reflexivity | intros res [= <-]; eauto ] | ].
  destruct (date_parser_parse X _) as [ dt | exc ].
  - left. eexists. unfold mbind, reminders_append. cbn.
    rewrite length_app, Nat.add_comm. reflexivity.
  - right. destruct (is_ValueError_or_TypeError exc);
      (split; [ reflexivity | ]); [ intros res [= <-]; eauto | discriminate ].
Qed.

Lemma weather_url_eq (location : str) :
  weather_url location
  = u "https://wttr.in/" ++ py_replace_char 32%N (u "%20") location ++ u "?format=j1".
Proof. unfold weather_url. reflexivity. Qed.

Lemma wikipedia_url_eq (topic : str) :
  wikipedia_url topic
  = u "https://en.wikipedia.org/api/rest_v1/page/summary/"
    ++ py_replace_char 32%N (u "%20") topic.
Proof. unfold wikipedia_url. reflexivity. Qed.

Lemma optional_string_get (arguments : dict) (k : str) :
  optional_string arguments k ->
  exists v, py_get (VDict arguments) k = Ret v
            /\ exists s, (if truthy v then v else VStr (u "fahrenheit")) = VStr s.
Proof.
  unfold py_get. intros [ -> | (s & ->) ].
  - eexists. split; [ reflexivity | ]. cbn. eauto.
  - eexists. split; [ reflexivity | ]. destruct s; cbn; eauto.
Qed.

(** X10: [get_weather_forecast] with a location that is absent or blank
    answers [{error: "Missing location."}] whatever the provider would say.
    With a location, a request that fails with an instance of [Exception] is
    answered [{location, error: "Weather provider unavailable: ..."}], the
    location being the stripped argument; any other exception is raised. *)
Theorem X10_weather_missing_location_and_failure (arguments : dict)
    (self : GeminiAssistant) :
  optional_string arguments (u "unit") ->
  (blank_field arguments (u "location") ->
   _tool_get_weather_forecast X arguments self
   = (Ret (error_result (u "Missing location.")), self))
  /\ (forall s e,
        dict_get arguments (u "location") = Some (VStr s) ->
        py_strip s <> [] ->
        requests_get_json X (weather_url (py_strip s)) = Raise e ->
        _tool_get_weather_forecast X arguments self
        = if isinstance e Exception
          then (Ret (VDict [ (u "location", VStr (py_strip s));
                             (u "error",
                              VStr (u "Weather provider unavailable: " ++ exn_msg e)) ]),
                self)
          else (Raise e, self)).
Proof.
  intros Hu. destruct (optional_string_get Hu) as (unit0 & Hg & unit_s & Hs).
  split.
  - intros Hb. unfold _tool_get_weather_forecast, mbind, lift.
    rewrite Hg, Hs. cbn [py_lower_method].
    unfold py_get_default.
    destruct Hb as [ -> | (s & -> & Hb) ]; cbn [py_strip_method].
    + reflexivity.
    + rewrite Hb. reflexivity.
  - intros s e Hl Hne Hr. unfold _tool_get_weather_forecast, mbind, lift.
    rewrite Hg, Hs. cbn [py_lower_method].
    unfold py_get_default. rewrite Hl.
    change (py_strip_method (VStr s)) with (Ret (py_strip s)).
    cbn [obind].
    destruct (py_strip s) as [ | c r ] eqn:E; [ congruence | ].
    cbn [truthy negb]. unfold try_except_Exception, lift.
    rewrite weather_url_eq in Hr. rewrite Hr. cbn [obind].
    destruct (isinstance e Exception); reflexivity.
Qed.

(** X11: [search_public_info] with a topic that is absent or blank answers
    [{error: "Topic cannot be empty."}]; with a topic, a request that fails
    with an instance of [Exception] is answered
    [{topic, error: "Wikipedia lookup failed: ..."}], and any other
    exception is raised.  When the page has no [extract] the summary is its
    [description]. *)
Theorem X11_search_blank_topic_and_failure (arguments : dict) (self : GeminiAssistant) :
  (blank_field arguments (u "topic") ->
   _tool_search_public_info X arguments self
   = (Ret (error_result (u "Topic cannot be empty.")), self))
  /\ (forall s e,
        dict_get arguments (u "topic") = Some (VStr s) ->
        py_strip s <> [] ->
        requests_get_json X (wikipedia_url (py_strip s)) = Raise e ->
        _tool_search_public_info X arguments self
        = if isinstance e Exception
          then (Ret (VDict [ (u "topic", VStr (py_strip s));
                             (u "error",
                              VStr (u "Wikipedia lookup failed: " ++ exn_msg e)) ]),
                self)
          else (Raise e, self))
  /\ (forall s data description,
        dict_get arguments (u "topic") = Some (VStr s) ->
        py_strip s <> [] ->
        requests_get_json X (wikipedia_url (py_strip s)) = Ret (VDict data) ->
        dict_get data (u "extract") = None ->
        dict_get data (u "description") = Some description ->
        dict_get data (u "content_urls") = None ->
        _tool_search_public_info X arguments self
        = (Ret (VDict [ (u "title",
                         match dict_get data (u "title") with
                         | Some title => title
                         | None => VStr (py_strip s)
                         end);
                        (u "summary", description);
                        (u "url", VNone);
                        (u "source", VStr (u "wikipedia")) ]),
           self)).
Proof.
  split; [ | split ].
  - intros Hb. unfold _tool_search_public_info, mbind, lift, py_get_default.
    destruct Hb as [ -> | (s & -> & Hb) ]; cbn [py_strip_method].
    + reflexivity.
    + rewrite Hb. reflexivity.
  - intros s e Hl Hne Hr. unfold _tool_search_public_info, mbind, lift, py_get_default.
    rewrite Hl. cbn [py_strip_method].
    destruct (py_strip s) as [ | c r ] eqn:E; [ congruence | ].
    cbn [truthy negb]. unfold try_except_Exception, lift.
    rewrite wikipedia_url_eq in Hr. rewrite Hr. cbn [obind].
    destruct (isinstance e Exception); reflexivity.
  - intros s data description Hl Hne Hr He Hd Hc.
    unfold _tool_search_public_info, mbind, lift, py_get_default.
    rewrite Hl. cbn [py_strip_method].
    destruct (py_strip s) as [ | c r ] eqn:E; [ congruence | ].
    cbn [truthy negb]. unfold try_except_Exception, lift.
    rewrite wikipedia_url_eq in Hr. rewrite Hr. cbn [obind py_get].
    rewrite He. cbn [truthy obind py_get]. rewrite Hd. cbn [obind py_get_default].
    rewrite Hc. cbn [obind py_get_default py_get dict_get]. reflexivity.
Qed.

(** X12: [list_calendar_agenda] answers by the day alone.  Two dates that
    the parser reads as the same day, whatever their time of day and however
    they are written, get the same result; a day with no entry in the
    calendar gets an empty list of events, not an error; a date that is
    absent or empty gets [{error: "Provide a date in YYYY-MM-DD format."}]
    and the parser is not asked. *)
Theorem X12_agenda_by_day (self : GeminiAssistant) :
  (forall arguments1 arguments2 raw1 raw2 dt1 dt2,
     dict_get arguments1 (u "date") = Some raw1 -> truthy raw1 = true ->
     dict_get arguments2 (u "date") = Some raw2 -> truthy raw2 = true ->
     date_parser_parse X raw1 = Ret dt1 ->
     date_parser_parse X raw2 = Ret dt2 ->
     datetime_date dt1 = datetime_date dt2 ->
     _tool_list_calendar_agenda X arguments1 self
     = _tool_list_calendar_agenda X arguments2 self)
  /\ (forall arguments raw dt,
        dict_get arguments (u "date") = Some raw -> truthy raw = true ->
        date_parser_parse X raw = Ret dt ->
        dict_get (calendar_seed (_state self)) (date_isoformat (datetime_date dt)) = None ->
        _tool_list_calendar_agenda X arguments self
        = (Ret (VDict [ (u "date", VStr (date_isoformat (datetime_date dt)));
                        (u "events", VList []) ]),
           self))
  /\ (forall arguments,
        dict_get arguments (u "date") = None
        \/ (exists raw, dict_get arguments (u "date") = Some raw /\ truthy raw = false) ->
        _tool_list_calendar_agenda X arguments self
        = (Ret (error_result (u "Provide a date in YYYY-MM-DD format.")), self)).
Proof.
  split; [ | split ].
  - intros a1 a2 raw1 raw2 dt1 dt2 H1 T1 H2 T2 P1 P2 E.
    unfold _tool_list_calendar_agenda, mbind, lift, py_get.
    rewrite H1, H2, T1, T2, P1, P2, E. reflexivity.
  - intros a raw dt H T P Hn.
    unfold _tool_list_calendar_agenda, mbind, lift, py_get.
    rewrite H, T, P. cbn [negb]. rewrite Hn. reflexivity.
  - intros a Ha. unfold _tool_list_calendar_agenda, mbind, lift, py_get.
    destruct Ha as [ -> | (raw & -> & ->) ]; reflexivity.
Qed.

End MoreHandlerFacts.

(* ===================================================================== *)
(** ** The loop and the public methods, further *)
(* ===================================================================== *)





Section MoreLoopFacts.

Variable X : Externals.

Lemma chat_runs_loop (fuel : nat) (prompt : str) (image_bytes : option (list N))
    (mime_type : str) (self : GeminiAssistant) :
  ~ (prompt = [] /\ image_bytes = None) ->
  chat X fuel prompt image_bytes mime_type self
  = match _generate_until_complete X fuel
            (mk_GeminiAssistant (_state self)
               (_history self ++ [_build_user_message prompt image_bytes mime_type]))
    with
    | None => None
    | Some (Raise e, self') => Some (Raise e, self')
    | Some (Ret response, self') =>
        Some ((parts <- py_get_default response (u "parts") (VList []) ;;
               _parts_to_text parts)%O, self')
    end.
Proof.
  intros Hn.
  destruct (chat_inv X fuel prompt image_bytes mime_type self)
    as [ (Hp & Hi & _) | (_ & E) ]; [ now destruct Hn | exact E ].
Qed.

Lemma chat_appends (fuel : nat) (prompt : str) (image_bytes : option (list N))
    (mime_type : str) (self : GeminiAssistant) (r : outcome str)
    (self' : GeminiAssistant) :
  ~ (prompt = [] /\ image_bytes = None) ->
  chat X fuel prompt image_bytes mime_type self = Some (r, self') ->
  extends (_history self ++ [_build_user_message prompt image_bytes mime_type])
          (_history self')
  /\ calendar_seed (_state self') = calendar_seed (_state self)
  /\ extends (reminders (_state self)) (reminders (_state self')).
Proof.
  intros Hn H. rewrite (@chat_runs_loop fuel prompt image_bytes mime_type self Hn) in H.
  destruct (_generate_until_complete X fuel _) as [ [ r0 s1 ] | ] eqn:L;
    [ | discriminate ].
  apply loop_appends in L. cbn [_history _state] in L.
  destruct r0; injection H as _ <-; exact L.
Qed.

(** X6: a call without a name stops the conversation.  The dispatcher answers
    such a call with an error result, but the transcript entry is
    built from [function_call["name"]]: the loop raises [KeyError], with the
    message of the backend already in the transcript and no tool entry after
    it; the calls that follow in the same message are not run. *)
Theorem X6_nameless_call_raises_KeyError (fuel : nat) (self : GeminiAssistant)
    (m : value) (fc : dict) (rest : list value) :
  backend_says X (_history self) m ->
  _extract_function_calls m = Ret (VDict fc :: rest) ->
  dict_get fc (u "name") = None ->
  _generate_until_complete X (S fuel) self
  = Some (Raise (mk_KeyError (u "'" ++ u "name" ++ u "'")),
          mk_GeminiAssistant (_state self) (_history self ++ [m])).
Proof.
  intros (c & cs & Hg & Hc) He Hn.
  cbn [_generate_until_complete].
  unfold generate_round, mbind at 1 2 3 4 5, lift, history_append.
  rewrite Hg. cbn [candidates_getitem_0]. rewrite Hc, He.
  unfold dispatch_all. cbn [mfor]. unfold mbind.
  rewrite (@dispatch_nameless X fc _ Hn).
  unfold lift, py_getitem_key. rewrite Hn. reflexivity.
Qed.


(** X7: a failure of the backend is raised by [chat] as it is, and the user
    message stays in the transcript: nothing is rolled back, so the next
    call sends the unanswered message again, before the new one. *)
Theorem X7_backend_failure_keeps_user_message (fuel : nat) (prompt : str)
    (image_bytes : option (list N)) (mime_type : str) (self : GeminiAssistant)
    (e : exn) :
  ~ (prompt = [] /\ image_bytes = None) ->
  no_message X (_history self ++ [_build_user_message prompt image_bytes mime_type]) e ->
  chat X (S fuel) prompt image_bytes mime_type self
  = Some (Raise e,
          mk_GeminiAssistant (_state self)
            (_history self ++ [_build_user_message prompt image_bytes mime_type])).
Proof.
  intros Hn Hb. rewrite (@chat_runs_loop (S fuel) prompt image_bytes mime_type self Hn).
  cbn [_generate_until_complete].
  unfold generate_round, mbind, lift. cbn [_history _state].
  destruct Hb as [ Hg | [ (Hg & ->) | (type_repr & cs & Hg & ->) ] ];
    rewrite Hg; reflexivity.
Qed.

(** X8: the dispatcher never touches the transcript or the calendar,
    whatever it is asked and however the call ends; [chat] never changes the
    calendar. *)
Theorem X8_calendar_and_transcript_untouched :
  (forall function_call self,
     _history (snd (_dispatch_tool_call X function_call self)) = _history self
     /\ calendar_seed (_state (snd (_dispatch_tool_call X function_call self)))
        = calendar_seed (_state self))
  /\ (forall fuel prompt image_bytes mime_type self r self',
        chat X fuel prompt image_bytes mime_type self = Some (r, self') ->
        calendar_seed (_state self') = calendar_seed (_state self)).
Proof.
  split.
  - intros function_call self.
    destruct (dispatch_adds X function_call self) as (Hh & Hc & _). now split.
  - intros fuel prompt image_bytes mime_type self r self' H.
    destruct (chat_inv X fuel prompt image_bytes mime_type self)
      as [ (_ & _ & E) | (Hn & _) ].
    + rewrite E in H. now injection H as _ <-.
    + now destruct (@chat_appends _ _ _ _ _ _ _ Hn H) as (_ & Hc & _).
Qed.

(** X13: [analyze_image] is a one-off query.  Its result does not depend on
    the conversation so far; afterwards the transcript starts with the image
    message, the earlier conversation is gone even when the call raises, and
    the reminders and the calendar are kept. *)
Theorem X13_analyze_image_one_off (fuel : nat) (prompt : str) (image_bytes : list N)
    (mime_type : str) :
  (forall self1 self2,
     _state self1 = _state self2 ->
     analyze_image X fuel prompt image_bytes mime_type self1
     = analyze_image X fuel prompt image_bytes mime_type self2)
  /\ (forall self r self',
        analyze_image X fuel prompt image_bytes mime_type self = Some (r, self') ->
        (exists more,
           _history self'
           = _build_user_message prompt (Some image_bytes) mime_type :: more)
        /\ message_attachments (_build_user_message prompt (Some image_bytes) mime_type)
           = [ (VStr mime_type, VStr (b64encode image_bytes)) ]
        /\ calendar_seed (_state self') = calendar_seed (_state self)
        /\ extends (reminders (_state self)) (reminders (_state self'))).
Proof.
  split.
  - intros self1 self2 E. unfold analyze_image, reset. cbn [snd]. now rewrite E.
  - intros self r self' H. unfold analyze_image, reset in H. cbn [snd] in H.
    assert (Hn : ~ (prompt = [] /\ Some image_bytes = None)) by (intros (_ & ?); discriminate).
    destruct (@chat_appends _ _ _ _ _ _ _ Hn H) as ((more & Hh) & Hc & Hr).
    cbn [_history _state app] in Hh, Hc, Hr.
    repeat split; try assumption.
    + exists more. exact Hh.
    + destruct prompt; reflexivity.
Qed.



End MoreLoopFacts.

(* ===================================================================== *)
(** ** The constructor and the page *)
(* ===================================================================== *)

Lemma on_every_below_spec (k : N) (f : N -> bool) :
  on_every_below k f = true -> forall n, (n < k)%N -> f n = true.
Proof.
  unfold on_every_below. rewrite forallb_forall. intros H n Hn. apply H.
  apply in_map_iff. exists (N.to_nat n). split; [ lia | apply in_seq; lia ].
Qed.

Lemma reads_back_4_check : on_every_below 10000 (reads_back 4) = true.
Proof. vm_compute. reflexivity. Qed.

Lemma reads_back_2_check : on_every_below 100 (reads_back 2) = true.
Proof. vm_compute. reflexivity. Qed.

Lemma app_inj_length {A : Type} (a a' b b' : list A) :
  length a = length a' -> a ++ b = a' ++ b' -> a = a' /\ b = b'.
Proof.
  revert a'. induction a as [ | x a IH ]; intros [ | x' a' ]; cbn; try discriminate.
  - auto.
  - intros [= Hl] [= -> E]. destruct (IH a' Hl E) as (-> & ->). auto.
Qed.

Lemma days_in_month_bounds (y m : N) : (28 <= days_in_month y m <= 31)%N.
Proof.
  unfold days_in_month.
  destruct (m =? 2)%N; [ destruct (is_leap y); lia | ].
  destruct ((m =? 4) || (m =? 6) || (m =? 9) || (m =? 11))%N; lia.
Qed.

Lemma zfill_inj (w : nat) (k : N) (n n' : N) :
  on_every_below k (reads_back w) = true ->
  (n < k)%N -> (n' < k)%N ->
  forall r r', zfill w (dec n) ++ r = zfill w (dec n') ++ r' -> n = n' /\ r = r'.
Proof.
  intros Hc Hn Hn' r r' E.
  pose proof (@on_every_below_spec _ _ Hc n Hn) as H.
  pose proof (@on_every_below_spec _ _ Hc n' Hn') as H'.
  unfold reads_back in H, H'.
  apply andb_true_iff in H. destruct H as (Hv & Hl).
  apply andb_true_iff in H'. destruct H' as (Hv' & Hl').
  apply N.eqb_eq in Hv, Hv'. apply Nat.eqb_eq in Hl, Hl'.
  apply app_inj_length in E; [ | congruence ].
  destruct E as (E & Er). split; [ | exact Er ].
  rewrite <- Hv, <- Hv', E. reflexivity.
Qed.

Lemma date_isoformat_inj (d d' : date) :
  valid_date d -> valid_date d' -> date_isoformat d = date_isoformat d' -> d = d'.
Proof.
  intros (Hy & Hm & Hd) (Hy' & Hm' & Hd') E.
  pose proof (days_in_month_bounds (d_year d) (d_month d)).
  pose proof (days_in_month_bounds (d_year d') (d_month d')).
  unfold date_isoformat in E.
  apply (@zfill_inj 4 10000%N) in E; [ | exact reads_back_4_check | lia | lia ].
  destruct E as (Ey & E). apply app_inv_head in E.
  apply (@zfill_inj 2 100%N) in E; [ | exact reads_back_2_check | lia | lia ].
  destruct E as (Em & E). apply app_inv_head in E.
  rewrite <- (app_nil_r (zfill 2 (dec (d_day d)))) in E.
  rewrite <- (app_nil_r (zfill 2 (dec (d_day d')))) in E.
  apply (@zfill_inj 2 100%N) in E; [ | exact reads_back_2_check | lia | lia ].
  destruct E as (Ed & _).
  destruct d, d'; cbn in *; congruence.
Qed.

Lemma date_add_one_day_cases (today : date) :
  valid_date today ->
  (today = mk_date 9999 12 31
   /\ date_add_one_day today = Raise (mk_OverflowError (u "date value out of range")))
  \/ (exists tomorrow,
        date_add_one_day today = Ret tomorrow
        /\ valid_date tomorrow /\ tomorrow <> today).
Proof.
  intros (Hy & Hm & Hd). unfold date_add_one_day.
  destruct (d_day today <? days_in_month (d_year today) (d_month today))%N eqn:E1.
  - right. apply N.ltb_lt in E1. eexists. split; [ reflexivity | ].
    split; [ unfold valid_date; cbn; lia | ].
    destruct today; cbn in *. intros [= ?]. lia.
  - apply N.ltb_ge in E1.
    destruct (d_month today <? 12)%N eqn:E2.
    + right. apply N.ltb_lt in E2. eexists. split; [ reflexivity | ].
      pose proof (days_in_month_bounds (d_year today) (d_month today + 1)).
      split; [ unfold valid_date; cbn; lia | ].
      destruct today; cbn in *. intros [= ? ?]. lia.
    + apply N.ltb_ge in E2.
      destruct (d_year today <? 9999)%N eqn:E3.
      * right. apply N.ltb_lt in E3. eexists. split; [ reflexivity | ].
        pose proof (days_in_month_bounds (d_year today + 1) 1).
        split; [ unfold valid_date; cbn; lia | ].
        destruct today; cbn in *. intros [= ? ? ?]. lia.
      * left. apply N.ltb_ge in E3. split; [ | reflexivity ].
        destruct today as [ y m d ]; cbn in *.
        assert (y = 9999%N) by lia. assert (m = 12%N) by lia. subst.
        change (days_in_month 9999 12) with 31%N in *. f_equal. lia.
Qed.

(** X18: the constructor, the calls of the SDK in it taken to succeed.
    Without a key (none given, or empty, in the
    argument and in the environment) it raises [RuntimeError].  With one, on
    a day [today] that has a next day, it makes an assistant with no
    transcript, no reminders and a calendar of exactly two days, today with
    two events and tomorrow with one, under two different keys; on
    9999-12-31 it raises [OverflowError]. *)
Theorem X18_fresh_assistant_calendar (api_key env_key : option str) (today : date) :
  valid_date today ->
  (~ key_given api_key env_key ->
   GeminiAssistant_init api_key env_key today
   = Raise (mk_RuntimeError (u "GOOGLE_API_KEY environment variable is not set.")))
  /\ (key_given api_key env_key ->
      (today = mk_date 9999 12 31
       /\ GeminiAssistant_init api_key env_key today
          = Raise (mk_OverflowError (u "date value out of range")))
      \/ (exists tomorrow assistant first second third,
            date_add_one_day today = Ret tomorrow
            /\ date_isoformat tomorrow <> date_isoformat today
            /\ GeminiAssistant_init api_key env_key today = Ret assistant
            /\ _history assistant = []
            /\ reminders (_state assistant) = []
            /\ calendar_seed (_state assistant)
               = [ (date_isoformat today, VList [ first; second ]);
                   (date_isoformat tomorrow, VList [ third ]) ])).
Proof.
  intros Hv. split.
  - intros Hk. unfold GeminiAssistant_init.
    destruct api_key as [ [ | c k ] | ];
      try (exfalso; apply Hk; left; eauto; fail);
      (destruct env_key as [ [ | c' k' ] | ];
       [ reflexivity | exfalso; apply Hk; right; eauto | reflexivity ]).
  - intros Hk.
    assert (E : GeminiAssistant_init api_key env_key today
                = (st <- AssistantState_new today [] [] ;;
                   Ret (mk_GeminiAssistant st []))%O).
    { unfold GeminiAssistant_init.
      destruct Hk as [ (c & k & ->) | (c & k & ->) ]; [ reflexivity | ].
      destruct api_key as [ [ | c' k' ] | ]; reflexivity. }
    rewrite E. unfold AssistantState_new. cbn [truthy].
    destruct (date_add_one_day_cases Hv) as [ (Ht & ->) | (tomorrow & -> & Hv' & Hne) ].
    + left. split; [ exact Ht | reflexivity ].
    + right. cbn [obind dict_set].
      assert (Hiso : date_isoformat tomorrow <> date_isoformat today).
      { intros Ei. apply Hne. now apply date_isoformat_inj. }
      assert (Hs : str_eqb (date_isoformat today) (date_isoformat tomorrow) = false).
      { apply str_eqb_neq. congruence. }
      rewrite Hs.
      eexists tomorrow, _, _, _, _.
      repeat (split; [ try reflexivity; assumption | ]). reflexivity.
Qed.

Lemma init_cases (api_key env_key : option str) (today : date) :
  GeminiAssistant_init api_key env_key today
  = Raise (mk_RuntimeError (u "GOOGLE_API_KEY environment variable is not set."))
  \/ GeminiAssistant_init api_key env_key today
     = (st <- AssistantState_new today [] [] ;; Ret (mk_GeminiAssistant st []))%O.
Proof.
  unfold GeminiAssistant_init.
  destruct api_key as [ [ | c k ] | ]; destruct env_key as [ [ | c' k' ] | ]; auto.
Qed.

(** X16: [_init_assistant] never lets a [RuntimeError] out.  Without a key it
    returns [None] and shows nothing; with a key of white space only, the
    stripped key is empty, the constructor falls back on the environment and,
    when that has no key either, its message is shown with [st.error] and
    [None] is returned; with any other key the environment is not consulted.
    With the calls of the SDK in the constructor taken to succeed, what it
    raises, if anything, is what [today + timedelta(days=1)] raised. *)
Theorem X16_init_assistant_contains_RuntimeError (env_key : option str) (today : date) :
  (forall api_key,
     api_key = None \/ api_key = Some [] ->
     _init_assistant api_key env_key today = (Ret None, []))
  /\ (forall k,
        k <> [] -> py_strip k = [] -> ~ key_given None env_key ->
        _init_assistant (Some k) env_key today
        = (Ret None, [ u "GOOGLE_API_KEY environment variable is not set." ]))
  /\ (forall k,
        py_strip k <> [] ->
        _init_assistant (Some k) env_key today = _init_assistant (Some k) None today)
  /\ (forall api_key e,
        fst (_init_assistant api_key env_key today) = Raise e ->
        isinstance e RuntimeError = false /\ date_add_one_day today = Raise e)
  /\ (forall api_key assistant,
        fst (_init_assistant api_key env_key today) = Ret (Some assistant) ->
        snd (_init_assistant api_key env_key today) = []
        /\ _history assistant = [] /\ reminders (_state assistant) = []).
Proof.
  split; [ | split; [ | split; [ | split ] ] ].
  - intros api_key [ -> | -> ]; reflexivity.
  - intros k Hk Hs He. unfold _init_assistant.
    destruct k as [ | c k ]; [ congruence | ]. rewrite Hs.
    unfold GeminiAssistant_init.
    destruct env_key as [ [ | c' k' ] | ];
      [ reflexivity | exfalso; apply He; right; eauto | reflexivity ].
  - intros k Hs. unfold _init_assistant.
    destruct k as [ | c k ]; [ reflexivity | ].
    unfold GeminiAssistant_init.
    destruct (py_strip (c :: k)); [ congruence | reflexivity ].
  - intros api_key e. unfold _init_assistant.
    destruct api_key as [ [ | c k ] | ]; try discriminate.
    destruct (init_cases (Some (py_strip (c :: k))) env_key today) as [ -> | -> ].
    + change (isinstance (mk_RuntimeError _) RuntimeError) with true. discriminate.
    + unfold AssistantState_new. cbn [truthy].
      destruct (date_add_one_day today) as [ tomorrow | exc ] eqn:Ed;
        cbn [obind]; [ discriminate | ].
      destruct (isinstance exc RuntimeError) eqn:Ei; cbn [fst]; [ discriminate | ].
      intros [= <-]. split; [ exact Ei | reflexivity ].
  - intros api_key assistant. unfold _init_assistant.
    destruct api_key as [ [ | c k ] | ]; try discriminate.
    destruct (init_cases (Some (py_strip (c :: k))) env_key today) as [ -> | -> ].
    + change (isinstance (mk_RuntimeError _) RuntimeError) with true. discriminate.
    + unfold AssistantState_new. cbn [truthy].
      destruct (date_add_one_day today) as [ tomorrow | exc ]; cbn [obind fst snd].
      * intros [= <-]. repeat split.
      * destruct (isinstance exc RuntimeError); discriminate.
Qed.

Section FormFacts.

Variable X : Externals.

Lemma chat_form_send_cases (fuel : nat) (user_prompt : str)
    (uploaded_image : option uploaded_file)
    (assistant : GeminiAssistant) (chat_history : list chat_entry) :
  (user_prompt = [] /\ uploaded_image = None
   /\ chat_form_send X fuel user_prompt uploaded_image assistant chat_history
      = Some (Warned (u "Provide a message, an image, or both.")))
  \/ (~ (user_prompt = [] /\ option_map file_bytes uploaded_image = None)
      /\ chat_form_send X fuel user_prompt uploaded_image assistant chat_history
         = match chat X fuel user_prompt (option_map file_bytes uploaded_image)
                   (upload_mime uploaded_image) assistant with
           | None => None
           | Some (Raise e, assistant') => Some (Failed e assistant' chat_history)
           | Some (Ret response, assistant') =>
               Some (Answered assistant'
                       (chat_history
                        ++ [ mk_chat_entry (u "user") user_prompt
                               (option_map file_bytes uploaded_image)
                               (Some (upload_mime uploaded_image));
                             mk_chat_entry (u "assistant") response None None ]))
           end).
Proof.
  unfold chat_form_send. fold (upload_mime uploaded_image).
  destruct user_prompt as [ | c p ]; destruct uploaded_image as [ f | ];
    cbn [truthy negb andb option_map];
    [ right | left | right | right ];
    try (split; [ intros (? & ?); discriminate | reflexivity ]).
  repeat split.
Qed.

(** X17: sending the chat form.  The warning is shown exactly when there is
    neither a message nor an upload, and then the assistant is not called.
    When [chat] returns, the page's history gets two entries, the user's and
    the assistant's, in that order.  When [chat] raises, the page's history
    is left as it was while the assistant's transcript already has the user
    message: the two no longer agree. *)
Theorem X17_chat_form_send (fuel : nat) (user_prompt : str)
    (uploaded_image : option uploaded_file)
    (assistant : GeminiAssistant) (chat_history : list chat_entry) :
  (chat_form_send X fuel user_prompt uploaded_image assistant chat_history
   = Some (Warned (u "Provide a message, an image, or both."))
   <-> user_prompt = [] /\ uploaded_image = None)
  /\ (forall assistant' chat_history',
        chat_form_send X fuel user_prompt uploaded_image assistant chat_history
        = Some (Answered assistant' chat_history') ->
        exists response,
          chat X fuel user_prompt (option_map file_bytes uploaded_image)
            (upload_mime uploaded_image) assistant
          = Some (Ret response, assistant')
          /\ chat_history'
             = chat_history
               ++ [ mk_chat_entry (u "user") user_prompt
                      (option_map file_bytes uploaded_image)
                      (Some (upload_mime uploaded_image));
                    mk_chat_entry (u "assistant") response None None ])
  /\ (forall e assistant' chat_history',
        chat_form_send X fuel user_prompt uploaded_image assistant chat_history
        = Some (Failed e assistant' chat_history') ->
        chat_history' = chat_history
        /\ extends
             (_history assistant
              ++ [ _build_user_message user_prompt
                     (option_map file_bytes uploaded_image)
                     (upload_mime uploaded_image) ])
             (_history assistant')).
Proof.
  destruct (chat_form_send_cases fuel user_prompt uploaded_image assistant chat_history)
    as [ (-> & -> & E) | (Hn & E) ]; rewrite E.
  - split; [ split; auto | split; discriminate ].
  - destruct (chat X fuel _ _ _ _) as [ [ [ response | e0 ] a ] | ] eqn:C.
    + split; [ split; [ discriminate | intros (-> & ->); now destruct Hn ] | ].
      split; [ | discriminate ].
      intros assistant' chat_history' [= <- <-]. eauto.
    + split; [ split; [ discriminate | intros (-> & ->); now destruct Hn ] | ].
      split; [ discriminate | ].
      intros e assistant' chat_history' [= <- <- <-]. split; [ reflexivity | ].
      now destruct (@chat_appends X _ _ _ _ _ _ _ Hn C).
    + split; [ split; [ discriminate | intros (-> & ->); now destruct Hn ] | ].
      split; discriminate.
Qed.

End FormFacts.

(* ===================================================================== *)
(** ** What [generate_image] raises *)
(* ===================================================================== *)

Lemma a2b_base64_raises_Error (s : list N) :
  forall quad_pos leftchar pads out e,
    a2b_base64_from quad_pos leftchar pads out s = Raise e ->
    exists msg, e = mk_binascii_Error msg.
Proof.
  induction s as [ | this_ch r IH ]; intros quad_pos leftchar pads out e;
    cbn [a2b_base64_from].
  - destruct (quad_pos =? 0)%N; [ discriminate | ].
    destruct (quad_pos =? 1)%N; intros [= <-]; eauto.
  - destruct (this_ch =? 61)%N.
    + destruct (2 <=? quad_pos)%N; [ | apply IH ].
      destruct (4 <=? quad_pos + (pads + 1))%N; [ discriminate | apply IH ].
    + destruct (b64_index this_ch); [ | apply IH ].
      destruct (quad_pos =? 0)%N; [ apply IH | ].
      destruct (quad_pos =? 1)%N; [ apply IH | ].
      destruct (quad_pos =? 2)%N; apply IH.
Qed.

Lemma b64decode_raises_ValueError (s : str) (e : exn) :
  b64decode s = Raise e ->
  isinstance e ValueError = true /\ isinstance e Exception = true.
Proof.
  unfold b64decode. destruct (forallb is_ascii s).
  - intros H. apply a2b_base64_raises_Error in H. destruct H as (msg & ->).
    split; reflexivity.
  - intros [= <-]. split; reflexivity.
Qed.

Lemma first_image_data_raises (parts : list inline_data) (e : exn) :
  first_image_data parts = Raise e ->
  e = mk_RuntimeError (u "Image generation returned no image data.")
  \/ exists s, b64decode s = Raise e.
Proof.
  induction parts as [ | inline rest IH ]; cbn [first_image_data].
  - intros [= <-]. now left.
  - destruct (negb (inline_truthy inline)); [ exact IH | ].
    destruct (negb (data_truthy (inline_get_data inline))); [ exact IH | ].
    destruct (inline_get_data inline) as [ | bs | s ];
      [ exact IH | discriminate | eauto ].
Qed.

Section ImageFailures.

Variable image_generate_content : str -> str -> outcome (list (list inline_data)).

(** X19: what [generate_image] raises is what the image model raised, or
    [IndexError] when the response has no candidate, or the [RuntimeError]
    for a response without image data, or what [b64decode] raised on the
    first payload, which is a [ValueError].  So when the image model raises
    instances of [Exception] only, so does [generate_image], and the
    [except Exception] of the image tab catches every failure. *)
Theorem X19_generate_image_failures (prompt aspect_ratio : str) (e : exn) :
  generate_image image_generate_content prompt aspect_ratio = Raise e ->
  (image_generate_content prompt aspect_ratio = Raise e
   \/ (image_generate_content prompt aspect_ratio = Ret []
       /\ e = mk_IndexError (u "list index out of range"))
   \/ e = mk_RuntimeError (u "Image generation returned no image data.")
   \/ (isinstance e ValueError = true /\ exists s, b64decode s = Raise e))
  /\ (raises_Exception (image_generate_content prompt aspect_ratio) ->
      isinstance e Exception = true).
Proof.
  unfold generate_image, raises_Exception.
  destruct (image_generate_content prompt aspect_ratio) as [ [ | parts others ] | e0 ];
    cbn [obind].
  - intros [= <-]. split; [ right; left; now split | reflexivity ].
  - intros H. destruct (first_image_data_raises _ H) as [ -> | (s & Hs) ].
    + split; [ do 2 right; now left | reflexivity ].
    + destruct (b64decode_raises_ValueError _ Hs) as (Hv & Hx).
      split; [ do 3 right; eauto | intros _; exact Hx ].
  - intros [= <-]. split; [ now left | intros H; now apply H ].
Qed.

End ImageFailures.

(* ===================================================================== *)
(** ** The further properties on the doubles *)
(* ===================================================================== *)

(** X4 on the doubles: an argument the declaration does not name changes
    nothing. *)
Lemma X4_witness_undeclared_argument :
  _tool_get_weather_forecast Stub.X_answers
    [ (u "location", VStr (u "Paris")) ] Stub.fresh
  = _tool_get_weather_forecast Stub.X_answers
      [ (u "location", VStr (u "Paris")); (u "days", VInt 3) ] Stub.fresh.
Proof.
  apply (@X4_handlers_read_declared_parameters Stub.X_answers (u "get_weather_forecast")).
  - unfold handlers. cbn [handlers_lookup]. rewrite str_eqb_refl. reflexivity.
  - intros k Hk. vm_compute in Hk.
    destruct Hk as [ <- | [ <- | [] ] ]; vm_compute; reflexivity.
Defined.

(** X10 on the doubles: no location, and a location the provider does not
    serve. *)
Lemma X10_witness_provider_down :
  _tool_get_weather_forecast Stub.X_answers [ (u "unit", VStr (u "celsius")) ] Stub.fresh
  = (Ret (error_result (u "Missing location.")), Stub.fresh)
  /\ _tool_get_weather_forecast Stub.X_answers [ (u "location", VStr (u "Lyon")) ] Stub.fresh
     = (Ret (VDict [ (u "location", VStr (py_strip (u "Lyon")));
                     (u "error",
                      VStr (u "Weather provider unavailable: "
                            ++ u "connection refused")) ]),
        Stub.fresh).
Proof.
  split.
  - apply (@X10_weather_missing_location_and_failure Stub.X_answers
             [ (u "unit", VStr (u "celsius")) ] Stub.fresh).
    + right. eexists. vm_compute. reflexivity.
    + left. vm_compute. reflexivity.
  - refine (proj2 (@X10_weather_missing_location_and_failure Stub.X_answers
                     [ (u "location", VStr (u "Lyon")) ] Stub.fresh _)
              (u "Lyon")
              (mk_exn [OtherClass (u "ConnectionError"); Exception; BaseException]
                      (u "connection refused")) _ _ _).
    + left. vm_compute. reflexivity.
    + vm_compute. reflexivity.
    + vm_compute. discriminate.
    + vm_compute. reflexivity.
Defined.

(** X6 on the doubles: the backend asks for a call and gives no name. *)
Lemma X6_witness_call_without_name :
  _generate_until_complete StubMore.X_nameless 1 Stub.fresh
  = Some (Raise (mk_KeyError (u "'" ++ u "name" ++ u "'")),
          mk_GeminiAssistant (_state Stub.fresh)
            (_history Stub.fresh ++ [ VDict (StubMore.request StubMore.nameless_call) ])).
Proof.
  apply (@X6_nameless_call_raises_KeyError StubMore.X_nameless 0 Stub.fresh
           (VDict (StubMore.request StubMore.nameless_call)) StubMore.nameless_call []).
  - exists (ContentDict (StubMore.request StubMore.nameless_call)), [].
    split; reflexivity.
  - vm_compute. reflexivity.
  - vm_compute. reflexivity.
Defined.

(** X7 on the doubles: the backend cannot be reached. *)
Lemma X7_witness_backend_down :
  chat StubMore.X_fails 1 (u "hello") None (u "image/png") Stub.fresh
  = Some (Raise StubMore.unavailable,
          mk_GeminiAssistant (_state Stub.fresh)
            (_history Stub.fresh
             ++ [ _build_user_message (u "hello") None (u "image/png") ])).
Proof.
  apply (@X7_backend_failure_keeps_user_message StubMore.X_fails 0 (u "hello") None
           (u "image/png") Stub.fresh StubMore.unavailable).
  - intros (H & _). vm_compute in H. discriminate.
  - left. reflexivity.
Defined.


(** X18 on a leap day: the second entry of the calendar is the first of
    March. *)
Lemma X18_witness_leap_day :
  exists assistant,
    GeminiAssistant_init (Some (u "key")) None (mk_date 2024 2 29) = Ret assistant
    /\ dict_keys (calendar_seed (_state assistant))
       = [ date_isoformat (mk_date 2024 2 29); date_isoformat (mk_date 2024 3 1) ].
Proof.
  assert (Hv : valid_date (mk_date 2024 2 29)).
  { unfold valid_date. cbn [d_year d_month d_day].
    change (days_in_month 2024 2) with 29%N. lia. }
  assert (Hk : key_given (Some (u "key")) None).
  { left. exists 107%N, (u "ey"). vm_compute. reflexivity. }
  destruct (proj2 (@X18_fresh_assistant_calendar (Some (u "key")) None
                     (mk_date 2024 2 29) Hv) Hk)
    as [ (Ht & _)
       | (tomorrow & assistant & first & second & third
          & Hd & _ & Hi & _ & _ & Hc) ].
  - discriminate Ht.
  - exists assistant. split; [ exact Hi | ].
    vm_compute in Hd. injection Hd as <-.
    rewrite Hc. reflexivity.
Defined.

(** X19 on the doubles: a payload cut short. *)
Lemma X19_witness_truncated_payload :
  (StubMore.truncated_image_model (u "a cat") (u "1:1")
   = Raise (mk_binascii_Error (u "Incorrect padding"))
   \/ (StubMore.truncated_image_model (u "a cat") (u "1:1") = Ret []
       /\ mk_binascii_Error (u "Incorrect padding")
          = mk_IndexError (u "list index out of range"))
   \/ mk_binascii_Error (u "Incorrect padding")
      = mk_RuntimeError (u "Image generation returned no image data.")
   \/ (isinstance (mk_binascii_Error (u "Incorrect padding")) ValueError = true
       /\ exists s, b64decode s = Raise (mk_binascii_Error (u "Incorrect padding"))))
  /\ (raises_Exception (StubMore.truncated_image_model (u "a cat") (u "1:1")) ->
      isinstance (mk_binascii_Error (u "Incorrect padding")) Exception = true).
Proof.
  apply (@X19_generate_image_failures StubMore.truncated_image_model (u "a cat")
           (u "1:1") (mk_binascii_Error (u "Incorrect padding"))).
  vm_compute. reflexivity.
Defined.

Example chat_form_send_run :
  chat_form_send Stub.X_answers 1 [] None Stub.fresh []
  = Some (Warned (u "Provide a message, an image, or both."))
  /\ (exists assistant',
        chat_form_send Stub.X_answers 1 (u "hello") None Stub.fresh []
        = Some (Answered assistant'
                  [ mk_chat_entry (u "user") (u "hello") None (Some (u "image/png"));
                    mk_chat_entry (u "assistant") (u "Done.") None None ])
        /\ length (_history assistant') = 2)
  /\ (exists assistant',
        chat_form_send StubMore.X_fails 1 []
          (Some (mk_uploaded_file [137; 80; 78]%N (u "image/jpeg"))) Stub.fresh []
        = Some (Failed StubMore.unavailable assistant' [])
        /\ length (_history assistant') = 1).
Proof.
  split; [ vm_compute; reflexivity | split ];
    eexists; (split; [ vm_compute; reflexivity | reflexivity ]).
Qed.

Example init_assistant_run :
  _init_assistant (Some (u "  ")) None (mk_date 2024 3 1)
  = (Ret None, [ u "GOOGLE_API_KEY environment variable is not set." ])
  /\ _init_assistant (Some (u " key ")) None (mk_date 2024 3 1)
     = (Ret (Some Stub.fresh), [])
  /\ _init_assistant (Some (u "key")) None (mk_date 9999 12 31)
     = (Raise (mk_OverflowError (u "date value out of range")), []).
Proof. repeat (split; [ vm_compute; reflexivity | ]). vm_compute. reflexivity. Qed.

(* ===================================================================== *)
(** ** Timestamps: what [isoformat] writes *)
(* ===================================================================== *)

Lemma dec_codes (n : N) : dec n = uint_codes (N.to_uint n).
Proof.
  unfold dec. generalize (N.to_uint n). intros d.
  induction d; unfold u in *; cbn in *; try (f_equal; assumption).
Qed.

Lemma uint_codes_length (d : Decimal.uint) :
  length (uint_codes d) = Decimal.nb_digits d.
Proof. induction d; cbn; congruence. Qed.

Lemma uint_codes_digits (d : Decimal.uint) : forallb is_digit (uint_codes d) = true.
Proof. induction d; cbn; auto. Qed.

Lemma digits_number_acc (d : Decimal.uint) :
  forall p,
    fold_left (fun acc c => (acc * 10 + (c - 48))%N) (uint_codes d) (N.pos p)
    = N.pos (Pos.of_uint_acc d p).
Proof.
  induction d; intros p; cbn [uint_codes fold_left Pos.of_uint_acc];
    [ reflexivity | .. ];
    match goal with
    | |- fold_left _ _ ?a = N.pos (Pos.of_uint_acc _ ?q) =>
        replace a with (N.pos q) by lia; apply IHd
    end.
Qed.

Lemma digits_number_uint (d : Decimal.uint) : digits_number (uint_codes d) = N.of_uint d.
Proof.
  unfold digits_number, N.of_uint.
  induction d; cbn [uint_codes fold_left Pos.of_uint];
    [ reflexivity | exact IHd | .. ];
    match goal with
    | |- fold_left _ _ ?a = N.pos (Pos.of_uint_acc _ ?q) =>
        replace a with (N.pos q) by lia; apply digits_number_acc
    end.
Qed.

Lemma digits_number_dec (n : N) : digits_number (dec n) = n.
Proof. rewrite dec_codes, digits_number_uint. apply DecimalN.Unsigned.of_to. Qed.

Lemma digits_number_zeros (k : nat) (s : str) :
  digits_number (repeat 48%N k ++ s) = digits_number s.
Proof.
  unfold digits_number. induction k as [ | k IH ]; [ reflexivity | exact IH ].
Qed.

Lemma uint_codes_digit (k : N) (l : Decimal.uint) :
  (k < 10)%N -> uint_codes (uint_digit k l) = (48 + k)%N :: uint_codes l.
Proof.
  intros H.
  destruct k as [ | [ [ [ [ | | ] | [ | | ] | ] | [ [ | | ] | [ | | ] | ] | ]
                  | [ [ [ | | ] | [ | | ] | ] | [ [ | | ] | [ | | ] | ] | ] | ] ];
    try reflexivity; exfalso; lia.
Qed.

Lemma uint_padded_value (w : nat) :
  forall n acc,
    (n < 10 ^ N.of_nat w)%N ->
    fold_left (fun acc c => (acc * 10 + (c - 48))%N) (uint_codes (uint_padded w n)) acc
    = (acc * 10 ^ N.of_nat w + n)%N.
Proof.
  induction w as [ | w IH ]; intros n acc Hn.
  - cbn in *. lia.
  - cbn [uint_padded].
    assert (Hp : (10 ^ N.of_nat (S w) = 10 * 10 ^ N.of_nat w)%N).
    { rewrite Nat2N.inj_succ, N.pow_succ_r'. reflexivity. }
    assert (H0 : (0 < 10 ^ N.of_nat w)%N) by (apply N.neq_0_lt_0, N.pow_nonzero; lia).
    pose proof (N.Div0.div_mod n (10 ^ N.of_nat w)) as Hd.
    pose proof (N.mod_upper_bound n (10 ^ N.of_nat w) ltac:(lia)) as Hm.
    assert (Hq : (n / 10 ^ N.of_nat w < 10)%N).
    { apply N.Div0.div_lt_upper_bound. lia. }
    rewrite uint_codes_digit by exact Hq.
    cbn [fold_left]. rewrite IH by exact Hm. rewrite Hp.
    rewrite (N.add_comm 48), N.add_sub.
    rewrite Hd at 3. ring.
Qed.

Lemma uint_padded_digits (w : nat) (n : N) : Decimal.nb_digits (uint_padded w n) = w.
Proof.
  revert n. induction w as [ | w IH ]; intros n; [ reflexivity | ].
  cbn [uint_padded]. specialize (IH (n mod 10 ^ N.of_nat w)%N).
  unfold uint_digit.
  destruct (n / 10 ^ N.of_nat w)%N as [ | [ [ [ [ | | ] | [ | | ] | ] | [ [ | | ] | [ | | ] | ] | ]
                  | [ [ [ | | ] | [ | | ] | ] | [ [ | | ] | [ | | ] | ] | ] | ] ];
    cbn; congruence.
Qed.

Lemma dec_length (w : nat) (n : N) :
  (1 <= w)%nat -> (n < 10 ^ N.of_nat w)%N -> (length (dec n) <= w)%nat.
Proof.
  intros Hw Hn.
  assert (E : N.of_uint (uint_padded w n) = n).
  { rewrite <- digits_number_uint. unfold digits_number.
    rewrite uint_padded_value by exact Hn. lia. }
  rewrite dec_codes, uint_codes_length, <- E at 1.
  rewrite DecimalN.Unsigned.to_of.
  rewrite <- (uint_padded_digits w n) at 2.
  apply DecimalFacts.nb_digits_unorm.
  intros Hnil. pose proof (uint_padded_digits w n) as L. rewrite Hnil in L.
  cbn in L. lia.
Qed.

Lemma firstn_exact {A : Type} (a r : list A) (w : nat) :
  length a = w -> firstn w (a ++ r) = a.
Proof.
  intros <-. induction a as [ | x a IH ]; cbn; [ now destruct r | now rewrite IH ].
Qed.

Lemma skipn_exact {A : Type} (a r : list A) (w : nat) :
  length a = w -> skipn w (a ++ r) = r.
Proof. intros <-. induction a as [ | x a IH ]; cbn; [ reflexivity | exact IH ]. Qed.

Lemma take_number_zfill (w : nat) (n : N) (r : str) :
  (1 <= w)%nat -> (n < 10 ^ N.of_nat w)%N ->
  take_number w (zfill w (dec n) ++ r) = Some (n, r).
Proof.
  intros Hw Hn. pose proof (dec_length Hw Hn) as L.
  assert (Hl : length (zfill w (dec n)) = w).
  { unfold zfill. rewrite length_app, repeat_length. lia. }
  assert (Hd : forallb is_digit (zfill w (dec n)) = true).
  { unfold zfill. rewrite forallb_app. apply andb_true_iff. split.
    - apply forallb_forall. intros x Hx. apply repeat_spec in Hx. now subst.
    - rewrite dec_codes. apply uint_codes_digits. }
  assert (Hv : digits_number (zfill w (dec n)) = n).
  { unfold zfill. rewrite digits_number_zeros. apply digits_number_dec. }
  unfold take_number.
  rewrite (@firstn_exact _ _ r w Hl), (@skipn_exact _ _ r w Hl), Hl, Nat.eqb_refl, Hd, Hv.
  reflexivity.
Qed.

Lemma take_number_2 (n : N) (r : str) :
  (n < 100)%N -> take_number 2 (zfill 2 (dec n) ++ r) = Some (n, r).
Proof. intros H. apply take_number_zfill; [ lia | exact H ]. Qed.

Lemma take_number_4 (n : N) (r : str) :
  (n < 10000)%N -> take_number 4 (zfill 4 (dec n) ++ r) = Some (n, r).
Proof. intros H. apply take_number_zfill; [ lia | exact H ]. Qed.

Lemma take_number_6 (n : N) (r : str) :
  (n < 1000000)%N -> take_number 6 (zfill 6 (dec n) ++ r) = Some (n, r).
Proof. intros H. apply take_number_zfill; [ lia | exact H ]. Qed.

Lemma separators :
  u "-" = [45%N] /\ u "T" = [84%N] /\ u ":" = [58%N] /\ u "." = [46%N]
  /\ u "+" = [43%N].
Proof. repeat split. Qed.

Lemma iso_read_offset_isoformat (off : Z) :
  (- 86400 < off < 86400)%Z ->
  iso_read_offset (utcoffset_isoformat off) = Some (Some off).
Proof.
  intros Ho. unfold utcoffset_isoformat.
  set (a := Z.to_N (Z.abs off)).
  assert (Ha : (a < 86400)%N) by lia.
  pose proof (N.Div0.div_mod a 3600) as D1.
  pose proof (N.mod_upper_bound a 3600 ltac:(lia)) as M1.
  pose proof (N.Div0.div_mod (a mod 3600) 60) as D2.
  pose proof (N.mod_upper_bound (a mod 3600) 60 ltac:(lia)) as M2.
  assert (M3 : ((a mod 3600) mod 60 = a mod 60)%N).
  { apply N.mod_unique with (q := (60 * (a / 3600) + a mod 3600 / 60)%N);
      [ exact M2 | lia ]. }
  assert (Hh : (a / 3600 < 100)%N) by (apply N.Div0.div_lt_upper_bound; lia).
  assert (Hm : ((a mod 3600) / 60 < 100)%N) by (apply N.Div0.div_lt_upper_bound; lia).
  assert (Hs : (a mod 60 < 100)%N) by (pose proof (N.mod_upper_bound a 60 ltac:(lia)); lia).
  destruct separators as (Em & _ & Ec & _ & Ep). rewrite !Ec, Em, Ep.
  clear Em Ec Ep.
  assert (E : forall sign,
             ((sign =? 43) || (sign =? 45))%N = true ->
             iso_read_offset
               (sign :: zfill 2 (dec (a / 3600))
                  ++ 58%N :: zfill 2 (dec (a mod 3600 / 60))
                  ++ (if (a mod 60 =? 0)%N then [] else 58%N :: zfill 2 (dec (a mod 60))))
             = Some (Some (if (sign =? 45)%N then (- Z.of_N a)%Z else Z.of_N a))).
  { intros sign Hsign. unfold iso_read_offset. rewrite Hsign.
    rewrite take_number_2 by exact Hh. cbn [take_char]. rewrite N.eqb_refl.
    rewrite take_number_2 by exact Hm.
    destruct (a mod 60 =? 0)%N eqn:Z0.
    - apply N.eqb_eq in Z0.
      replace (a / 3600 * 3600 + a mod 3600 / 60 * 60 + 0)%N with a by lia.
      reflexivity.
    - cbn [take_char]. rewrite N.eqb_refl.
      rewrite <- (app_nil_r (zfill 2 (dec (a mod 60)))).
      rewrite take_number_2 by exact Hs.
      replace (a / 3600 * 3600 + a mod 3600 / 60 * 60 + a mod 60)%N with a by lia.
      reflexivity. }
  destruct (off <? 0)%Z eqn:S.
  - apply Z.ltb_lt in S. cbn [app]. rewrite (E 45%N eq_refl).
    do 2 f_equal. change ((45 =? 45)%N) with true. cbv iota. lia.
  - apply Z.ltb_ge in S. cbn [app]. rewrite (E 43%N eq_refl).
    do 2 f_equal. change ((43 =? 45)%N) with false. cbv iota. lia.
Qed.

Lemma offset_no_point (off : option Z) :
  take_char 46 (match off with None => [] | Some o => utcoffset_isoformat o end) = None.
Proof.
  destruct off as [ o | ]; [ | reflexivity ].
  unfold utcoffset_isoformat. destruct separators as (Em & _ & _ & _ & Ep).
  rewrite Em, Ep. destruct (o <? 0)%Z; reflexivity.
Qed.

(** What [isoformat] writes, [iso_read] reads back. *)
Lemma iso_read_isoformat (dt : datetime) :
  valid_datetime dt -> iso_read (datetime_isoformat dt) = Some dt.
Proof.
  intros ((Hy & Hm & Hd) & Hh & Hmi & Hs & Hus & Ho).
  pose proof (days_in_month_bounds (year dt) (month dt)) as Hdim.
  cbn [datetime_date d_year d_month d_day] in Hy, Hm, Hd.
  unfold datetime_isoformat, date_isoformat.
  cbn [datetime_date d_year d_month d_day].
  destruct separators as (Em & ET & Ec & Ed & _). rewrite !Em, ET, !Ec, Ed.
  rewrite <- !app_assoc. cbn [app].
  unfold iso_read.
  rewrite take_number_4 by lia. cbn [take_char]. rewrite N.eqb_refl.
  rewrite take_number_2 by lia. cbn [take_char]. rewrite N.eqb_refl.
  rewrite take_number_2 by lia. cbn [take_char]. rewrite N.eqb_refl.
  rewrite take_number_2 by lia. cbn [take_char]. rewrite N.eqb_refl.
  rewrite take_number_2 by lia. cbn [take_char]. rewrite N.eqb_refl.
  rewrite take_number_2 by lia.
  set (tail := match utcoffset dt with
               | None => []
               | Some off => utcoffset_isoformat off
               end).
  assert (Ht : iso_read_offset tail = Some (utcoffset dt)).
  { unfold tail. destruct (utcoffset dt) as [ off | ];
      [ now apply iso_read_offset_isoformat | reflexivity ]. }
  destruct (microsecond dt =? 0)%N eqn:Z0.
  - apply N.eqb_eq in Z0. cbn [app].
    unfold tail at 1. rewrite offset_no_point. fold tail.
    rewrite Ht, <- Z0. now destruct dt.
  - cbn [app take_char]. rewrite N.eqb_refl.
    rewrite take_number_6 by exact Hus. rewrite Ht. now destruct dt.
Qed.

Lemma datetime_isoformat_inj (dt dt' : datetime) :
  valid_datetime dt -> valid_datetime dt' ->
  datetime_isoformat dt = datetime_isoformat dt' -> dt = dt'.
Proof.
  intros Hv Hv' E. apply iso_read_isoformat in Hv, Hv'.
  rewrite E in Hv. congruence.
Qed.

Section DueTime.

Variable X : Externals.

(** C10, as the code has it: [create_reminder] stores, and echoes in its
    result, the due time the parser read, written back with [isoformat], not
    the argument.  The stored text is in the form
    [YYYY-MM-DDTHH:MM:SS[.ffffff][+HH:MM[:SS]]] and reads back as the
    timestamp that was parsed.  For an argument that is itself the
    [isoformat] text of a timestamp, the stored text is the argument exactly
    when the parser read that timestamp; an argument that does not read as
    the parsed timestamp in this form (another spelling of ISO 8601 included)
    is stored rewritten, and so is ["March 1 2024 9am"] whatever the parser
    reads. *)
Theorem C10_due_time_normalized (arguments : dict) (self : GeminiAssistant)
    (s raw : str) (dt : datetime) :
  dict_get arguments (u "summary") = Some (VStr s) ->
  py_strip s <> [] ->
  dict_get arguments (u "due_time") = Some (VStr raw) ->
  raw <> [] ->
  date_parser_parse X (VStr raw) = Ret dt ->
  valid_datetime dt ->
  exists stored,
    _tool_create_reminder X arguments self
    = (Ret (VDict [ (u "status", VStr (u "stored"));
                    (u "reminder",
                     VDict [ (u "summary", VStr (py_strip s));
                             (u "due_time", VStr stored) ]);
                    (u "total",
                     VInt (Z.of_nat (S (length (reminders (_state self)))))) ]),
       mk_GeminiAssistant
         (mk_AssistantState
            (reminders (_state self)
             ++ [ VDict [ (u "summary", VStr (py_strip s));
                          (u "due_time", VStr stored) ] ])
            (calendar_seed (_state self)))
         (_history self))
    /\ stored = datetime_isoformat dt
    /\ iso_read stored = Some dt
    /\ (forall dt0,
          valid_datetime dt0 -> raw = datetime_isoformat dt0 ->
          (stored = raw <-> dt = dt0))
    /\ (iso_read raw <> Some dt -> stored <> raw)
    /\ (raw = u "March 1 2024 9am" -> stored <> raw).
Proof.
  intros Hs Hne Hd Hraw Hp Hv.
  assert (Ht : truthy (VStr raw) = true) by (destruct raw; [ congruence | reflexivity ]).
  pose proof (iso_read_isoformat Hv) as Hr.
  exists (datetime_isoformat dt).
  split; [ exact (@create_reminder_stored X arguments self s (VStr raw) dt Hs Hne Hd Ht Hp) | ].
  split; [ reflexivity | split; [ exact Hr | split; [ | split ] ] ].
  - intros dt0 Hv0 ->. split.
    + now apply datetime_isoformat_inj.
    + now intros ->.
  - intros Hn E. apply Hn. now rewrite <- E.
  - intros -> E. rewrite E in Hr. vm_compute in Hr. discriminate.
Qed.

End DueTime.

(* ===================================================================== *)
(** ** The agenda at two moments *)
(* ===================================================================== *)

(** C6, as the code has it: [list_calendar_agenda] leaves the whole assistant
    (reminders, calendar index, transcript) as it found it, however the call
    ends.  A date the parser reads gives the agenda of that day; a date the
    parser refuses with [ValueError] or [TypeError] gives
    [{error: "Invalid date: ..."}], and any other exception of the parser is
    raised by the handler.  A second call with the same arguments ([X'] is
    the world then) returns what the first returned when the parser reads the
    date as it did the first time, and another date when it reads another
    day.  A result with an [error] key has no [events] key. *)
Theorem C6_list_calendar_agenda_read_only (X X' : Externals) (arguments : dict)
    (self : GeminiAssistant) :
  snd (_tool_list_calendar_agenda X arguments self) = self
  /\ (forall raw,
        dict_get arguments (u "date") = Some raw ->
        truthy raw = true ->
        _tool_list_calendar_agenda X arguments self
        = match date_parser_parse X raw with
          | Ret dt =>
              (Ret (VDict [ (u "date", VStr (date_isoformat (datetime_date dt)));
                            (u "events",
                             match dict_get (calendar_seed (_state self))
                                     (date_isoformat (datetime_date dt)) with
                             | Some events => events
                             | None => VList []
                             end) ]),
               self)
          | Raise exc =>
              if is_ValueError_or_TypeError exc
              then (Ret (error_result (u "Invalid date: " ++ exn_msg exc)), self)
              else (Raise exc, self)
          end)
  /\ ((forall raw, dict_get arguments (u "date") = Some raw ->
                   parsed_day X' raw = parsed_day X raw) ->
      _tool_list_calendar_agenda X' arguments
        (snd (_tool_list_calendar_agenda X arguments self))
      = _tool_list_calendar_agenda X arguments self)
  /\ (forall raw day day',
        dict_get arguments (u "date") = Some raw ->
        truthy raw = true ->
        parsed_day X raw = Ret day -> parsed_day X' raw = Ret day' ->
        valid_date day -> valid_date day' -> day <> day' ->
        fst (_tool_list_calendar_agenda X' arguments
               (snd (_tool_list_calendar_agenda X arguments self)))
        <> fst (_tool_list_calendar_agenda X arguments self))
  /\ (forall res,
        fst (_tool_list_calendar_agenda X arguments self) = Ret res ->
        result_has res (u "error") = true ->
        result_has res (u "events") = false).
Proof.
  pose proof (@calendar_read_only X arguments self) as Hro.
  assert (Hcall : forall Y raw,
             dict_get arguments (u "date") = Some raw ->
             truthy raw = true ->
             _tool_list_calendar_agenda Y arguments self
             = match date_parser_parse Y raw with
               | Ret dt =>
                   (Ret (VDict [ (u "date", VStr (date_isoformat (datetime_date dt)));
                                 (u "events",
                                  match dict_get (calendar_seed (_state self))
                                          (date_isoformat (datetime_date dt)) with
                                  | Some events => events
                                  | None => VList []
                                  end) ]),
                    self)
               | Raise exc =>
                   if is_ValueError_or_TypeError exc
                   then (Ret (error_result (u "Invalid date: " ++ exn_msg exc)), self)
                   else (Raise exc, self)
               end).
  { intros Y raw Hd Ht. unfold _tool_list_calendar_agenda, mbind, lift, py_get.
    rewrite Hd, Ht. cbn [negb].
    destruct (date_parser_parse Y raw) as [ dt | exc ]; [ reflexivity | ].
    destruct (is_ValueError_or_TypeError exc); reflexivity. }
  split; [ exact Hro | split; [ exact (Hcall X) | split; [ | split ] ] ].
  - intros Hsame. rewrite Hro.
    destruct (dict_get arguments (u "date")) as [ raw | ] eqn:Hd.
    + specialize (Hsame raw eq_refl). unfold parsed_day in Hsame.
      destruct (truthy raw) eqn:Ht.
      * rewrite (Hcall X' raw eq_refl Ht), (Hcall X raw eq_refl Ht).
        destruct (date_parser_parse X' raw) as [ dt' | exc' ];
          destruct (date_parser_parse X raw) as [ dt | exc ]; try discriminate.
        -- assert (E : datetime_date dt' = datetime_date dt) by congruence.
           rewrite E. reflexivity.
        -- assert (E : exc' = exc) by congruence. rewrite E. reflexivity.
      * unfold _tool_list_calendar_agenda, mbind, lift, py_get.
        rewrite Hd, Ht. reflexivity.
    + unfold _tool_list_calendar_agenda, mbind, lift, py_get. rewrite Hd. reflexivity.
  - intros raw day day' Hd Ht Hp Hp' Hv Hv' Hne. rewrite Hro.
    rewrite (Hcall X' raw Hd Ht), (Hcall X raw Hd Ht).
    unfold parsed_day in Hp, Hp'.
    destruct (date_parser_parse X' raw) as [ dt' | exc' ]; [ | discriminate ].
    destruct (date_parser_parse X raw) as [ dt | exc ]; [ | discriminate ].
    assert (E : datetime_date dt = day) by congruence.
    assert (E' : datetime_date dt' = day') by congruence.
    rewrite E, E'. cbn [fst].
    intros [= Ei _]. apply Hne. symmetry. now apply date_isoformat_inj.
  - intros res. unfold _tool_list_calendar_agenda, mbind, lift, py_get. cbn.
    destruct (truthy _); cbn.
    + destruct (date_parser_parse X _) as [dt | exc]; cbn.
      * intros [= <-]. vm_compute. discriminate.
      * destruct (is_ValueError_or_TypeError exc); cbn; [ | discriminate ].
        intros [= <-] _. reflexivity.
    + intros [= <-] _. reflexivity.
Qed.

(* ===================================================================== *)
(** ** The transcript, the agenda, the outline and the due time on the doubles *)
(* ===================================================================== *)



(** C6 on the doubles: a text that is no date, and the same call again. *)
Lemma C6_witness_not_a_date :
  _tool_list_calendar_agenda Stub.X_answers [ (u "date", VStr (u "not-a-date")) ] Stub.fresh
  = (Ret (error_result (u "Invalid date: " ++ u "Unknown string format: "
                        ++ u "not-a-date")),
     Stub.fresh)
  /\ _tool_list_calendar_agenda Stub.X_answers [ (u "date", VStr (u "not-a-date")) ]
       (snd (_tool_list_calendar_agenda Stub.X_answers
               [ (u "date", VStr (u "not-a-date")) ] Stub.fresh))
     = _tool_list_calendar_agenda Stub.X_answers [ (u "date", VStr (u "not-a-date")) ]
         Stub.fresh.
Proof.
  destruct (C6_list_calendar_agenda_read_only Stub.X_answers Stub.X_answers
              [ (u "date", VStr (u "not-a-date")) ] Stub.fresh)
    as (_ & Hcall & Hsame & _ & _).
  split.
  - rewrite (Hcall (VStr (u "not-a-date")) eq_refl eq_refl). vm_compute. reflexivity.
  - apply Hsame. reflexivity.
Defined.

(** C6, against the specification: a date the parser refuses with
    [OverflowError] makes the handler raise, where the specification has an
    [error] result; and the same argument, a time of day, read on two days
    gives two results. *)
Lemma C6_counterexample_overflow_and_midnight :
  _tool_list_calendar_agenda (StubMore.X_at (mk_date 2024 3 1))
    [ (u "date", VStr (u "99999999999999999999")) ] Stub.fresh
  = (Raise (mk_OverflowError (u "Python int too large to convert to C long")),
     Stub.fresh)
  /\ (exists events,
        _tool_list_calendar_agenda (StubMore.X_at (mk_date 2024 3 1))
          [ (u "date", VStr (u "9am")) ] Stub.fresh
        = (Ret (VDict [ (u "date", VStr (u "2024-03-01")); (u "events", events) ]),
           Stub.fresh))
  /\ (exists events,
        _tool_list_calendar_agenda (StubMore.X_at (mk_date 2024 3 2))
          [ (u "date", VStr (u "9am")) ] Stub.fresh
        = (Ret (VDict [ (u "date", VStr (u "2024-03-02")); (u "events", events) ]),
           Stub.fresh))
  /\ u "2024-03-01" <> u "2024-03-02".
Proof.
  split; [ vm_compute; reflexivity | ].
  split; [ eexists; vm_compute; reflexivity | ].
  split; [ eexists; vm_compute; reflexivity | ].
  intros H. vm_compute in H. discriminate.
Qed.


(** C10 on the doubles: a due time that is not written in ISO form is stored
    rewritten, and one that is the [isoformat] text is stored as it is. *)
Lemma C10_witness_march_1 :
  _tool_create_reminder Stub.X_answers
    [ (u "summary", VStr (u "Pay rent")); (u "due_time", VStr (u "March 1 2024 9am")) ]
    Stub.fresh
  = (Ret (VDict [ (u "status", VStr (u "stored"));
                  (u "reminder",
                   VDict [ (u "summary", VStr (u "Pay rent"));
                           (u "due_time", VStr (u "2024-03-01T09:00:00")) ]);
                  (u "total", VInt 1) ]),
     mk_GeminiAssistant
       (mk_AssistantState
          [ VDict [ (u "summary", VStr (u "Pay rent"));
                    (u "due_time", VStr (u "2024-03-01T09:00:00")) ] ]
          (calendar_seed (_state Stub.fresh)))
       [])
  /\ iso_read (u "2024-03-01T09:00:00") = Some (mk_datetime 2024 3 1 9 0 0 0 None)
  /\ u "2024-03-01T09:00:00" <> u "March 1 2024 9am"
  /\ fst (_tool_create_reminder Stub.X_answers
            [ (u "summary", VStr (u "Pay rent"));
              (u "due_time", VStr (u "2024-03-01T09:00:00")) ]
            Stub.fresh)
     = Ret (VDict [ (u "status", VStr (u "stored"));
                    (u "reminder",
                     VDict [ (u "summary", VStr (u "Pay rent"));
                             (u "due_time", VStr (u "2024-03-01T09:00:00")) ]);
                    (u "total", VInt 1) ]).
Proof.
  assert (Hv : valid_datetime (mk_datetime 2024 3 1 9 0 0 0 None)).
  { vm_compute. intuition (try discriminate; try exact I). }
  destruct (@C10_due_time_normalized Stub.X_answers
              [ (u "summary", VStr (u "Pay rent"));
                (u "due_time", VStr (u "March 1 2024 9am")) ]
              Stub.fresh (u "Pay rent") (u "March 1 2024 9am")
              (mk_datetime 2024 3 1 9 0 0 0 None))
    as (stored & E & Hs & Hr & _ & _ & Hm);
    [ reflexivity | vm_compute; discriminate | reflexivity | vm_compute; discriminate
    | vm_compute; reflexivity | exact Hv | ].
  destruct (@C10_due_time_normalized Stub.X_answers
              [ (u "summary", VStr (u "Pay rent"));
                (u "due_time", VStr (u "2024-03-01T09:00:00")) ]
              Stub.fresh (u "Pay rent") (u "2024-03-01T09:00:00")
              (mk_datetime 2024 3 1 9 0 0 0 None))
    as (stored' & E' & _ & _ & Hsame & _ & _);
    [ reflexivity | vm_compute; discriminate | reflexivity | vm_compute; discriminate
    | vm_compute; reflexivity | exact Hv | ].
  assert (Es : stored = u "2024-03-01T09:00:00") by (rewrite Hs; vm_compute; reflexivity).
  assert (Es' : stored' = u "2024-03-01T09:00:00").
  { apply (Hsame (mk_datetime 2024 3 1 9 0 0 0 None) Hv);
      [ vm_compute; reflexivity | reflexivity ]. }
  rewrite <- Es. split; [ rewrite E; vm_compute; reflexivity | ].
  split; [ exact Hr | split; [ exact (Hm eq_refl) | ] ].
  rewrite Es, E', Es'. vm_compute. reflexivity.
Defined.

(** C10, against the specification: an ISO 8601 timestamp that ends with the
    designator [Z], and one with a space for the [T] and no seconds, are
    stored in another spelling than the argument. *)
Lemma C10_counterexample_trailing_Z :
  fst (_tool_create_reminder Stub.X_answers
         [ (u "summary", VStr (u "Carols"));
           (u "due_time", VStr (u "2024-12-24T18:30:00Z")) ]
         Stub.fresh)
  = Ret (VDict [ (u "status", VStr (u "stored"));
                 (u "reminder",
                  VDict [ (u "summary", VStr (u "Carols"));
                          (u "due_time", VStr (u "2024-12-24T18:30:00+00:00")) ]);
                 (u "total", VInt 1) ])
  /\ u "2024-12-24T18:30:00+00:00" <> u "2024-12-24T18:30:00Z"
  /\ fst (_tool_create_reminder Stub.X_answers
            [ (u "summary", VStr (u "Run"));
              (u "due_time", VStr (u "2030-01-05 07:15")) ]
            Stub.fresh)
     = Ret (VDict [ (u "status", VStr (u "stored"));
                    (u "reminder",
                     VDict [ (u "summary", VStr (u "Run"));
                             (u "due_time", VStr (u "2030-01-05T07:15:00")) ]);
                    (u "total", VInt 1) ])
  /\ u "2030-01-05T07:15:00" <> u "2030-01-05 07:15".
Proof.
  split; [ vm_compute; reflexivity | ].
  split; [ intros H; vm_compute in H; discriminate | ].
  split; [ vm_compute; reflexivity | intros H; vm_compute in H; discriminate ].
Qed.
